(** * homebridge-switchbot: status reconciliation and change push

    A shallow embedding of the device handlers of the plugin
    ([src/device/hub.ts], [src/device/lock.ts], [src/irdevice/irdevice.ts],
    [src/irdevice/other.ts]) and the properties its design document states
    about them.

    Conventions of the embedding.
    - A JavaScript string is a [string]; the characters are the code units
      below 256, among which the line terminators are LF and CR.
    - A finite JavaScript number is a rational ([Q]); status codes, which
      the cloud API sends as integers, are [Z].
    - A value that may be [undefined] is an [option].
    - [accessory.context] and the characteristic values held by HomeKit are
      objects indexed by the characteristic name: [gmap string Value].
    - An [async] method is a function from the state before to the state
      after, together with the list of effects it performed on its
      collaborators (logger, HomeKit services, cloud API, BLE client), in
      program order.  What a collaborator answers is an argument of the
      method.
    - A log entry keeps the logging method and the text of the template;
      an interpolation is rendered where the value is a string or a status
      code and is otherwise left as written in the source. *)

From Stdlib Require Import ZArith QArith Qminmax String Ascii List Bool Lia.
From Stdlib Require Import DecimalString.
From stdpp Require Import gmap strings.
Import ListNotations.

Open Scope string_scope.
Open Scope Z_scope.
Open Scope list_scope.

(** ** Values, logs and effects *)

(** [CharacteristicValue], extended with the [Error] objects that
    [apiError] hands to [updateCharacteristic]. *)
Inductive Value : Type :=
| VNum (q : Q)
| VBool (b : bool)
| VStr (s : string)
| VErr (e : string).

(** JavaScript [===] on these values. *)
Definition strict_eq (a b : Value) : bool :=
  match a, b with
  | VNum x, VNum y => Qeq_bool x y
  | VBool x, VBool y => Bool.eqb x y
  | VStr x, VStr y => String.eqb x y
  | VErr x, VErr y => String.eqb x y
  | _, _ => false
  end.

(** [a !== b] where either side may be [undefined]. *)
Definition strict_neq (a b : option Value) : bool :=
  match a, b with
  | Some x, Some y => negb (strict_eq x y)
  | None, None => false
  | _, _ => true
  end.

(** JavaScript truthiness. *)
Definition truthy (v : Value) : bool :=
  match v with
  | VNum q => negb (Qeq_bool q 0)
  | VBool b => b
  | VStr s => negb (String.eqb s "")
  | VErr _ => true
  end.

(** Whether an optional object is set. *)
Definition present {A} (o : option A) : bool :=
  match o with Some _ => true | None => false end.

Definition truthy_str (o : option string) : bool :=
  match o with Some s => negb (String.eqb s "") | None => false end.

Definition truthy_bool (o : option bool) : bool :=
  match o with Some b => b | None => false end.

(** [`${x}`] for an optional string. *)
Definition show_opt (o : option string) : string :=
  match o with Some s => s | None => "undefined" end.

(** [`${n}`] for an integer. *)
Definition show_Z (n : Z) : string := NilZero.string_of_int (Z.to_int n).

Definition num (n : Z) : Value := VNum (inject_Z n).

Inductive LogMethod : Type :=
| infoLog | successLog | debugSuccessLog | warnLog | debugWarnLog
| errorLog | debugErrorLog | debugLog.

Inductive BLECmd : Type := BLElock | BLEunlock.

(** The callbacks handed to [setTimeout]. *)
Inductive Callback : Type :=
| LatchOff.   (* the arrow function of [Lock.OnSet] that switches the latch off *)

(** What a handler does to its collaborators. *)
Inductive Effect : Type :=
| Log (m : LogMethod) (msg : string)
    (* this[m](msg) *)
| UpdateCharacteristic (service characteristic : string) (v : Value)
    (* Service.updateCharacteristic(c, v), Service.setCharacteristic(c, v),
       or getCharacteristic(c).updateValue(v) *)
| ControlDevice (deviceId command parameter commandType : string)
    (* platform.switchBotAPI.controlDevice(...) through pushChangeRequest *)
| GetStatus
    (* deviceRefreshStatus() *)
| SwitchbotBLE
    (* switchbotBLE() / platform.connectBLE(...) *)
| MonitorAdvertisement
    (* monitorAdvertisementPackets(switchBotBLE) *)
| BLEDiscover
    (* switchBotBLE.discover({ model, id }) *)
| RetryBLE (max : Z) (c : BLECmd)
    (* retryBLE({ max, fn }) with fn the lock() or unlock() of device_list[0] *)
| SetTimeout (ms : Z) (cb : Callback)
    (* setTimeout(cb, ms) *)
| IntervalOnce (ms : Z)
    (* interval(ms).pipe(skipWhile(...)).pipe(take(1)).subscribe(refreshStatus) *)
| DoUpdateNext.
    (* doLockUpdate.next() *)

Definition is_command (e : Effect) : bool :=
  match e with
  | ControlDevice _ _ _ _ => true
  | RetryBLE _ _ => true
  | _ => false
  end.

Definition is_error_log (e : Effect) : bool :=
  match e with Log errorLog _ => true | _ => false end.

(** The commands among the effects, the timers, the signals on
    [doLockUpdate], and the values written to one characteristic. *)
Definition commands (es : list Effect) : list Effect := List.filter is_command es.

Definition timeouts (es : list Effect) : list Effect :=
  List.filter (fun e => match e with SetTimeout _ _ => true | _ => false end) es.

Definition signals (es : list Effect) : list Effect :=
  List.filter (fun e => match e with DoUpdateNext => true | _ => false end) es.

Definition transports (es : list Effect) : list Effect :=
  List.filter (fun e => match e with
                   | GetStatus | SwitchbotBLE | MonitorAdvertisement => true
                   | _ => false
                   end) es.

Fixpoint written (name : string) (es : list Effect) : list Value :=
  match es with
  | [] => []
  | UpdateCharacteristic _ c v :: rest =>
      if String.eqb c name then v :: written name rest else written name rest
  | _ :: rest => written name rest
  end.

(** The value HomeKit shows for a characteristic after the effects, when
    they wrote it. *)
Definition shows (name : string) (es : list Effect) : option Value :=
  List.last (List.map Some (written name es)) None.

(** The effect that re-applies the cached context of one characteristic,
    when the context has it. *)
Definition cached (service name : string) (ctx : gmap string Value) : list Effect :=
  match ctx !! name with
  | Some v => [UpdateCharacteristic service name v]
  | None => []
  end.

(** An effect that neither commands a device, nor sets a timer, nor
    signals [doLockUpdate], nor writes the [On] characteristic. *)
Definition quiet (e : Effect) : bool :=
  match e with
  | Log _ _ => true
  | UpdateCharacteristic _ c _ => negb (String.eqb c "On")
  | _ => false
  end.

(** A handler over a state [S]: the state after and the effects, in order. *)
Definition Proc (S : Type) : Type := S -> S * list Effect.

Definition skip {S} : Proc S := fun s => (s, []).
Definition emit {S} (e : Effect) : Proc S := fun s => (s, [e]).
Definition modify {S} (f : S -> S) : Proc S := fun s => (f s, []).
Definition seq {S} (p q : Proc S) : Proc S :=
  fun s => let '(s1, e1) := p s in let '(s2, e2) := q s1 in (s2, e1 ++ e2).
Definition reading {S A} (f : S -> A) (k : A -> Proc S) : Proc S :=
  fun s => k (f s) s.
Definition when {S} (b : bool) (p : Proc S) : Proc S := if b then p else skip.

Declare Scope proc_scope.
Delimit Scope proc_scope with proc.
Notation "p ;; q" := (seq p q)
  (at level 100, q at level 200, right associativity) : proc_scope.

(** The body of a cloud response: [{ statusCode, body }]. *)
Record ApiBody (B : Type) : Type := mkApiBody {
  statusCode_of : Z;
  body_of : B;
}.
Arguments mkApiBody {B} _ _.
Arguments statusCode_of {B} _.
Arguments body_of {B} _.

(** A call that either throws [e] or returns. *)
Inductive Outcome (A : Type) : Type :=
| Throws (e : string)
| Returns (a : A).
Arguments Throws {A} _.
Arguments Returns {A} _.

(** ** Firmware version strings: [replace(/^V|-.*$/g, '')] *)

Module Version.

Definition isLineTerminator (c : ascii) : bool :=
  (Ascii.eqb c "010" || Ascii.eqb c "013")%char.

Fixpoint hasLineTerminator (s : string) : bool :=
  match s with
  | EmptyString => false
  | String c r => isLineTerminator c || hasLineTerminator r
  end.

(** The alternative [-.*$] at the current index: it matches when the
    character is [-] and no line terminator stands between it and the
    end of the input ([.] does not match one, and [$] without the [m]
    flag is the end of the input); the match then runs to the end.
    Where it does not match the character is kept and the scan moves on. *)
Fixpoint replaceSuffix (s : string) : string :=
  match s with
  | EmptyString => EmptyString
  | String c r =>
      if (Ascii.eqb c "-" && negb (hasLineTerminator r))%char then EmptyString
      else String c (replaceSuffix r)
  end.

(** [s.replace(/^V|-.*$/g, '')]: the alternative [^V] can only match at
    index 0, and is tried first there; the global scan then goes on from
    index 1. *)
Definition replaceV (s : string) : string :=
  match s with
  | String "V" r => replaceSuffix r
  | _ => replaceSuffix s
  end.

(** [s.includes('.')] *)
Fixpoint includesDot (s : string) : bool :=
  match s with
  | EmptyString => false
  | String c r => Ascii.eqb c "." || includesDot r
  end.

(** [s.match(/./g)]: every character that is not a line terminator, one
    match each; [null] when there is none. *)
Fixpoint matchAny (s : string) : list ascii :=
  match s with
  | EmptyString => []
  | String c r => if isLineTerminator c then matchAny r else c :: matchAny r
  end.

(** [chars.join('.')] *)
Fixpoint joinDot (l : list ascii) : string :=
  match l with
  | [] => EmptyString
  | [c] => String c EmptyString
  | c :: r => String c (String "." (joinDot r))
  end.

(** The words of the specification: a leading [V] is dropped, and a
    [-suffix], which is everything from the first [-] on. *)
Definition dropLeadingV (s : string) : string :=
  match s with
  | String "V" r => r
  | _ => s
  end.

Fixpoint beforeDash (s : string) : string :=
  match s with
  | EmptyString => EmptyString
  | String c r => if Ascii.eqb c "-" then EmptyString else String c (beforeDash r)
  end.

Definition strip_spec (s : string) : string := beforeDash (dropLeadingV s).


End Version.

(** ** HomeKit constants used by the handlers (hap-nodejs) *)

Module HAP.
Definition LockTargetState_UNSECURED : Value := num 0.
Definition LockTargetState_SECURED : Value := num 1.
Definition LockCurrentState_UNSECURED : Value := num 0.
Definition LockCurrentState_SECURED : Value := num 1.
Definition ContactSensorState_CONTACT_DETECTED : Value := num 0.
Definition ContactSensorState_CONTACT_NOT_DETECTED : Value := num 1.
Definition StatusLowBattery_BATTERY_LEVEL_NORMAL : Value := num 0.
Definition StatusLowBattery_BATTERY_LEVEL_LOW : Value := num 1.
Definition TargetDoorState_OPEN : Value := num 0.
Definition TargetDoorState_CLOSED : Value := num 1.
Definition CurrentDoorState_OPEN : Value := num 0.
Definition CurrentDoorState_CLOSED : Value := num 1.
Definition PositionState_STOPPED : Value := num 2.
Definition Active_INACTIVE : Value := num 0.
Definition Active_ACTIVE : Value := num 1.
Definition ProgrammableSwitchEvent_SINGLE_PRESS : Value := num 0.
End HAP.

(** ** [irdeviceBase] and [Others] ([src/irdevice]) *)

Module IR.

(** [irdevice & irDevicesConfig], the fields the handlers read. *)
Record Device : Type := mkDevice {
  deviceId : string;
  deviceName : string;
  remoteType : string;
  hubDeviceId : option string;
  connectionType : option string;
  customize : option bool;
  commandTypeCfg : option string;   (* device.commandType *)
  customOn : option string;
  customOff : option string;
  disablePushOn : option bool;
  disablePushOff : option bool;
  firmware : option string;
  otherType : option string;        (* (device as irOtherConfig).type *)
}.

(** The [Others] accessory: [this.On], which of [this.Switch],
    [this.GarageDoor], ... are set, and [accessory.context]. *)
Record State : Type := mkState {
  On : option bool;
  has : string -> bool;
  context : gmap string Value;
}.

Definition set_On (b : bool) (s : State) : State :=
  {| On := Some b; has := has s; context := context s |}.

Definition set_context (k : string) (v : Value) (s : State) : State :=
  {| On := On s; has := has s; context := <[k := v]> (context s) |}.

(** [getDeviceRateSettings]: [device.disablePushOn ?? false]. *)
Definition deviceDisablePushOn (d : Device) : bool :=
  match disablePushOn d with Some b => b | None => false end.
Definition deviceDisablePushOff (d : Device) : bool :=
  match disablePushOff d with Some b => b | None => false end.

(** [getOtherConfigSettings]: [(device as irOtherConfig).type ?? 'Outlet']. *)
Definition otherDeviceType (d : Device) : string :=
  match otherType d with Some t => t | None => "Outlet" end.

(** [device.firmware ?? accessory.context.version ?? this.platform.version ?? '0.0.0'] *)
Definition deviceFirmwareVersion (fw ctxVersion platformVersion : option string)
  : string :=
  match fw, ctxVersion, platformVersion with
  | Some v, _, _ => v
  | None, Some v, _ => v
  | None, None, Some v => v
  | None, None, None => "0.0.0"
  end.

(** The version arithmetic of [getDeviceContext]: the two branches on
    [version.includes('.')].  In the first, [match] is [null] when nothing
    is left, and [validVersion ?? '0.0.0'] applies; in the second [replace]
    returns a string, so its [?? '0.0.0'] never applies. *)
Definition deviceVersion (version : string) : string :=
  if negb (Version.includesDot version) then
    match Version.matchAny (Version.replaceV version) with
    | [] => "0.0.0"
    | m => Version.joinDot m
    end
  else Version.replaceV version.

Definition context_version (s : State) : option string :=
  match context s !! "version" with
  | Some (VStr v) => Some v
  | _ => None
  end.

Definition getDeviceContext (d : Device) (platformVersion : option string)
  : Proc State :=
  reading context_version (fun ctxv =>
    let v := deviceVersion (deviceFirmwareVersion (firmware d) ctxv platformVersion) in
    (modify (set_context "name" (VStr (deviceName d))) ;;
     modify (set_context "model" (VStr (remoteType d))) ;;
     modify (set_context "deviceId" (VStr (deviceId d))) ;;
     modify (set_context "remoteType" (VStr (remoteType d))) ;;
     emit (Log debugLog "version: ${version?.replace(/^V|-.*$/g, '')}") ;;
     emit (UpdateCharacteristic "AccessoryInformation" "HardwareRevision" (VStr v)) ;;
     emit (UpdateCharacteristic "AccessoryInformation" "SoftwareRevision" (VStr v)) ;;
     emit (UpdateCharacteristic "AccessoryInformation" "FirmwareRevision" (VStr v)) ;;
     emit (UpdateCharacteristic "AccessoryInformation" "FirmwareRevision" (VStr v)) ;;
     modify (set_context "version" (VStr v)) ;;
     emit (Log debugSuccessLog ("version: " +:+ v)))%proc).

Definition successfulStatusCodes (statusCode : Z) : bool :=
  (statusCode =? 200) || (statusCode =? 100).

(** The object literal [statusMessages] of [statusCode], in source order. *)
Definition statusMessages (d : Device) : list (Z * string) :=
  [ (151, "Command not supported by this deviceType");
    (152, "Device not found");
    (160, "Command is not supported");
    (161, "Device is offline");
    (171, "Hub Device is offline. Hub: " +:+ show_opt (hubDeviceId d));
    (190, "Device internal error due to device states not synchronized with server, or command format is invalid");
    (100, "Command successfully sent");
    (200, "Request successful");
    (400, "Bad Request, an invalid payload request");
    (401, "Unauthorized, Authorization for the API is required, but the request has not been authenticated");
    (403, "Forbidden, The request has been authenticated but does not have appropriate permissions, or a requested resource is not found");
    (404, "Not Found, Specifies the requested path does not exist");
    (406, "Not Acceptable, a MIME type has been requested via the Accept header for a value not supported by the server");
    (415, "Unsupported Media Type, a contentType header has been defined that is not supported by the server");
    (422, "Unprocessable Entity: The server cannot process the request, often due to exceeded API limits.");
    (429, "Too Many Requests, exceeded the number of requests allowed for a given time window");
    (500, "Internal Server Error, An unexpected error occurred. These errors should be rare") ].

(** [table[key]] *)
Fixpoint lookupCode (table : list (Z * string)) (key : Z) : option string :=
  match table with
  | [] => None
  | (k, m) :: rest => if k =? key then Some m else lookupCode rest key
  end.

(** The condition of the rewrite of 171. *)
Definition ownHub (d : Device) : bool :=
  match hubDeviceId d with
  | Some h => String.eqb h (deviceId d) || String.eqb h "000000000000"
  | None => false
  end.

Definition rewriteCode (d : Device) (statusCode : Z) : Z :=
  if (statusCode =? 171) && ownHub d then 161 else statusCode.

Definition logMessage (d : Device) (statusCode : Z) : string :=
  if truthy_str (lookupCode (statusMessages d) statusCode)
  then show_opt (lookupCode (statusMessages d) statusCode)
  else "Unknown statusCode: " +:+ show_Z statusCode
       +:+ ", Submit Bugs Here: https://tinyurl.com/SwitchBotBug".

Definition logMethod (d : Device) (statusCode : Z) : LogMethod :=
  if (statusCode =? 100) || (statusCode =? 200) then debugLog
  else if truthy_str (lookupCode (statusMessages d) statusCode) then errorLog
  else infoLog.

(** [statusCode(statusCode)]: the effects it performs. *)
Definition statusCode (d : Device) (code : Z) : list Effect :=
  (if (code =? 171) && ownHub d
   then [Log debugErrorLog
           ("statusCode 171 changed to 161: hubDeviceId "
            +:+ show_opt (hubDeviceId d) +:+ " matches deviceId "
            +:+ deviceId d +:+ ", device is its own hub.")]
   else [])
  ++ [Log (logMethod d (rewriteCode d code))
        (logMessage d (rewriteCode d code) +:+ ", statusCode: "
         +:+ show_Z (rewriteCode d code))].

(** The codes of the table other than the two success codes. *)
Definition knownNonSuccess : list Z :=
  [151; 152; 160; 161; 171; 190; 400; 401; 403; 404; 406; 415; 422; 429; 500].

Definition commandType (d : Device) : string :=
  if truthy_str (commandTypeCfg d) && truthy_bool (customize d)
  then show_opt (commandTypeCfg d)
  else if truthy_bool (customize d) then "customize"
  else "command".

Definition commandOn (d : Device) : string :=
  if truthy_bool (customize d) && truthy_str (customOn d)
  then show_opt (customOn d) else "turnOn".

Definition commandOff (d : Device) : string :=
  if truthy_bool (customize d) && truthy_str (customOff d)
  then show_opt (customOff d) else "turnOff".

Record bodyChange : Type := mkBodyChange {
  command : string;
  parameter : string;
  commandType_ : string;
}.

(** [Others.updateHomeKitCharacteristics] *)
Definition updateHomeKitCharacteristics (d : Device) : Proc State :=
  reading (fun s => (On s, has s)) (fun '(on, has) =>
    let t := otherDeviceType d in
    let undef := emit (Log debugLog "On: ${this.On}") in
    (emit (Log debugLog "updateHomeKitCharacteristics") ;;
     if String.eqb t "Switch" && has "Switch" then
       match on with
       | None => undef
       | Some b =>
           emit (UpdateCharacteristic "Switch" "On" (VBool b)) ;;
           emit (Log debugLog "updateCharacteristic On: ${this.On}")
       end
     else if String.eqb t "GarageDoor" && has "GarageDoor" then
       match on with
       | None => undef
       | Some true =>
           emit (UpdateCharacteristic "GarageDoor" "TargetDoorState" HAP.TargetDoorState_OPEN) ;;
           emit (UpdateCharacteristic "GarageDoor" "CurrentDoorState" HAP.CurrentDoorState_OPEN) ;;
           emit (Log debugLog "updateCharacteristic TargetDoorState: Open, CurrentDoorState: Open (${this.On})")
       | Some false =>
           emit (UpdateCharacteristic "GarageDoor" "TargetDoorState" HAP.TargetDoorState_CLOSED) ;;
           emit (UpdateCharacteristic "GarageDoor" "CurrentDoorState" HAP.CurrentDoorState_CLOSED) ;;
           emit (Log debugLog "updateCharacteristicc TargetDoorState: Closed, CurrentDoorState: Closed (${this.On})")
       end ;;
       emit (Log debugLog "Garage Door On: ${this.On}")
     else if (String.eqb t "Door" && has "Door")
          || (String.eqb t "Window" && has "Window")
          || (String.eqb t "WindowCovering" && has "WindowCovering") then
       (* the three branches differ in the service and in the last log *)
       let svc := t in
       match on with
       | None => undef
       | Some b =>
           let pos := if b then num 100 else num 0 in
           emit (UpdateCharacteristic svc "TargetPosition" pos) ;;
           emit (UpdateCharacteristic svc "CurrentPosition" pos) ;;
           emit (UpdateCharacteristic svc "PositionState" HAP.PositionState_STOPPED) ;;
           emit (Log debugLog
                   (if b then "updateCharacteristicc TargetPosition: 100, CurrentPosition: 100 (${this.On})"
                    else "updateCharacteristicc TargetPosition: 0, CurrentPosition: 0 (${this.On})"))
       end ;;
       emit (Log debugLog
               (if String.eqb t "Door" then "Door On: ${this.On}"
                else if String.eqb t "Window" then "Window On: ${this.On}"
                else "Window Covering On: ${this.On}"))
     else if String.eqb t "Lock" && has "LockMechanism" then
       match on with
       | None => undef
       | Some true =>
           emit (UpdateCharacteristic "LockMechanism" "LockTargetState" HAP.LockTargetState_UNSECURED) ;;
           emit (UpdateCharacteristic "LockMechanism" "LockCurrentState" HAP.LockCurrentState_UNSECURED) ;;
           emit (Log debugLog "updateCharacteristicc LockTargetState: UNSECURED, LockCurrentState: UNSECURED (${this.On})")
       | Some false =>
           emit (UpdateCharacteristic "LockMechanism" "LockTargetState" HAP.LockTargetState_SECURED) ;;
           emit (UpdateCharacteristic "LockMechanism" "LockCurrentState" HAP.LockCurrentState_SECURED) ;;
           emit (Log debugLog "updateCharacteristic LockTargetState: SECURED, LockCurrentState: SECURED  (${this.On})")
       end ;;
       emit (Log debugLog "Lock On: ${this.On}")
     else if (String.eqb t "Faucet" && has "Faucet")
          || (String.eqb t "Fan" && has "Fan") then
       let svc := t in
       match on with
       | None => undef
       | Some b =>
           emit (UpdateCharacteristic svc "Active"
                   (if b then HAP.Active_ACTIVE else HAP.Active_INACTIVE)) ;;
           emit (Log debugLog "updateCharacteristic Active: ${this.On}")
       end ;;
       emit (Log debugLog
               (if String.eqb t "Faucet" then "Faucet On: ${this.On}"
                else "Fan On: ${this.On}"))
     else if String.eqb t "Stateful" && has "StatefulProgrammableSwitch" then
       match on with
       | None => undef
       | Some b =>
           emit (UpdateCharacteristic "StatefulProgrammableSwitch" "ProgrammableSwitchEvent"
                   HAP.ProgrammableSwitchEvent_SINGLE_PRESS) ;;
           emit (UpdateCharacteristic "StatefulProgrammableSwitch" "ProgrammableSwitchOutputState"
                   (if b then num 1 else num 0)) ;;
           emit (Log debugLog "updateCharacteristic ProgrammableSwitchEvent: ProgrammableSwitchOutputState: (${this.On})")
       end ;;
       emit (Log debugLog "StatefulProgrammableSwitch On: ${this.On}")
     else if String.eqb t "Outlet" && has "Outlet" then
       match on with
       | None => undef
       | Some b =>
           emit (UpdateCharacteristic "Outlet" "On" (VBool b)) ;;
           emit (Log debugLog "updateCharacteristic On: ${this.On}")
       end
     else
       emit (Log errorLog "otherDeviceType: ${this.otherDeviceType}, On: ${this.On}"))%proc).

(** [Others.apiError(e)] *)
Definition apiError (d : Device) (e : string) : Proc State :=
  reading has (fun has =>
    let t := otherDeviceType d in
    let upd svc cs : Proc State :=
      if has svc : bool
      then fun s => (s, map (fun c => UpdateCharacteristic svc c (VErr e)) cs)
      else skip in
    if String.eqb t "GarageDoor" then
      upd "GarageDoor" ["TargetDoorState"; "CurrentDoorState"; "ObstructionDetected"]
    else if String.eqb t "Door" then
      upd "Door" ["TargetPosition"; "CurrentPosition"; "PositionState"]
    else if String.eqb t "Window" then
      upd "Window" ["TargetPosition"; "CurrentPosition"; "PositionState"]
    else if String.eqb t "WindowCovering" then
      upd "WindowCovering" ["TargetPosition"; "CurrentPosition"; "PositionState"]
    else if String.eqb t "Lock" then
      upd "LockMechanism" ["LockTargetState"; "LockCurrentState"]
    else if String.eqb t "Faucet" then upd "Faucet" ["Active"]
    else if String.eqb t "Fan" then upd "Fan" ["On"]
    else if String.eqb t "Stateful" then
      upd "StatefulProgrammableSwitch"
          ["ProgrammableSwitchEvent"; "ProgrammableSwitchOutputState"]
    else if String.eqb t "Switch" then upd "Switch" ["On"]
    else upd "Outlet" ["On"]).

(** [Others.pushChanges(bodyChange)]; [response] is what
    [pushChangeRequest] does when it is called. *)
Definition pushChanges (d : Device) (response : Outcome (ApiBody unit))
    (bc : bodyChange) : Proc State :=
  (emit (Log debugLog "pushChanges") ;;
   match connectionType d with
   | Some "OpenAPI" =>
       emit (Log infoLog "Sending request to SwitchBot API, body: ${JSON.stringify(bodyChange)}") ;;
       emit (ControlDevice (deviceId d) (command bc) (parameter bc) (commandType_ bc)) ;;
       match response with
       | Returns deviceStatus =>
           (* pushStatusCodes *)
           emit (Log debugWarnLog "deviceStatus: ${JSON.stringify(deviceStatus)}") ;;
           emit (Log debugWarnLog
                   ("deviceStatus statusCode: " +:+ show_Z (statusCode_of deviceStatus))) ;;
           if successfulStatusCodes (statusCode_of deviceStatus) then
             (* successfulPushChange *)
             emit (Log debugSuccessLog
                     ("deviceStatus StatusCode: " +:+ show_Z (statusCode_of deviceStatus))) ;;
             emit (Log successLog "request to SwitchBot API, body: ${JSON.stringify(bodyChange)} sent successfully") ;;
             updateHomeKitCharacteristics d
           else
             fun s => (s, statusCode d (statusCode_of deviceStatus))
       | Throws e =>
           apiError d e ;;
           (* pushChangeError *)
           emit (Log errorLog
                   ("failed pushChanges with " +:+ show_opt (connectionType d)
                    +:+ " Connection, Error Message: ${JSON.stringify(e.message)}"))
       end
   | _ =>
       emit (Log warnLog
               ("Connection Type: " +:+ show_opt (connectionType d)
                +:+ ", commands will not be sent to OpenAPI"))
   end)%proc.

(** [On === true], [On === false] for [this.On], which is [undefined]
    until [OnSet] has assigned it. *)
Definition is_true (On : option bool) : bool :=
  match On with Some true => true | _ => false end.
Definition is_false (On : option bool) : bool :=
  match On with Some false => true | _ => false end.

Definition pushOnChanges (d : Device) (response : Outcome (ApiBody unit))
    (On : option bool) : Proc State :=
  (emit (Log debugLog "pushOnChanges On: ${On}, disablePushOn: ${this.deviceDisablePushOn}, customize: ${this.device.customize}, customOn: ${this.device.customOn}") ;;
   if truthy_bool (customize d) then
     if is_true On && negb (deviceDisablePushOn d) then
       pushChanges d response
         {| command := commandOn d; parameter := "default";
            commandType_ := commandType d |}
     else skip
   else emit (Log errorLog "On Command not set"))%proc.

Definition pushOffChanges (d : Device) (response : Outcome (ApiBody unit))
    (On : option bool) : Proc State :=
  (emit (Log debugLog "pushOffChanges On: ${On}, disablePushOff: ${this.deviceDisablePushOff}, customize: ${this.device.customize}, customOff: ${this.device.customOff}") ;;
   if truthy_bool (customize d) then
     if is_false On && negb (deviceDisablePushOff d) then
       pushChanges d response
         {| command := commandOff d; parameter := "default";
            commandType_ := commandType d |}
     else skip
   else emit (Log errorLog "Off Command not set."))%proc.

(** [Others.OnSet(value)]: the branch on [otherDeviceType] assigns
    [this.On] when the service object is set, then the push follows
    [this.On]. *)
Definition OnSet (d : Device) (response : Outcome (ApiBody unit))
    (value : Value) : Proc State :=
  reading has (fun has =>
    let t := otherDeviceType d in
    let assign (svc : string) (log : string) (off : Value) : Proc State :=
      if has svc : bool
      then (emit (Log debugLog log) ;;
            modify (set_On (negb (strict_eq value off))))%proc
      else skip in
    ((if String.eqb t "Switch" then
        assign "Switch" "Set On: ${value}" (VBool false)
      else if String.eqb t "GarageDoor" then
        assign "GarageDoor" "Set TargetDoorState: ${value}" HAP.TargetDoorState_CLOSED
      else if String.eqb t "Door" then
        assign "Door" "Set TargetPosition: ${value}" (num 0)
      else if String.eqb t "Window" then
        assign "Window" "Set TargetPosition: ${value}" (num 0)
      else if String.eqb t "WindowCovering" then
        assign "WindowCovering" "Set TargetPosition: ${value}" (num 0)
      else if String.eqb t "Lock" then
        assign "LockMechanism" "Set LockTargetState: ${value}" HAP.LockTargetState_SECURED
      else if String.eqb t "Faucet" then
        assign "Faucet" "Set Active: ${value}" HAP.Active_INACTIVE
      else if String.eqb t "Stateful" then
        assign "StatefulProgrammableSwitch" "Set ProgrammableSwitchOutputState: ${value}" (num 0)
      else
        assign "Outlet" "Set On: ${value}" (VBool false)) ;;
     reading On (fun on =>
       if is_true on then pushOnChanges d response on
       else pushOffChanges d response on))%proc).

End IR.

(** ** What [device.ts] and [utils.ts] provide to the device handlers

    [Hub] and [Lock] extend [deviceBase] and call helpers of [utils.ts];
    neither file is among the sources of this development. *)

Module Base.

(** Modelled from the spec: [deviceBase.successfulStatusCodes], of
    [device.ts].  The classification table makes 100 and 200 the success
    codes; [irdeviceBase.successfulStatusCodes] has this body. *)
Definition successfulStatusCodes (statusCode : Z) : bool :=
  (statusCode =? 200) || (statusCode =? 100).

(** Modelled from the spec: [validHumidity(h, min, max)], of [utils.ts]:
    the value clamped into [[min, max]]. *)
Definition validHumidity (h lo hi : Q) : Q := Qmax (Qmin h hi) lo.

(** Modelled from the spec: [deviceBase.updateCharacteristic], of
    [device.ts]: an idempotent write of one field to the presentation
    layer, which also becomes the last-known context;
    [irdeviceBase.updateCharacteristic] has this body.  [ctx] writes
    [accessory.context[name]] in the state of the caller. *)
Definition updateCharacteristic {S} (ctx : string -> Value -> S -> S)
    (service name : string) (v : option Value) : Proc S :=
  match v with
  | None => emit (Log debugLog (name +:+ ": undefined"))
  | Some x =>
      (emit (UpdateCharacteristic service name x) ;;
       emit (Log debugLog ("updateCharacteristic " +:+ name +:+ ": ${CharacteristicValue}")) ;;
       emit (Log debugWarnLog (name +:+ " context before: ${this.accessory.context[CharacteristicName]}")) ;;
       modify (ctx name x) ;;
       emit (Log debugWarnLog (name +:+ " context after: ${this.accessory.context[CharacteristicName]}")))%proc
  end.

(** What the BLE client answers to a refresh: [switchbotBLE()] returned
    [undefined], or an advertisement was monitored. *)
Inductive BLEAnswer (SD : Type) : Type :=
| NoBLE
| Advertised (serviceData : SD).
Arguments NoBLE {SD}.
Arguments Advertised {SD} _.

(** The helpers whose bodies the handlers do not depend on:
    [convertUnits] and [getLightLevel]. *)
Record Utils : Type := mkUtils {
  convertUnits : Q -> string -> option string -> Q;
  getLightLevel : Q -> Q -> Q -> Z -> Q;
}.

End Base.

(** [SwitchBotBLEModel] and [SwitchBotBLEModelName] of node-switchbot. *)
Module SwitchBotBLEModel.
Definition Hub2 : string := "v".
Definition Lock : string := "o".
Definition LockPro : string := "$".
End SwitchBotBLEModel.

Module SwitchBotBLEModelName.
Definition Hub2 : string := "WoHub2".
Definition Lock : string := "WoSmartLock".
Definition LockPro : string := "WoSmartLockPro".
End SwitchBotBLEModelName.

(** ** [Hub] ([src/device/hub.ts]) *)

Module Hub.
Import Base.

(** [device & devicesConfig] as [hubConfig], the platform credentials,
    and the transport flags [this.BLE] and [this.OpenAPI] that
    [deviceBase] holds. *)
Record Device : Type := mkDevice {
  deviceId : string;
  connectionType : option string;
  enableCloudService : option bool;
  BLE : bool;
  OpenAPI : bool;
  token : option string;            (* platform.config.credentials?.token *)
  offline : option bool;
  hide_temperature : option bool;
  hide_humidity : option bool;
  hide_lightsensor : option bool;
  set_minLux : option Q;
  set_maxLux : option Q;
  convertUnitTo : option string;
}.

(** The three optional sensor objects, each with its current value, and
    [accessory.context]. *)
Record State : Type := mkState {
  TemperatureSensor : option Value;   (* .CurrentTemperature *)
  HumiditySensor : option Value;      (* .CurrentRelativeHumidity *)
  LightSensor : option Value;         (* .CurrentAmbientLightLevel *)
  context : gmap string Value;
}.

Record hub2ServiceData : Type := mkServiceData {
  model : string;
  modelName : string;
  celsius : Q;
  sd_humidity : Q;
  sd_lightLevel : Q;
}.

Record hub2Status : Type := mkStatus {
  temperature : Q;
  humidity : Q;
  lightLevel : Q;
  version : option string;
}.

Record hub2WebhookContext : Type := mkWebhook {
  scale : string;
  wh_temperature : Q;
  wh_humidity : Q;
  wh_lightLevel : Q;
}.

Definition set_temperature (v : Value) (s : State) : State :=
  {| TemperatureSensor := Some v; HumiditySensor := HumiditySensor s;
     LightSensor := LightSensor s; context := context s |}.
Definition set_humidity (v : Value) (s : State) : State :=
  {| TemperatureSensor := TemperatureSensor s; HumiditySensor := Some v;
     LightSensor := LightSensor s; context := context s |}.
Definition set_light (v : Value) (s : State) : State :=
  {| TemperatureSensor := TemperatureSensor s; HumiditySensor := HumiditySensor s;
     LightSensor := Some v; context := context s |}.
Definition set_context (k : string) (v : Value) (s : State) : State :=
  {| TemperatureSensor := TemperatureSensor s; HumiditySensor := HumiditySensor s;
     LightSensor := LightSensor s; context := <[k := v]> (context s) |}.

(** [!(this.device as hubConfig).hide_x && this.XSensor?.Service] *)
Definition shown {A} (hide : option bool) (sensor : option A) : bool :=
  negb (truthy_bool hide) && present sensor.

Definition minLux (d : Device) : Q :=
  match set_minLux d with Some q => q | None => 1 end.
Definition maxLux (d : Device) : Q :=
  match set_maxLux d with Some q => q | None => 6001 end.

Definition BLEparseStatus (u : Utils) (d : Device) (sd : hub2ServiceData)
  : Proc State :=
  (emit (Log debugLog "BLEparseStatus") ;;
   emit (Log debugLog "(temperature, humidity, lightLevel) = BLE:(${...}), current:(${...})") ;;
   reading TemperatureSensor (fun t =>
     when (shown (hide_temperature d) t)
       (modify (set_temperature (VNum (celsius sd))) ;;
        emit (Log debugLog "CurrentTemperature: ${this.TemperatureSensor.CurrentTemperature}°c"))) ;;
   reading HumiditySensor (fun h =>
     when (shown (hide_humidity d) h)
       (modify (set_humidity (VNum (validHumidity (sd_humidity sd) 0 100))) ;;
        emit (Log debugLog "CurrentRelativeHumidity: ${this.HumiditySensor.CurrentRelativeHumidity}%"))) ;;
   reading LightSensor (fun l =>
     when (shown (hide_lightsensor d) l)
       (modify (set_light
                  (VNum (getLightLevel u (sd_lightLevel sd) (minLux d) (maxLux d) 19))) ;;
        emit (Log debugLog "LightLevel: ${this.serviceData.lightLevel}, CurrentAmbientLightLevel: ${this.LightSensor.CurrentAmbientLightLevel}"))))%proc.

(** The firmware part of [openAPIparseStatus]: guarded by the truthiness
    of [deviceStatus.version]; [replace] returns a string, so the
    [?? '0.0.0'] that follows it never applies. *)
Definition firmwareVersion (version : option string) : option string :=
  if truthy_str version then Some (Version.replaceV (show_opt version))
  else None.

Definition openAPIparseFirmware (version : option string) : Proc State :=
  match firmwareVersion version with
  | Some deviceVersion =>
      (emit (Log debugLog "Firmware Version: ${version.replace(/^V|-.*$/g, '')}") ;;
       emit (UpdateCharacteristic "AccessoryInformation" "HardwareRevision" (VStr deviceVersion)) ;;
       emit (UpdateCharacteristic "AccessoryInformation" "FirmwareRevision" (VStr deviceVersion)) ;;
       emit (UpdateCharacteristic "AccessoryInformation" "FirmwareRevision" (VStr deviceVersion)) ;;
       modify (set_context "version" (VStr deviceVersion)) ;;
       emit (Log debugSuccessLog ("version: " +:+ deviceVersion)))%proc
  | None => skip
  end.

Definition openAPIparseStatus (u : Utils) (d : Device) (st : hub2Status)
  : Proc State :=
  (emit (Log debugLog "openAPIparseStatus") ;;
   emit (Log debugLog "(temperature, humidity, lightLevel) = OpenAPI:(${...}), current:(${...})") ;;
   reading HumiditySensor (fun h =>
     when (shown (hide_humidity d) h)
       (modify (set_humidity (VNum (humidity st))) ;;
        emit (Log debugLog "CurrentRelativeHumidity: ${this.HumiditySensor.CurrentRelativeHumidity}%"))) ;;
   reading TemperatureSensor (fun t =>
     when (shown (hide_temperature d) t)
       (modify (set_temperature (VNum (temperature st))) ;;
        emit (Log debugLog "CurrentTemperature: ${this.TemperatureSensor.CurrentTemperature}°c"))) ;;
   reading LightSensor (fun l =>
     when (shown (hide_lightsensor d) l)
       (modify (set_light
                  (VNum (getLightLevel u (lightLevel st) (minLux d) (maxLux d) 19))) ;;
        emit (Log debugLog "LightLevel: ${this.deviceStatus.lightLevel}, CurrentAmbientLightLevel: ${this.LightSensor!.CurrentAmbientLightLevel}"))) ;;
   openAPIparseFirmware (version st))%proc.

Definition parseStatusWebhook (u : Utils) (d : Device) (w : hub2WebhookContext)
  : Proc State :=
  (emit (Log debugLog "parseStatusWebhook") ;;
   emit (Log debugLog "(scale, temperature, humidity, lightLevel) = Webhook:(${...}), current:(${...})") ;;
   when (negb (String.eqb (scale w) "CELSIUS")
         && negb (present (convertUnitTo d)))
     (emit (Log warnLog
              ("received a non-CELSIUS Webhook scale: " +:+ scale w
               +:+ ", Use the *convertUnitsTo* config under Hub settings, if displaying incorrectly in HomeKit."))) ;;
   reading HumiditySensor (fun h =>
     when (shown (hide_humidity d) h)
       (modify (set_humidity (VNum (wh_humidity w))) ;;
        emit (Log debugLog "CurrentRelativeHumidity: ${this.HumiditySensor.CurrentRelativeHumidity}"))) ;;
   reading TemperatureSensor (fun t =>
     when (shown (hide_temperature d) t)
       (modify (set_temperature
                  (VNum (convertUnits u (wh_temperature w) (scale w) (convertUnitTo d)))) ;;
        emit (Log debugLog "CurrentTemperature: ${this.TemperatureSensor.CurrentTemperature}"))) ;;
   reading LightSensor (fun l =>
     when (shown (hide_lightsensor d) l)
       (modify (set_light
                  (VNum (getLightLevel u (wh_lightLevel w) (minLux d) (maxLux d) 19))) ;;
        emit (Log debugLog "CurrentAmbientLightLevel: ${this.LightSensor.CurrentAmbientLightLevel}"))))%proc.

Definition updateHomeKitCharacteristics (d : Device) : Proc State :=
  (reading HumiditySensor (fun h =>
     when (shown (hide_humidity d) h)
       (updateCharacteristic set_context "HumiditySensor" "CurrentRelativeHumidity" h)) ;;
   reading TemperatureSensor (fun t =>
     when (shown (hide_temperature d) t)
       (updateCharacteristic set_context "TemperatureSensor" "CurrentTemperature" t)) ;;
   reading LightSensor (fun l =>
     when (shown (hide_lightsensor d) l)
       (updateCharacteristic set_context "LightSensor" "CurrentAmbientLightLevel" l)))%proc.

(** [offlineOff]: [accessory.context.X] may be [undefined]; HomeKit is
    then handed the missing value, which writes nothing here. *)
Definition offlineOff (d : Device) : Proc State :=
  let reapply (service name : string) : Proc State :=
    reading context (fun c =>
      match c !! name with
      | Some v => emit (UpdateCharacteristic service name v)
      | None => skip
      end) in
  when (truthy_bool (offline d))
    (reading TemperatureSensor (fun t =>
       when (shown (hide_temperature d) t)
         (reapply "TemperatureSensor" "CurrentTemperature")) ;;
     reading HumiditySensor (fun h =>
       when (shown (hide_humidity d) h)
         (reapply "HumiditySensor" "CurrentRelativeHumidity")) ;;
     reading LightSensor (fun l =>
       when (shown (hide_lightsensor d) l)
         (reapply "LightSensor" "CurrentAmbientLightLevel")))%proc.

Definition apiError (d : Device) (e : string) : Proc State :=
  (reading TemperatureSensor (fun t =>
     when (shown (hide_temperature d) t)
       (emit (UpdateCharacteristic "TemperatureSensor" "CurrentTemperature" (VErr e)))) ;;
   reading HumiditySensor (fun h =>
     when (shown (hide_humidity d) h)
       (emit (UpdateCharacteristic "HumiditySensor" "CurrentRelativeHumidity" (VErr e)))) ;;
   reading LightSensor (fun l =>
     when (shown (hide_lightsensor d) l)
       (emit (UpdateCharacteristic "LightSensor" "CurrentAmbientLightLevel" (VErr e)))))%proc.

(** [openAPIRefreshStatus]; [response] is what [deviceRefreshStatus]
    does when it is called. *)
Definition openAPIRefreshStatus (u : Utils) (d : Device)
    (response : Outcome (ApiBody hub2Status)) : Proc State :=
  (emit (Log debugLog "openAPIRefreshStatus") ;;
   emit GetStatus ;;
   match response with
   | Returns deviceStatus =>
       emit (Log debugLog ("statusCode: " +:+ show_Z (statusCode_of deviceStatus)
                           +:+ ", deviceStatus: ${JSON.stringify(deviceStatus)}")) ;;
       if successfulStatusCodes (statusCode_of deviceStatus) then
         emit (Log debugSuccessLog ("statusCode: " +:+ show_Z (statusCode_of deviceStatus)
                                    +:+ ", deviceStatus: ${JSON.stringify(deviceStatus)}")) ;;
         openAPIparseStatus u d (body_of deviceStatus) ;;
         updateHomeKitCharacteristics d
       else
         emit (Log debugWarnLog ("statusCode: " +:+ show_Z (statusCode_of deviceStatus)
                                 +:+ ", deviceStatus: ${JSON.stringify(deviceStatus)}")) ;;
         emit (Log debugWarnLog "${deviceStatus}")
   | Throws e =>
       apiError d e ;;
       emit (Log errorLog ("failed openAPIRefreshStatus with " +:+ show_opt (connectionType d)
                           +:+ " Connection, Error Message: ${JSON.stringify(e.message)}"))
   end)%proc.

(** [platform.config.credentials?.token && device.connectionType === 'BLE/OpenAPI'] *)
Definition fallbackToOpenAPI (d : Device) : bool :=
  truthy_str (token d)
  && match connectionType d with
     | Some c => String.eqb c "BLE/OpenAPI"
     | None => false
     end.

Definition BLERefreshConnection (u : Utils) (d : Device)
    (response : Outcome (ApiBody hub2Status)) : Proc State :=
  (emit (Log errorLog "wasn't able to establish BLE Connection, node-switchbot: ${switchbot}") ;;
   when (fallbackToOpenAPI d)
     (emit (Log warnLog "Using OpenAPI Connection to Refresh Status") ;;
      openAPIRefreshStatus u d response))%proc.

(** [serviceData.model === SwitchBotBLEModel.Hub2
     && serviceData.modelName === SwitchBotBLEModelName.Hub2] *)
Definition modelMatches (sd : hub2ServiceData) : bool :=
  String.eqb (model sd) SwitchBotBLEModel.Hub2
  && String.eqb (modelName sd) SwitchBotBLEModelName.Hub2.

(** [BLERefreshStatus].  The monitor of the advertisement runs in a
    detached [async] block; its effects follow those of the caller. *)
Definition BLERefreshStatus (u : Utils) (d : Device)
    (ble : BLEAnswer hub2ServiceData)
    (response : Outcome (ApiBody hub2Status)) : Proc State :=
  (emit (Log debugLog "BLERefreshStatus") ;;
   emit SwitchbotBLE ;;
   match ble with
   | NoBLE => BLERefreshConnection u d response
   | Advertised serviceData =>
       emit MonitorAdvertisement ;;
       if modelMatches serviceData then
         BLEparseStatus u d serviceData ;;
         updateHomeKitCharacteristics d
       else
         emit (Log errorLog "failed to get serviceData, serviceData: ${JSON.stringify(serviceData)}") ;;
         BLERefreshConnection u d response
   end)%proc.

Definition refreshStatus (u : Utils) (d : Device)
    (ble : BLEAnswer hub2ServiceData)
    (response : Outcome (ApiBody hub2Status)) : Proc State :=
  if negb (truthy_bool (enableCloudService d)) && OpenAPI d then
    emit (Log errorLog "refreshStatus enableCloudService: ${this.device.enableCloudService}")
  else if BLE d then
    BLERefreshStatus u d ble response
  else if OpenAPI d && truthy_str (token d) then
    openAPIRefreshStatus u d response
  else
    (offlineOff d ;;
     emit (Log debugWarnLog ("Connection Type: " +:+ show_opt (connectionType d)
                             +:+ ", refreshStatus will not happen.")))%proc.

(** The handlers that [registerPlatformBLE] and [registerWebhook]
    install; an exception inside them is caught and logged. *)
Definition bleEventHandler (u : Utils) (d : Device) (sd : hub2ServiceData)
  : Proc State :=
  (emit (Log debugLog "received BLE: ${JSON.stringify(context)}") ;;
   BLEparseStatus u d sd ;;
   updateHomeKitCharacteristics d)%proc.

Definition webhookEventHandler (u : Utils) (d : Device) (w : hub2WebhookContext)
  : Proc State :=
  (emit (Log debugLog "received Webhook: ${JSON.stringify(context)}") ;;
   parseStatusWebhook u d w ;;
   updateHomeKitCharacteristics d)%proc.

(** What [offlineOff] writes, said at once: for a device marked offline,
    the cached context of the sensors that are shown. *)
Definition hubOffline (d : Device) (s : State) : list Effect :=
  if truthy_bool (offline d) then
    (if shown (hide_temperature d) (TemperatureSensor s)
     then cached "TemperatureSensor" "CurrentTemperature" (context s) else [])
    ++ (if shown (hide_humidity d) (HumiditySensor s)
        then cached "HumiditySensor" "CurrentRelativeHumidity" (context s) else [])
    ++ (if shown (hide_lightsensor d) (LightSensor s)
        then cached "LightSensor" "CurrentAmbientLightLevel" (context s) else [])
  else [].

End Hub.

(** ** [Lock] ([src/device/lock.ts]) *)

Module Lock.
Import Base.

Record Device : Type := mkDevice {
  deviceId : string;
  hubDeviceId : option string;
  connectionType : option string;
  enableCloudService : option bool;
  BLE : bool;                       (* this.BLE, held by deviceBase *)
  OpenAPI : bool;                   (* this.OpenAPI, held by deviceBase *)
  token : option string;            (* platform.config.credentials?.token *)
  offline : option bool;
  hide_contactsensor : option bool;
  maxRetryBLE : Z;                  (* this.maxRetryBLE() *)
}.

Record State : Type := mkState {
  LockTargetState : Value;            (* this.LockMechanism.LockTargetState *)
  LockCurrentState : Value;           (* this.LockMechanism.LockCurrentState *)
  ContactSensor : option Value;       (* this.ContactSensor?.ContactSensorState *)
  BatteryLevel : Value;
  StatusLowBattery : Value;
  Switch : option Value;              (* this.Switch?.On *)
  context : gmap string Value;
  lockUpdateInProgress : bool;
}.

Record lockServiceData : Type := mkServiceData {
  model : string;
  modelName : string;
  status : string;
  door_open : bool;
  battery : option Q;               (* 'battery' in serviceData *)
}.

Record lockStatus : Type := mkStatus {
  lockState : string;
  doorState : string;
  st_battery : Q;
  version : option string;
}.

Record lockWebhookContext : Type := mkWebhook {
  wh_lockState : string;
}.

Definition set_LockTargetState (v : Value) (s : State) : State :=
  {| LockTargetState := v; LockCurrentState := LockCurrentState s;
     ContactSensor := ContactSensor s; BatteryLevel := BatteryLevel s;
     StatusLowBattery := StatusLowBattery s; Switch := Switch s;
     context := context s; lockUpdateInProgress := lockUpdateInProgress s |}.
Definition set_LockCurrentState (v : Value) (s : State) : State :=
  {| LockTargetState := LockTargetState s; LockCurrentState := v;
     ContactSensor := ContactSensor s; BatteryLevel := BatteryLevel s;
     StatusLowBattery := StatusLowBattery s; Switch := Switch s;
     context := context s; lockUpdateInProgress := lockUpdateInProgress s |}.
Definition set_ContactSensorState (v : Value) (s : State) : State :=
  {| LockTargetState := LockTargetState s; LockCurrentState := LockCurrentState s;
     ContactSensor := Some v; BatteryLevel := BatteryLevel s;
     StatusLowBattery := StatusLowBattery s; Switch := Switch s;
     context := context s; lockUpdateInProgress := lockUpdateInProgress s |}.
Definition set_BatteryLevel (v : Value) (s : State) : State :=
  {| LockTargetState := LockTargetState s; LockCurrentState := LockCurrentState s;
     ContactSensor := ContactSensor s; BatteryLevel := v;
     StatusLowBattery := StatusLowBattery s; Switch := Switch s;
     context := context s; lockUpdateInProgress := lockUpdateInProgress s |}.
Definition set_StatusLowBattery (v : Value) (s : State) : State :=
  {| LockTargetState := LockTargetState s; LockCurrentState := LockCurrentState s;
     ContactSensor := ContactSensor s; BatteryLevel := BatteryLevel s;
     StatusLowBattery := v; Switch := Switch s;
     context := context s; lockUpdateInProgress := lockUpdateInProgress s |}.
Definition set_SwitchOn (v : Value) (s : State) : State :=
  {| LockTargetState := LockTargetState s; LockCurrentState := LockCurrentState s;
     ContactSensor := ContactSensor s; BatteryLevel := BatteryLevel s;
     StatusLowBattery := StatusLowBattery s; Switch := Some v;
     context := context s; lockUpdateInProgress := lockUpdateInProgress s |}.
Definition set_context (k : string) (v : Value) (s : State) : State :=
  {| LockTargetState := LockTargetState s; LockCurrentState := LockCurrentState s;
     ContactSensor := ContactSensor s; BatteryLevel := BatteryLevel s;
     StatusLowBattery := StatusLowBattery s; Switch := Switch s;
     context := <[k := v]> (context s);
     lockUpdateInProgress := lockUpdateInProgress s |}.
Definition set_lockUpdateInProgress (b : bool) (s : State) : State :=
  {| LockTargetState := LockTargetState s; LockCurrentState := LockCurrentState s;
     ContactSensor := ContactSensor s; BatteryLevel := BatteryLevel s;
     StatusLowBattery := StatusLowBattery s; Switch := Switch s;
     context := context s; lockUpdateInProgress := b |}.

(** [!(this.device as lockConfig).hide_contactsensor && this.ContactSensor?.Service] *)
Definition contactShown (d : Device) (s : State) : bool :=
  negb (truthy_bool (hide_contactsensor d)) && present (ContactSensor s).

(** [BatteryLevel < 10 ? BATTERY_LEVEL_LOW : BATTERY_LEVEL_NORMAL] *)
Definition lowBattery (level : Q) : Value :=
  if Qle_bool 10 level then HAP.StatusLowBattery_BATTERY_LEVEL_NORMAL
  else HAP.StatusLowBattery_BATTERY_LEVEL_LOW.

Definition BLEparseStatus (d : Device) (sd : lockServiceData) : Proc State :=
  (emit (Log debugLog "BLEparseStatus") ;;
   emit (Log debugLog "(lockState) = BLE:(${this.serviceData.status}), current:(${this.LockMechanism.LockCurrentState})") ;;
   modify (set_LockCurrentState
             (if String.eqb (status sd) "locked"
              then HAP.LockCurrentState_SECURED else HAP.LockCurrentState_UNSECURED)) ;;
   emit (Log debugLog "LockCurrentState: ${this.LockMechanism.LockCurrentState}") ;;
   modify (set_LockTargetState
             (if String.eqb (status sd) "locked"
              then HAP.LockTargetState_SECURED else HAP.LockTargetState_UNSECURED)) ;;
   emit (Log debugLog "LockTargetState: ${this.LockMechanism.LockTargetState}") ;;
   reading (contactShown d) (fun shown =>
     when shown
       (modify (set_ContactSensorState
                  (if door_open sd
                   then HAP.ContactSensorState_CONTACT_NOT_DETECTED
                   else HAP.ContactSensorState_CONTACT_DETECTED)) ;;
        emit (Log debugLog "ContactSensorState: ${this.ContactSensor.ContactSensorState}"))) ;;
   match battery sd with
   | Some b =>
       modify (set_BatteryLevel (VNum b)) ;;
       emit (Log debugLog "BatteryLevel: ${this.Battery.BatteryLevel}") ;;
       modify (set_StatusLowBattery (lowBattery b)) ;;
       emit (Log debugLog "StatusLowBattery: ${this.Battery.StatusLowBattery}")
   | None => skip
   end)%proc.

(** The firmware part of [openAPIparseStatus], as in [Hub]. *)
Definition firmwareVersion (version : option string) : option string :=
  if truthy_str version then Some (Version.replaceV (show_opt version))
  else None.

Definition openAPIparseFirmware (version : option string) : Proc State :=
  match firmwareVersion version with
  | Some deviceVersion =>
      (emit (Log debugLog "Firmware Version: ${version.replace(/^V|-.*$/g, '')}") ;;
       emit (UpdateCharacteristic "AccessoryInformation" "HardwareRevision" (VStr deviceVersion)) ;;
       emit (UpdateCharacteristic "AccessoryInformation" "FirmwareRevision" (VStr deviceVersion)) ;;
       emit (UpdateCharacteristic "AccessoryInformation" "FirmwareRevision" (VStr deviceVersion)) ;;
       modify (set_context "version" (VStr deviceVersion)) ;;
       emit (Log debugSuccessLog ("version: " +:+ deviceVersion)))%proc
  | None => skip
  end.

Definition openAPIparseStatus (d : Device) (st : lockStatus) : Proc State :=
  (emit (Log debugLog "openAPIparseStatus") ;;
   emit (Log debugLog "(lockState) = OpenAPI:(${this.deviceStatus.lockState}), current:(${this.LockMechanism.LockCurrentState})") ;;
   modify (set_LockCurrentState
             (if String.eqb (lockState st) "locked"
              then HAP.LockCurrentState_SECURED else HAP.LockCurrentState_UNSECURED)) ;;
   emit (Log debugLog "LockCurrentState: ${this.LockMechanism.LockCurrentState}") ;;
   modify (set_LockTargetState
             (if String.eqb (lockState st) "locked"
              then HAP.LockTargetState_SECURED else HAP.LockTargetState_UNSECURED)) ;;
   emit (Log debugLog "LockTargetState: ${this.LockMechanism.LockTargetState}") ;;
   reading (contactShown d) (fun shown =>
     when shown
       (modify (set_ContactSensorState
                  (if String.eqb (doorState st) "opened"
                   then HAP.ContactSensorState_CONTACT_NOT_DETECTED
                   else HAP.ContactSensorState_CONTACT_DETECTED)) ;;
        emit (Log debugLog "ContactSensorState: ${this.ContactSensor.ContactSensorState}"))) ;;
   modify (set_BatteryLevel (VNum (st_battery st))) ;;
   emit (Log debugLog "BatteryLevel: ${this.Battery.BatteryLevel}") ;;
   modify (set_StatusLowBattery (lowBattery (st_battery st))) ;;
   emit (Log debugLog "StatusLowBattery: ${this.Battery.StatusLowBattery}") ;;
   openAPIparseFirmware (version st))%proc.

Definition parseStatusWebhook (w : lockWebhookContext) : Proc State :=
  (emit (Log debugLog "parseStatusWebhook") ;;
   emit (Log debugLog "(lockState) = Webhook:(${this.webhookContext.lockState}), current:(${this.LockMechanism.LockCurrentState})") ;;
   modify (set_LockCurrentState
             (if String.eqb (wh_lockState w) "LOCKED"
              then HAP.LockCurrentState_SECURED else HAP.LockCurrentState_UNSECURED)) ;;
   emit (Log debugLog "LockCurrentState: ${this.LockMechanism.LockCurrentState}") ;;
   modify (set_LockTargetState
             (if String.eqb (wh_lockState w) "LOCKED"
              then HAP.LockTargetState_SECURED else HAP.LockTargetState_UNSECURED)) ;;
   emit (Log debugLog "LockTargetState: ${this.LockMechanism.LockTargetState}"))%proc.

Definition updateHomeKitCharacteristics (d : Device) : Proc State :=
  (reading LockTargetState (fun v =>
     updateCharacteristic set_context "LockMechanism" "LockTargetState" (Some v)) ;;
   reading LockCurrentState (fun v =>
     updateCharacteristic set_context "LockMechanism" "LockCurrentState" (Some v)) ;;
   reading (fun s => (contactShown d s, ContactSensor s)) (fun '(shown, v) =>
     when shown
       (updateCharacteristic set_context "ContactSensor" "ContactSensorState" v)) ;;
   reading BatteryLevel (fun v =>
     updateCharacteristic set_context "Battery" "BatteryLevel" (Some v)) ;;
   reading StatusLowBattery (fun v =>
     updateCharacteristic set_context "Battery" "StatusLowBattery" (Some v)))%proc.

Definition offlineOff (d : Device) : Proc State :=
  when (truthy_bool (offline d))
    (emit (UpdateCharacteristic "LockMechanism" "LockTargetState" HAP.LockTargetState_SECURED) ;;
     emit (UpdateCharacteristic "LockMechanism" "LockCurrentState" HAP.LockCurrentState_SECURED) ;;
     reading (contactShown d) (fun shown =>
       when shown
         (emit (UpdateCharacteristic "ContactSensor" "ContactSensorState"
                  HAP.ContactSensorState_CONTACT_DETECTED))))%proc.

Definition apiError (d : Device) (e : string) : Proc State :=
  (emit (UpdateCharacteristic "LockMechanism" "LockTargetState" (VErr e)) ;;
   emit (UpdateCharacteristic "LockMechanism" "LockCurrentState" (VErr e)) ;;
   reading (contactShown d) (fun shown =>
     when shown
       (emit (UpdateCharacteristic "ContactSensor" "ContactSensorState" (VErr e)))) ;;
   emit (UpdateCharacteristic "Battery" "BatteryLevel" (VErr e)) ;;
   emit (UpdateCharacteristic "Battery" "StatusLowBattery" (VErr e)))%proc.

Definition openAPIRefreshStatus (d : Device)
    (response : Outcome (ApiBody lockStatus)) : Proc State :=
  (emit (Log debugLog "openAPIRefreshStatus") ;;
   emit GetStatus ;;
   match response with
   | Returns deviceStatus =>
       emit (Log debugLog ("statusCode: " +:+ show_Z (statusCode_of deviceStatus)
                           +:+ ", deviceStatus: ${JSON.stringify(deviceStatus)}")) ;;
       if successfulStatusCodes (statusCode_of deviceStatus) then
         emit (Log debugSuccessLog ("statusCode: " +:+ show_Z (statusCode_of deviceStatus)
                                    +:+ ", deviceStatus: ${JSON.stringify(deviceStatus)}")) ;;
         openAPIparseStatus d (body_of deviceStatus) ;;
         updateHomeKitCharacteristics d
       else
         emit (Log debugWarnLog ("statusCode: " +:+ show_Z (statusCode_of deviceStatus)
                                 +:+ ", deviceStatus: ${JSON.stringify(deviceStatus)}")) ;;
         emit (Log debugWarnLog "${deviceStatus}")
   | Throws e =>
       apiError d e ;;
       emit (Log errorLog ("failed openAPIRefreshStatus with " +:+ show_opt (connectionType d)
                           +:+ " Connection, Error Message: ${JSON.stringify(e.message)}"))
   end)%proc.

(** [platform.config.credentials?.token && device.connectionType === 'BLE/OpenAPI'] *)
Definition fallbackToOpenAPI (d : Device) : bool :=
  truthy_str (token d)
  && match connectionType d with
     | Some c => String.eqb c "BLE/OpenAPI"
     | None => false
     end.

Definition BLERefreshConnection (d : Device)
    (response : Outcome (ApiBody lockStatus)) : Proc State :=
  (emit (Log errorLog "wasn't able to establish BLE Connection, node-switchbot: ${switchbot}") ;;
   when (fallbackToOpenAPI d)
     (emit (Log warnLog "Using OpenAPI Connection to Refresh Status") ;;
      openAPIRefreshStatus d response))%proc.

(** [x === a || b] for strings: [true] when [x] is [a], and otherwise
    the string [b], which is truthy unless empty. *)
Definition eq_or (x a b : string) : bool :=
  String.eqb x a || negb (String.eqb b "").

(** [(serviceData.model === SwitchBotBLEModel.Lock || SwitchBotBLEModel.LockPro)
     && (serviceData.modelName === SwitchBotBLEModelName.Lock || SwitchBotBLEModelName.LockPro)] *)
Definition modelMatches (sd : lockServiceData) : bool :=
  eq_or (model sd) SwitchBotBLEModel.Lock SwitchBotBLEModel.LockPro
  && eq_or (modelName sd) SwitchBotBLEModelName.Lock SwitchBotBLEModelName.LockPro.

Definition BLERefreshStatus (d : Device)
    (ble : BLEAnswer lockServiceData)
    (response : Outcome (ApiBody lockStatus)) : Proc State :=
  (emit (Log debugLog "BLERefreshStatus") ;;
   emit SwitchbotBLE ;;
   match ble with
   | NoBLE => BLERefreshConnection d response
   | Advertised serviceData =>
       emit MonitorAdvertisement ;;
       if modelMatches serviceData then
         BLEparseStatus d serviceData ;;
         updateHomeKitCharacteristics d
       else
         emit (Log errorLog "failed to get serviceData, serviceData: ${JSON.stringify(serviceData)}") ;;
         BLERefreshConnection d response
   end)%proc.

Definition refreshStatus (d : Device)
    (ble : BLEAnswer lockServiceData)
    (response : Outcome (ApiBody lockStatus)) : Proc State :=
  if negb (truthy_bool (enableCloudService d)) && OpenAPI d then
    emit (Log errorLog "refreshStatus enableCloudService: ${this.device.enableCloudService}")
  else if BLE d then
    BLERefreshStatus d ble response
  else if OpenAPI d && truthy_str (token d) then
    openAPIRefreshStatus d response
  else
    (offlineOff d ;;
     emit (Log debugWarnLog ("Connection Type: " +:+ show_opt (connectionType d)
                             +:+ ", refreshStatus will not happen.")))%proc.

Definition bleEventHandler (d : Device) (sd : lockServiceData) : Proc State :=
  (emit (Log debugLog "received BLE: ${JSON.stringify(context)}") ;;
   BLEparseStatus d sd ;;
   updateHomeKitCharacteristics d)%proc.

Definition webhookEventHandler (d : Device) (w : lockWebhookContext) : Proc State :=
  (emit (Log debugLog "received Webhook: ${JSON.stringify(context)}") ;;
   parseStatusWebhook w ;;
   updateHomeKitCharacteristics d)%proc.

(** *** Pushing changes *)

(** Modelled from the spec: [deviceBase.statusCode], of [device.ts], the
    error classifier; [irdeviceBase.statusCode] has this body. *)
Definition statusCode (d : Device) (code : Z) : list Effect :=
  IR.statusCode
    {| IR.deviceId := deviceId d; IR.deviceName := ""; IR.remoteType := "";
       IR.hubDeviceId := hubDeviceId d; IR.connectionType := connectionType d;
       IR.customize := None; IR.commandTypeCfg := None; IR.customOn := None;
       IR.customOff := None; IR.disablePushOn := None;
       IR.disablePushOff := None; IR.firmware := None; IR.otherType := None |}
    code.

(** What the BLE client does during a push. *)
Inductive BLEPushAnswer : Type :=
| ConnectThrows (e : string)      (* platform.connectBLE(...) rejects *)
| ConnectFailed                   (* platform.connectBLE(...) returns false *)
| DiscoverFails (e : string)      (* discover(...) rejects *)
| Commanded (r : Outcome unit).   (* discover resolves; retryBLE resolves or rejects *)

(** The answers of the collaborators during one [pushChanges]. *)
Record PushAnswers : Type := mkPushAnswers {
  ble_push : BLEPushAnswer;
  mac : Outcome string;             (* formatDeviceIdAsMac(this.device.deviceId) *)
  cloud_push : Outcome (ApiBody unit);
}.

(** [this.LockMechanism.LockTargetState !== this.accessory.context.LockTargetState] *)
Definition targetChanged (s : State) : bool :=
  strict_neq (Some (LockTargetState s)) (context s !! "LockTargetState").

(** [LatchUnlock ? 'unlock' : this.LockMechanism.LockTargetState ? 'lock' : 'unlock'] *)
Definition pushCommand (LatchUnlock : bool) (s : State) : string :=
  if LatchUnlock then "unlock"
  else if truthy (LockTargetState s) then "lock" else "unlock".

(** [openAPIpushChanges(LatchUnlock)] up to the [await] of
    [pushChangeRequest]. *)
Definition openAPIpushSent (d : Device) (LatchUnlock : bool) : Proc State :=
  (emit (Log debugLog "openAPIpushChanges") ;;
   reading (fun s => (targetChanged s || LatchUnlock, pushCommand LatchUnlock s))
     (fun '(needed, command) =>
        if needed : bool then
          emit (Log debugLog "SwitchBot OpenAPI bodyChange: ${JSON.stringify(bodyChange)}") ;;
          emit (ControlDevice (deviceId d) command "default" "command")
        else
          emit (Log debugLog "No changes (openAPIpushChanges), LockCurrentState: ${this.LockMechanism.LockCurrentState}, TargetPosition: ${this.LockMechanism.LockTargetState}")))%proc.

(** [openAPIpushChanges] from the answer of [pushChangeRequest] on. *)
Definition openAPIpushAnswered (d : Device) (response : Outcome (ApiBody unit))
  : Proc State :=
  match response with
  | Returns deviceStatus =>
      (emit (Log debugLog ("statusCode: " +:+ show_Z (statusCode_of deviceStatus)
                           +:+ ", deviceStatus: ${JSON.stringify(deviceStatus)}")) ;;
       if successfulStatusCodes (statusCode_of deviceStatus) then
         emit (Log debugSuccessLog ("statusCode: " +:+ show_Z (statusCode_of deviceStatus)
                                    +:+ ", deviceStatus: ${JSON.stringify(deviceStatus)}")) ;;
         updateHomeKitCharacteristics d
       else
         fun s => (s, statusCode d (statusCode_of deviceStatus)))%proc
  | Throws e =>
      (apiError d e ;;
       emit (Log errorLog ("failed openAPIpushChanges with " +:+ show_opt (connectionType d)
                           +:+ " Connection, Error Message: ${JSON.stringify(e.message)}")))%proc
  end.

Definition openAPIpushChanges (d : Device) (response : Outcome (ApiBody unit))
    (LatchUnlock : bool) : Proc State :=
  reading (fun s => targetChanged s || LatchUnlock) (fun needed =>
    (openAPIpushSent d LatchUnlock ;;
     when needed (openAPIpushAnswered d response))%proc).

(** Every call of [openAPIpushChanges] that can throw stands inside its
    [try] block: the promise it returns is resolved, whatever
    [pushChangeRequest] did. *)
Definition openAPIpushSettles (response : Outcome (ApiBody unit)) : Outcome unit :=
  match response with
  | Returns _ => Returns tt
  | Throws _ => Returns tt
  end.

Definition BLEPushConnection (d : Device) (response : Outcome (ApiBody unit))
  : Proc State :=
  when (fallbackToOpenAPI d)
    (emit (Log warnLog "Using OpenAPI Connection to Push Changes") ;;
     openAPIpushChanges d response false)%proc.

(** The [fn] handed to [retryBLE]. *)
Definition bleCommand (s : State) : BLECmd :=
  if strict_eq (LockTargetState s) HAP.LockTargetState_SECURED
  then BLElock else BLEunlock.

(** The [catch] of the promise chain of [BLEpushChanges]. *)
Definition BLEpushFailed (d : Device) (a : PushAnswers) (e : string) : Proc State :=
  (apiError d e ;;
   emit (Log errorLog ("failed BLEpushChanges with " +:+ show_opt (connectionType d)
                       +:+ " Connection, Error Message: ${JSON.stringify(e.message)}")) ;;
   BLEPushConnection d (cloud_push a))%proc.

(** [BLEpushChanges], after [platform.connectBLE] has answered: the body
    of its [try] block and its [catch], as far as the method awaits them.
    The assignment to [this.device.bleMac] is not kept, nothing reads it
    here.  With a BLE client, [discover] is called and a promise chain is
    put on what it returns; the chain is neither awaited nor returned, so
    the method goes on, and returns, while [discover] runs.  What the chain
    does is [BLEpushRetried], then [BLEpushSettled]. *)
Definition BLEpushConnected (d : Device) (a : PushAnswers) : Proc State :=
  match mac a with
  | Throws _ =>
      emit (Log errorLog "failed to format device ID as MAC, Error: ${error}")
  | Returns m =>
      (emit (Log debugLog ("bleMac: " +:+ m)) ;;
       match ble_push a with
       | ConnectThrows _ => skip
       | ConnectFailed =>
           emit (Log errorLog "wasn't able to establish BLE Connection, node-switchbot: ${JSON.stringify(switchBotBLE)}") ;;
           BLEPushConnection d (cloud_push a)
       | DiscoverFails _ => emit BLEDiscover
       | Commanded _ => emit BLEDiscover
       end)%proc
  end.

(** The promise chain on [discover], first part: what runs when
    [discover] has resolved, in a later turn of the event loop and on the
    state of then.  [retryBLE] is handed [fn], which locks or unlocks by
    the [LockTargetState] it finds. *)
Definition BLEpushRetried (d : Device) (a : PushAnswers) : Proc State :=
  match ble_push a with
  | Commanded _ => reading bleCommand (fun c => emit (RetryBLE (maxRetryBLE d) c))
  | _ => skip
  end.

(** The promise chain on [discover], second part: the second [then]
    when [retryBLE] has resolved, the [catch] when [discover] or
    [retryBLE] has rejected; again on the state of then. *)
Definition BLEpushSettled (d : Device) (a : PushAnswers) : Proc State :=
  match ble_push a with
  | DiscoverFails e => BLEpushFailed d a e
  | Commanded (Returns _) =>
      (emit (Log successLog "LockTargetState: ${this.LockMechanism.LockTargetState} sent over SwitchBot BLE, sent successfully") ;;
       updateHomeKitCharacteristics d)%proc
  | Commanded (Throws e) => BLEpushFailed d a e
  | _ => skip
  end.

(** [discover] has been called: a promise chain is under way. *)
Definition is_discover (e : Effect) : bool :=
  match e with BLEDiscover => true | _ => false end.

Definition chainStarted (es : list Effect) : bool := existsb is_discover es.

(** A method that may throw: the state, the effects so far, and the
    exception if one escapes. *)
Definition Thrower : Type := State -> State * list Effect * option string.

Definition effects_of (r : State * list Effect * option string) : list Effect :=
  snd (fst r).

Definition returns (p : Proc State) : Thrower :=
  fun s => let '(s', es) := p s in (s', es, None).

(** [BLEpushChanges]: [platform.connectBLE] is awaited outside the [try]
    block, so what it throws escapes. *)
Definition BLEpushChanges (d : Device) (a : PushAnswers) : Thrower :=
  fun s =>
    if targetChanged s then
      match ble_push a with
      | ConnectThrows e => (s, [Log debugLog "BLEpushChanges"; SwitchbotBLE], Some e)
      | _ =>
          returns (emit (Log debugLog "BLEpushChanges") ;;
                   emit SwitchbotBLE ;;
                   BLEpushConnected d a)%proc s
      end
    else
      returns (emit (Log debugLog "BLEpushChanges") ;;
               emit (Log debugLog "No changes (BLEpushChanges), LockTargetState: ${this.LockMechanism.LockTargetState}, LockCurrentState: ${this.LockMechanism.LockCurrentState}"))%proc s.

(** [pushChanges]: the transport, as far as it is awaited, then the
    one-shot refresh 15 s later; an exception of the transport skips the
    scheduling.  A promise chain that [BLEpushChanges] has started runs
    after [pushChanges] has returned. *)
Definition pushChanges (d : Device) (a : PushAnswers) : Thrower :=
  fun s =>
    let '(s1, e1, exn) :=
      if negb (truthy_bool (enableCloudService d)) && OpenAPI d then
        returns (emit (Log errorLog "pushChanges enableCloudService: ${this.device.enableCloudService}")) s
      else if BLE d then
        BLEpushChanges d a s
      else if OpenAPI d && truthy_str (token d) then
        returns (openAPIpushChanges d (cloud_push a) false) s
      else
        returns (offlineOff d ;;
                 emit (Log debugWarnLog ("Connection Type: " +:+ show_opt (connectionType d)
                                         +:+ ", pushChanges will not happen.")))%proc s in
    match exn with
    | Some e => (s1, e1, Some e)
    | None => (s1, e1 ++ [IntervalOnce 15000], None)
    end.

(** [doLockUpdate.next()]: the [tap] of the subscription runs at once;
    [debounceTime] then holds the signal back. *)
Definition doLockUpdate_next : Proc State :=
  (emit DoUpdateNext ;;
   modify (set_lockUpdateInProgress true))%proc.

(** The subscriber of [doLockUpdate], run when [debounceTime] lets a
    signal through: it resets [lockUpdateInProgress] when its [await] of
    [pushChanges] is over, which on BLE is when [discover] has been called. *)
Definition doLockUpdate_subscriber (d : Device) (a : PushAnswers) : Proc State :=
  fun s =>
    let '(s1, e1, exn) := pushChanges d a s in
    let '(s2, e2) :=
      match exn with
      | None => (s1, [])
      | Some e =>
          (apiError d e ;;
           emit (Log errorLog ("failed pushChanges with " +:+ show_opt (connectionType d)
                               +:+ " Connection, Error Message: ${JSON.stringify(e.message)}")))%proc s1
      end in
    (set_lockUpdateInProgress false s2, e1 ++ e2).

Definition LockTargetStateSet (value : Value) : Proc State :=
  (reading targetChanged (fun changed =>
     if changed then emit (Log infoLog "Set LockTargetState: ${value}")
     else emit (Log debugLog "No Changes, LockTargetState: ${value}")) ;;
   modify (set_LockTargetState value) ;;
   doLockUpdate_next)%proc.

(** [OnSet(value)] until it returns: the push is started and not
    awaited; [this.Switch!.On = value] throws when there is no latch
    button. *)
Definition OnSet (d : Device) (value : Value) : Proc State :=
  (emit (Log debugLog "Latch Button Set On: ${value}") ;;
   (if truthy value then
      emit (Log debugLog "Attempting to open the latch") ;;
      openAPIpushSent d true
    else
      emit (Log debugLog "Switch is off, nothing to do")) ;;
   reading Switch (fun sw =>
     match sw with
     | Some _ => modify (set_SwitchOn value) ;; doLockUpdate_next
     | None => skip
     end))%proc.

(** What runs when the push that [OnSet] started for a truthy value is
    answered: the rest of [openAPIpushChanges], then the [then] or the
    [catch] handler of [OnSet]. *)
Definition OnSet_answered (d : Device) (response : Outcome (ApiBody unit))
  : Proc State :=
  (openAPIpushAnswered d response ;;
   match openAPIpushSettles response with
   | Returns _ =>
       emit (Log debugLog "Latch opened successfully") ;;
       emit (Log debugLog "SwitchService is: ${this.Switch?.Service ? 'available' : 'not available'}") ;;
       reading Switch (fun sw =>
         when (present sw) (emit (SetTimeout 500 LatchOff)))
   | Throws e =>
       emit (Log debugLog "Error opening latch: ${e.message ?? e}") ;;
       reading Switch (fun sw =>
         when (present sw)
           (emit (UpdateCharacteristic "Switch" "On" (VBool false)) ;;
            emit (Log debugLog "Latch button switched off after an error.")))
   end)%proc.

(** The callbacks of [setTimeout]. *)
Definition runCallback (cb : Callback) : Proc State :=
  match cb with
  | LatchOff =>
      (emit (UpdateCharacteristic "Switch" "On" (VBool false)) ;;
       emit (Log debugLog "Latch button switched off automatically."))%proc
  end.

(** What [offlineOff] writes, said at once: for a device marked offline,
    the secured and contact-detected constants. *)
Definition lockOffline (d : Device) (s : State) : list Effect :=
  if truthy_bool (offline d) then
    [UpdateCharacteristic "LockMechanism" "LockTargetState" HAP.LockTargetState_SECURED;
     UpdateCharacteristic "LockMechanism" "LockCurrentState" HAP.LockCurrentState_SECURED]
    ++ (if contactShown d s
        then [UpdateCharacteristic "ContactSensor" "ContactSensorState"
                HAP.ContactSensorState_CONTACT_DETECTED]
        else [])
  else [].

End Lock.

(** ** The [doLockUpdate] pipeline of the [Lock] constructor

    [doLockUpdate.pipe(tap(...), debounceTime(devicePushRate * 1000))
       .subscribe(...)], driven by calls of [LockTargetStateSet].  Time is
    in milliseconds.  [debounceTime] keeps one timer: every signal restarts
    it, and when it fires the subscriber runs once.  A handler runs to its
    end before the next one starts.  The promise chain that a push over BLE
    starts is no handler of this pipeline: it runs later, as
    [Lock.BLEpushRetried] and [Lock.BLEpushSettled], sets neither
    [LockTargetState] nor [lockUpdateInProgress] nor the timer, and what it
    caches in [accessory.context] is not followed here. *)

Module Debounce.
Import Lock.

(** One run of a handler: when, what it was given or read, its effects. *)
Inductive Ran : Type :=
| RanSet (t : Z) (value : Value) (es : list Effect)
    (* LockTargetStateSet(value) *)
| RanPush (t : Z) (target : Value) (es : list Effect).
    (* the subscriber, with the LockTargetState that pushChanges found *)

Record Loop : Type := mkLoop {
  lock : State;
  due : option Z;                   (* when the debounce timer fires *)
  history : list (Ran * bool);      (* each run, and lockUpdateInProgress after it *)
}.

Definition is_push (r : Ran * bool) : bool :=
  match fst r with RanPush _ _ _ => true | RanSet _ _ _ => false end.

Definition pushes (h : list (Ran * bool)) : list (Ran * bool) :=
  List.filter is_push h.

(** The debounce timer fires. *)
Definition fire (d : Device) (answers : Z -> PushAnswers) (w : Loop) : Loop :=
  match due w with
  | None => w
  | Some t =>
      let '(s', es) := doLockUpdate_subscriber d (answers t) (lock w) in
      {| lock := s'; due := None;
         history := history w
                    ++ [(RanPush t (LockTargetState (lock w)) es,
                         lockUpdateInProgress s')] |}
  end.

(** Time passes until [now]. *)
Definition elapse (d : Device) (answers : Z -> PushAnswers) (now : Z) (w : Loop)
  : Loop :=
  match due w with
  | Some t => if t <=? now then fire d answers w else w
  | None => w
  end.

(** HomeKit calls [LockTargetStateSet(value)] at [now]; [rate] is
    [devicePushRate * 1000]. *)
Definition call (d : Device) (answers : Z -> PushAnswers) (rate : Z)
    (now : Z) (value : Value) (w : Loop) : Loop :=
  let w1 := elapse d answers now w in
  let '(s', es) := LockTargetStateSet value (lock w1) in
  {| lock := s'; due := Some (now + rate);
     history := history w1 ++ [(RanSet now value es, lockUpdateInProgress s')] |}.

Fixpoint run (d : Device) (answers : Z -> PushAnswers) (rate : Z)
    (calls : list (Z * Value)) (w : Loop) : Loop :=
  match calls with
  | [] => w
  | (t, v) :: rest => run d answers rate rest (call d answers rate t v w)
  end.

(** Calls within one debounce window: each comes less than [rate] after
    the one before it, the first of them at [t]. *)
Inductive chained (rate : Z) : Z -> list (Z * Value) -> Prop :=
| chained_nil t : chained rate t []
| chained_cons t t' v rest :
    t <= t' < t + rate -> chained rate t' rest ->
    chained rate t ((t', v) :: rest).

Definition effects_in (r : Ran) : list Effect :=
  match r with RanSet _ _ es => es | RanPush _ _ es => es end.

(** Of a run: when, the value, the commands it issued, and
    [lockUpdateInProgress] after it. *)
Definition summary (r : Ran * bool) : Z * Value * list Effect * bool :=
  match fst r with
  | RanSet t v es => (t, v, commands es, snd r)
  | RanPush t v es => (t, v, commands es, snd r)
  end.

(** The state that a call of [LockTargetStateSet(v)] leaves. *)
Definition armed (v : Value) (s : State) : State :=
  set_lockUpdateInProgress true (set_LockTargetState v s).

(** A run of the window: a call, after which the update is in progress. *)
Definition is_call (r : Ran * bool) : Prop :=
  is_push r = false /\ snd r = true.

End Debounce.

(** ** Devices and states used as instances *)

Module Samples.

(** A remote whose hub is the device itself. *)
Definition selfHub : IR.Device :=
  {| IR.deviceId := "C0FFEE000001"; IR.deviceName := "TV"; IR.remoteType := "Others";
     IR.hubDeviceId := Some "C0FFEE000001"; IR.connectionType := Some "OpenAPI";
     IR.customize := None; IR.commandTypeCfg := None; IR.customOn := None;
     IR.customOff := None; IR.disablePushOn := None; IR.disablePushOff := None;
     IR.firmware := None; IR.otherType := None |}.

(** A remote without [customize], and one with it. *)
Definition plainRemote : IR.Device :=
  {| IR.deviceId := "C0FFEE000002"; IR.deviceName := "Amp"; IR.remoteType := "Others";
     IR.hubDeviceId := Some "F00D00000001"; IR.connectionType := Some "OpenAPI";
     IR.customize := None; IR.commandTypeCfg := None; IR.customOn := None;
     IR.customOff := None; IR.disablePushOn := None; IR.disablePushOff := None;
     IR.firmware := None; IR.otherType := Some "Switch" |}.

Definition customRemote : IR.Device :=
  {| IR.deviceId := "C0FFEE000003"; IR.deviceName := "Amp"; IR.remoteType := "Others";
     IR.hubDeviceId := Some "F00D00000001"; IR.connectionType := Some "OpenAPI";
     IR.customize := Some true; IR.commandTypeCfg := None; IR.customOn := Some "power";
     IR.customOff := None; IR.disablePushOn := None; IR.disablePushOff := None;
     IR.firmware := None; IR.otherType := Some "Switch" |}.

Definition fresh : IR.State :=
  {| IR.On := None; IR.has := fun _ => true; IR.context := ∅ |}.

Definition utils : Base.Utils :=
  {| Base.convertUnits := fun t _ _ => t;
     Base.getLightLevel := fun l _ _ _ => l |}.

(** A Hub 2 polled from the cloud only. *)
Definition cloudHub : Hub.Device :=
  {| Hub.deviceId := "C0FFEE00000A"; Hub.connectionType := Some "OpenAPI";
     Hub.enableCloudService := Some true; Hub.BLE := false; Hub.OpenAPI := true;
     Hub.token := Some "token"; Hub.offline := None;
     Hub.hide_temperature := None; Hub.hide_humidity := None;
     Hub.hide_lightsensor := None; Hub.set_minLux := None;
     Hub.set_maxLux := None; Hub.convertUnitTo := None |}.

(** A Hub 2 on the cloud without credentials. *)
Definition strandedHub : Hub.Device :=
  {| Hub.deviceId := "C0FFEE00000B"; Hub.connectionType := Some "OpenAPI";
     Hub.enableCloudService := Some true; Hub.BLE := false; Hub.OpenAPI := true;
     Hub.token := None; Hub.offline := None;
     Hub.hide_temperature := None; Hub.hide_humidity := None;
     Hub.hide_lightsensor := None; Hub.set_minLux := None;
     Hub.set_maxLux := None; Hub.convertUnitTo := None |}.

Definition hubState : Hub.State :=
  {| Hub.TemperatureSensor := Some (num 21); Hub.HumiditySensor := Some (num 40);
     Hub.LightSensor := Some (num 300);
     Hub.context := {[ "CurrentTemperature" := num 21;
                       "CurrentRelativeHumidity" := num 40;
                       "CurrentAmbientLightLevel" := num 300 ]} |}.

(** A lock on BLE only, one on BLE with the cloud behind it, one on the
    cloud, and one on the cloud without credentials that is marked offline. *)
Definition bleLock : Lock.Device :=
  {| Lock.deviceId := "C0FFEE00000C"; Lock.hubDeviceId := None;
     Lock.connectionType := Some "BLE"; Lock.enableCloudService := Some true;
     Lock.BLE := true; Lock.OpenAPI := false; Lock.token := None;
     Lock.offline := None; Lock.hide_contactsensor := None;
     Lock.maxRetryBLE := 2 |}.

Definition bothLock : Lock.Device :=
  {| Lock.deviceId := "C0FFEE00000D"; Lock.hubDeviceId := None;
     Lock.connectionType := Some "BLE/OpenAPI"; Lock.enableCloudService := Some true;
     Lock.BLE := true; Lock.OpenAPI := true; Lock.token := Some "token";
     Lock.offline := None; Lock.hide_contactsensor := None;
     Lock.maxRetryBLE := 2 |}.

Definition cloudLock : Lock.Device :=
  {| Lock.deviceId := "C0FFEE00000E"; Lock.hubDeviceId := None;
     Lock.connectionType := Some "OpenAPI"; Lock.enableCloudService := Some true;
     Lock.BLE := false; Lock.OpenAPI := true; Lock.token := Some "token";
     Lock.offline := None; Lock.hide_contactsensor := None;
     Lock.maxRetryBLE := 2 |}.

Definition offlineLock : Lock.Device :=
  {| Lock.deviceId := "C0FFEE00000F"; Lock.hubDeviceId := None;
     Lock.connectionType := Some "OpenAPI"; Lock.enableCloudService := Some true;
     Lock.BLE := false; Lock.OpenAPI := true; Lock.token := None;
     Lock.offline := Some true; Lock.hide_contactsensor := None;
     Lock.maxRetryBLE := 2 |}.

(** An unlocked lock, as last confirmed. *)
Definition unlocked : Lock.State :=
  {| Lock.LockTargetState := HAP.LockTargetState_UNSECURED;
     Lock.LockCurrentState := HAP.LockCurrentState_UNSECURED;
     Lock.ContactSensor := Some HAP.ContactSensorState_CONTACT_DETECTED;
     Lock.BatteryLevel := num 80;
     Lock.StatusLowBattery := HAP.StatusLowBattery_BATTERY_LEVEL_NORMAL;
     Lock.Switch := Some (VBool false);
     Lock.context := {[ "LockTargetState" := HAP.LockTargetState_UNSECURED;
                        "LockCurrentState" := HAP.LockCurrentState_UNSECURED ]};
     Lock.lockUpdateInProgress := false |}.

(** The same lock after HomeKit asked for it to be secured. *)
Definition asked : Lock.State :=
  Lock.set_LockTargetState HAP.LockTargetState_SECURED unlocked.

(** The event loop of a lock with nothing pending, and collaborators that
    answer every push with success. *)
Definition idle : Debounce.Loop :=
  {| Debounce.lock := unlocked; Debounce.due := None; Debounce.history := [] |}.

Definition agreeing : Lock.PushAnswers :=
  {| Lock.ble_push := Lock.Commanded (Returns tt);
     Lock.mac := Returns "C0:FF:EE:00:00:0E";
     Lock.cloud_push := Returns (mkApiBody 100 tt) |}.

(** A BLE client that cannot connect and throws. *)
Definition throwing : Lock.PushAnswers :=
  {| Lock.ble_push := Lock.ConnectThrows "adapter";
     Lock.mac := Returns "C0:FF:EE:00:00:0C";
     Lock.cloud_push := Returns (mkApiBody 100 tt) |}.

End Samples.

(** ** Setting up an accessory

    What a constructor does to its collaborators besides the effects of the
    handlers: the services it gets, adds and removes, the handlers it binds,
    the methods it starts without awaiting them, the timers it subscribes. *)

(** The argument of [setProps]. *)
Record Props : Type := mkProps {
  unit_ : option string;
  validValues : list Q;
  validValueRanges : list Q;
  minValue : option Q;
  maxValue : option Q;
  minStep : option Q;
}.

Inductive Setup : Type :=
| Did (e : Effect)
    (* an effect as a handler has it: a log, setCharacteristic(c, v) *)
| SetCategory (category : string)
    (* accessory.category = this.hap.Categories[category] *)
| GetOrAddService (service : string)
    (* accessory.getService(S) ?? accessory.addService(S) *)
| GetService (service : string)
    (* accessory.getService(S) *)
| RemoveService (service : string)
    (* accessory.removeService(<what getService(S) returned>) *)
| ContextDefault (field : string)
    (* accessory.context[field] = accessory.context[field] ?? {} *)
| ContextStore (field : string)
    (* accessory.context[field] = this[field] as object *)
| SetProps (field characteristic : string) (props : Props)
    (* getCharacteristic(c).setProps(props) *)
| OnGet (field characteristic : string)
    (* getCharacteristic(c).onGet(() => this.field.c) *)
| OnSetBound (field characteristic handler : string)
    (* getCharacteristic(c).onSet(this.handler.bind(this)) *)
| Started (method : string)
    (* this.method(), an async method that is not awaited *)
| WebhookHandler (deviceId : string)
    (* this.platform.webhookEventHandler[deviceId] = async (context) => ... *)
| BLEHandler (bleMac : string)
    (* this.platform.bleEventHandler[bleMac] = async (context) => ... *)
| Interval (ms : Q)
    (* interval(ms).pipe(skipWhile(() => updateInProgress)).subscribe(refreshStatus) *)
| Debounced (ms : Q).
    (* doLockUpdate.pipe(tap(...), debounceTime(ms)).subscribe(...) *)

(** A piece of a constructor over a state [S]. *)
Definition Build (S : Type) : Type := S -> S * list Setup.

Definition note {S} (x : Setup) : Build S := fun s => (s, [x]).

Definition did {S} (p : Proc S) : Build S :=
  fun s => let '(s', es) := p s in (s', List.map Did es).

Definition andThen {S} (p q : Build S) : Build S :=
  fun s => let '(s1, e1) := p s in let '(s2, e2) := q s1 in (s2, e1 ++ e2).

(** Statements one after the other. *)
Fixpoint inOrder {S} (ps : list (Build S)) : Build S :=
  match ps with
  | [] => fun s => (s, [])
  | p :: rest => andThen p (inOrder rest)
  end.

(** [x ?? v] *)
Definition orElse {A} (x : option A) (v : A) : A :=
  match x with Some a => a | None => v end.

Definition removed (es : list Setup) : list string :=
  List.flat_map (fun x => match x with RemoveService s => [s] | _ => [] end) es.

(** The fields whose object has been stored in [accessory.context]. *)
Definition stored (es : list Setup) : list string :=
  List.flat_map (fun x => match x with ContextStore f => [f] | _ => [] end) es.

Definition added (es : list Setup) : list string :=
  List.flat_map (fun x => match x with GetOrAddService s => [s] | _ => [] end) es.

Definition bound (es : list Setup) : list (string * string * string) :=
  List.flat_map (fun x => match x with
                          | OnSetBound f c h => [(f, c, h)]
                          | _ => []
                          end) es.

Definition effects (es : list Setup) : list Effect :=
  List.flat_map (fun x => match x with Did e => [e] | _ => [] end) es.

Definition intervals (es : list Setup) : list Q :=
  List.flat_map (fun x => match x with Interval ms => [ms] | _ => [] end) es.

(** ** More of [irdeviceBase] ([src/irdevice/irdevice.ts]): the logging
    methods, the log settings, the accessory information *)

Module IRBase.
Import IR.

(** The methods of the Homebridge logger. *)
Inductive Level : Type := LInfo | LSuccess | LWarn | LError | LDebug.

(** One call [this.log.level(prefix, text)]. *)
Record Line : Type := mkLine {
  level : Level;
  prefix : string;
  text : string;
}.

Definition enablingDeviceLogging (deviceLogging : string) : bool :=
  String.eqb deviceLogging "debugMode" || String.eqb deviceLogging "debug"
  || String.eqb deviceLogging "standard".

Definition loggingIsDebug (deviceLogging : string) : bool :=
  String.eqb deviceLogging "debugMode" || String.eqb deviceLogging "debug".

(** [this[m](msg)] for the eight logging methods: what each hands to the
    logger, given [this.deviceLogging].  [String(...log)] is the text of
    the first argument. *)
Definition log (deviceLogging remoteType displayName : string)
    (m : LogMethod) (msg : string) : list Line :=
  let plain := remoteType +:+ ": " +:+ displayName in
  let marked := "[DEBUG] " +:+ remoteType +:+ ": " +:+ displayName in
  if enablingDeviceLogging deviceLogging then
    match m with
    | infoLog => [mkLine LInfo plain msg]
    | successLog => [mkLine LSuccess plain msg]
    | debugSuccessLog =>
        if loggingIsDebug deviceLogging then [mkLine LSuccess marked msg] else []
    | warnLog => [mkLine LWarn plain msg]
    | debugWarnLog =>
        if loggingIsDebug deviceLogging then [mkLine LWarn marked msg] else []
    | errorLog => [mkLine LError plain msg]
    | debugErrorLog =>
        if loggingIsDebug deviceLogging then [mkLine LError marked msg] else []
    | debugLog =>
        if String.eqb deviceLogging "debug" then [mkLine LInfo marked msg]
        else if String.eqb deviceLogging "debugMode" then [mkLine LDebug plain msg]
        else []
    end
  else [].

(** The calls of the logger that the effects of a handler make, one entry
    per call of a logging method, in the order of those calls.  (Each
    method awaits before it reaches the logger, so the order in which the
    lines come out is the scheduler's.) *)
Definition printed (deviceLogging remoteType displayName : string)
    (es : list Effect) : list Line :=
  List.flat_map (fun e => match e with
                          | Log m msg => log deviceLogging remoteType displayName m msg
                          | _ => []
                          end) es.

(** What [getDeviceLogSettings] reads: the truthiness of
    [platform.debugMode], [device.logging], [platform.platformLogging]. *)
Record LogConfig : Type := mkLogConfig {
  debugMode : bool;
  logging : option string;
  platformLogging : option string;
}.

(** [platform.debugMode ? 'debugMode'
      : device.logging ?? platform.platformLogging ?? 'standard'] *)
Definition deviceLogging (c : LogConfig) : string :=
  if debugMode c then "debugMode"
  else orElse (logging c) (orElse (platformLogging c) "standard").

Definition loggingSource (c : LogConfig) : string :=
  if debugMode c then "Debug Mode"
  else if truthy_str (logging c) then "Device Config"
  else if truthy_str (platformLogging c) then "Platform Config"
  else "Default".

Definition getDeviceLogSettings (c : LogConfig) : Proc State :=
  (modify (set_context "deviceLogging" (VStr (deviceLogging c))) ;;
   emit (Log debugLog ("Using " +:+ loggingSource c +:+ " Logging: "
                       +:+ deviceLogging c)))%proc.

(** [irdeviceBase.updateCharacteristic(Service, Characteristic,
    CharacteristicValue, CharacteristicName)] *)
Definition updateCharacteristic (service name : string) (v : option Value)
  : Proc State :=
  match v with
  | None => emit (Log debugLog (name +:+ ": undefined"))
  | Some x =>
      (emit (UpdateCharacteristic service name x) ;;
       emit (Log debugLog ("updateCharacteristic " +:+ name +:+ ": ${CharacteristicValue}")) ;;
       emit (Log debugWarnLog (name +:+ " context before: ${this.accessory.context[CharacteristicName]}")) ;;
       modify (set_context name x) ;;
       emit (Log debugWarnLog (name +:+ " context after: ${this.accessory.context[CharacteristicName]}")))%proc
  end.

(** The last statement of the constructor, which follows
    [getDeviceContext]: the characteristics of the accessory
    information service. *)
Definition accessoryInformation (d : Device) (displayName : string) : Proc State :=
  reading (fun s => context s !! "model") (fun model =>
    (emit (UpdateCharacteristic "AccessoryInformation" "Manufacturer" (VStr "SwitchBot")) ;;
     emit (UpdateCharacteristic "AccessoryInformation" "AppMatchingIdentifier" (VStr "id1087374760")) ;;
     emit (UpdateCharacteristic "AccessoryInformation" "Name" (VStr displayName)) ;;
     emit (UpdateCharacteristic "AccessoryInformation" "ConfiguredName" (VStr displayName)) ;;
     emit (UpdateCharacteristic "AccessoryInformation" "Model" (orElse model (VStr "Unknown"))) ;;
     emit (UpdateCharacteristic "AccessoryInformation" "ProductData" (VStr (deviceId d))) ;;
     emit (UpdateCharacteristic "AccessoryInformation" "SerialNumber" (VStr (deviceId d))))%proc).

End IRBase.

(** ** The constructor of [Others] ([src/irdevice/other.ts]) *)

Module Others.
Import IR.

(** [this.field = { Name, Service }]: the field is set from here on. *)
Definition set_has (field : string) (s : State) : State :=
  {| On := On s; has := fun k => String.eqb k field || has s k;
     context := context s |}.

Definition assign (field : string) : Build State :=
  fun s => (set_has field s, []).

(** The ten [removeXService(accessory)]: the entry of the field in
    [accessory.context] is given a default, the field is assigned an object
    whose [Service] is what [getService] finds, that object is stored in
    [accessory.context], a warning is logged, and the service is removed.
    The entries of [accessory.context] that hold such objects are written
    through [ContextDefault] and [ContextStore]; the map [context] of the
    state holds the other entries, those that hold the value of a
    characteristic or a string. *)
Definition removeService (field service log : string) : Build State :=
  inOrder [ note (ContextDefault field);
            note (GetService service);
            assign field;
            note (ContextStore field);
            did (emit (Log warnLog log));
            note (RemoveService service) ].

Definition removeOutletService : Build State :=
  removeService "Outlet" "Outlet" "Removing any leftover Outlet Service".
Definition removeGarageDoorService : Build State :=
  removeService "GarageDoor" "GarageDoorOpener" "Removing any leftover Garage Door Service".
Definition removeDoorService : Build State :=
  removeService "Door" "Door" "Removing any leftover Door Service".
Definition removeLockService : Build State :=
  removeService "LockMechanism" "LockMechanism" "Removing any leftover Lock Service".
Definition removeFaucetService : Build State :=
  removeService "Faucet" "Faucet" "Removing any leftover Faucet Service".
Definition removeFanService : Build State :=
  removeService "Fan" "Fanv2" "Removing any leftover Fan Service".
Definition removeWindowService : Build State :=
  removeService "Window" "Window" "Removing any leftover Window Service".
Definition removeWindowCoveringService : Build State :=
  removeService "WindowCovering" "WindowCovering" "Removing any leftover Window Covering Service".
Definition removeStatefulProgrammableSwitchService : Build State :=
  removeService "StatefulProgrammableSwitch" "StatefulProgrammableSwitch"
    "Removing any leftover Stateful Programmable Switch Service".
Definition removeSwitchService : Build State :=
  removeService "Switch" "Switch" "Removing any leftover Switch Service".

Definition getOtherConfigSettings (d : Device) : Build State :=
  did (emit (Log debugLog
               ("Use " +:+ (if truthy_str (otherType d) then "Device Config" else "Default")
                +:+ " Device Type: " +:+ otherDeviceType d))).

(** [{ validValues: [0, 100], minValue: 0, maxValue: 100, minStep: 100 }] *)
Definition positions : Props :=
  {| unit_ := None; validValues := [0; 100]%Q; validValueRanges := [];
     minValue := Some 0%Q; maxValue := Some 100%Q; minStep := Some 100%Q |}.

(** The branch of the constructor for one device type, up to the removal
    of the other services: the category, the entry of the field in
    [accessory.context], the service, the field, its object stored in
    [accessory.context], the log, the chain of [setCharacteristic] that
    starts with the name, and the handler. *)
Definition display (category field service log : string) (displayName : string)
    (chain : list (Build State)) : Build State :=
  inOrder ([ note (SetCategory category);
             note (ContextDefault field);
             note (GetOrAddService service);
             assign field;
             note (ContextStore field);
             did (emit (Log debugLog log));
             did (emit (UpdateCharacteristic field "Name" (VStr displayName))) ]
           ++ chain).

(** The constructor of [Others], after [super(platform, accessory, device)]. *)
Definition constructor (d : Device) (displayName : string) : Build State :=
  let t := otherDeviceType d in
  let set field c v : Build State := did (emit (UpdateCharacteristic field c v)) in
  andThen (getOtherConfigSettings d)
    (if String.eqb t "Switch" then
       andThen
         (display "SWITCH" "Switch" "Switch" "Displaying as Switch" displayName
            [ note (OnSetBound "Switch" "On" "OnSet") ])
         (inOrder [ removeFanService; removeLockService; removeDoorService;
                    removeFaucetService; removeOutletService; removeWindowService;
                    removeGarageDoorService; removeWindowCoveringService;
                    removeStatefulProgrammableSwitchService ])
     else if String.eqb t "GarageDoor" then
       andThen
         (display "GARAGE_DOOR_OPENER" "GarageDoor" "GarageDoorOpener"
            "Displaying as Garage Door Opener" displayName
            [ set "GarageDoor" "ObstructionDetected" (VBool false);
              note (SetProps "GarageDoor" "TargetDoorState" positions);
              note (OnSetBound "GarageDoor" "TargetDoorState" "OnSet") ])
         (inOrder [ removeFanService; removeLockService; removeDoorService;
                    removeFaucetService; removeOutletService; removeSwitchService;
                    removeWindowService; removeWindowCoveringService;
                    removeStatefulProgrammableSwitchService ])
     else if String.eqb t "Door" then
       andThen
         (display "DOOR" "Door" "Door" "Displaying as Door" displayName
            [ set "Door" "PositionState" HAP.PositionState_STOPPED;
              note (SetProps "Door" "TargetPosition" positions);
              note (OnSetBound "Door" "TargetPosition" "OnSet") ])
         (inOrder [ removeFanService; removeLockService; removeOutletService;
                    removeFaucetService; removeSwitchService; removeWindowService;
                    removeGarageDoorService; removeWindowCoveringService;
                    removeStatefulProgrammableSwitchService ])
     else if String.eqb t "Window" then
       andThen
         (display "WINDOW" "Window" "Window" "Displaying as Window" displayName
            [ set "Window" "PositionState" HAP.PositionState_STOPPED;
              note (SetProps "Window" "TargetPosition" positions);
              note (OnSetBound "Window" "TargetPosition" "OnSet") ])
         (inOrder [ removeFanService; removeLockService; removeDoorService;
                    removeOutletService; removeFaucetService; removeSwitchService;
                    removeGarageDoorService; removeWindowCoveringService;
                    removeStatefulProgrammableSwitchService ])
     else if String.eqb t "WindowCovering" then
       andThen
         (display "WINDOW_COVERING" "WindowCovering" "WindowCovering"
            "Displaying as Window Covering" displayName
            [ set "WindowCovering" "PositionState" HAP.PositionState_STOPPED;
              note (SetProps "WindowCovering" "TargetPosition" positions);
              note (OnSetBound "WindowCovering" "TargetPosition" "OnSet") ])
         (inOrder [ removeFanService; removeLockService; removeDoorService;
                    removeOutletService; removeFaucetService; removeSwitchService;
                    removeWindowService; removeGarageDoorService;
                    removeStatefulProgrammableSwitchService ])
     else if String.eqb t "Lock" then
       andThen
         (display "DOOR_LOCK" "LockMechanism" "LockMechanism" "Displaying as Lock"
            displayName
            [ set "LockMechanism" "PositionState" HAP.PositionState_STOPPED;
              note (OnSetBound "LockMechanism" "LockTargetState" "OnSet") ])
         (inOrder [ removeFanService; removeDoorService; removeOutletService;
                    removeSwitchService; removeFaucetService; removeWindowService;
                    removeGarageDoorService; removeWindowCoveringService;
                    removeStatefulProgrammableSwitchService ])
     else if String.eqb t "Faucet" then
       andThen
         (display "FAUCET" "Faucet" "Faucet" "Displaying as Faucet" displayName
            [ note (OnSetBound "Faucet" "Active" "OnSet") ])
         (inOrder [ removeFanService; removeLockService; removeDoorService;
                    removeOutletService; removeSwitchService; removeWindowService;
                    removeGarageDoorService; removeWindowCoveringService;
                    removeStatefulProgrammableSwitchService ])
     else if String.eqb t "Fan" then
       andThen
         (display "FAN" "Fan" "Fanv2" "Displaying as Fan" displayName
            [ note (OnSetBound "Fan" "Active" "OnSet") ])
         (inOrder [ removeLockService; removeDoorService; removeFaucetService;
                    removeOutletService; removeSwitchService; removeWindowService;
                    removeGarageDoorService; removeWindowCoveringService;
                    removeStatefulProgrammableSwitchService ])
     else if String.eqb t "Stateful" then
       andThen
         (display "PROGRAMMABLE_SWITCH" "StatefulProgrammableSwitch"
            "StatefulProgrammableSwitch"
            "Displaying as Stateful Programmable Switch" displayName
            [ note (OnSetBound "StatefulProgrammableSwitch"
                      "ProgrammableSwitchOutputState" "OnSet") ])
         (inOrder [ removeFanService; removeLockService; removeDoorService;
                    removeFaucetService; removeOutletService; removeSwitchService;
                    removeWindowService; removeGarageDoorService;
                    removeWindowCoveringService ])
     else if String.eqb t "Outlet" then
       andThen
         (display "OUTLET" "Outlet" "Outlet" "Displaying as Outlet" displayName
            [ note (OnSetBound "Outlet" "On" "OnSet") ])
         (inOrder [ removeFanService; removeLockService; removeDoorService;
                    removeFaucetService; removeSwitchService; removeWindowService;
                    removeGarageDoorService; removeWindowCoveringService;
                    removeStatefulProgrammableSwitchService ])
     else
       did (emit (Log errorLog "Device Type not set"))).

(** The device types that the constructor knows, each with the field of
    its service object and the HAP service behind it. *)
Definition deviceTypes : list (string * (string * string)) :=
  [ ("Switch", ("Switch", "Switch"));
    ("GarageDoor", ("GarageDoor", "GarageDoorOpener"));
    ("Door", ("Door", "Door"));
    ("Window", ("Window", "Window"));
    ("WindowCovering", ("WindowCovering", "WindowCovering"));
    ("Lock", ("LockMechanism", "LockMechanism"));
    ("Faucet", ("Faucet", "Faucet"));
    ("Fan", ("Fan", "Fanv2"));
    ("Stateful", ("StatefulProgrammableSwitch", "StatefulProgrammableSwitch"));
    ("Outlet", ("Outlet", "Outlet")) ].

Definition fields : list string := List.map (fun e => fst (snd e)) deviceTypes.

(** The HAP services of the types other than [t]. *)
Definition otherServices (t : string) : list string :=
  List.map (fun e => snd (snd e))
    (List.filter (fun e => negb (String.eqb (fst e) t)) deviceTypes).

End Others.
(** ** Shapes of inputs that the properties speak of *)

Module Shapes.

(** A character of a version that the stripping leaves alone. *)
Definition plainChar (c : ascii) : bool :=
  negb (Ascii.eqb c "V") && negb (Ascii.eqb c "-")
  && negb (Version.isLineTerminator c).

(** A version without [V], [-] and line terminators, such as ["6.3"]. *)
Fixpoint plainVersion (s : string) : bool :=
  match s with
  | EmptyString => true
  | String c r => plainChar c && plainVersion r
  end.

(** [device.connectionType === 'OpenAPI'] *)
Definition onOpenAPI (connectionType : option string) : bool :=
  match connectionType with
  | Some c => String.eqb c "OpenAPI"
  | None => false
  end.

(** An update of a characteristic. *)
Definition is_update (e : Effect) : bool :=
  match e with UpdateCharacteristic _ _ _ => true | _ => false end.

Definition updates (es : list Effect) : list Effect := List.filter is_update es.

(** An update that hands the error [e] to HomeKit. *)
Definition is_error_of (e : string) (x : Effect) : bool :=
  match x with
  | UpdateCharacteristic _ _ (VErr e') => String.eqb e' e
  | _ => false
  end.

(** For each device type of [Others] but [Fan]: the field of its service
    object, the characteristic that the constructor binds [OnSet] to, the
    value that [OnSet] reads as off, and the value that
    [updateHomeKitCharacteristics] writes for on. *)
Record Target : Type := mkTarget {
  deviceType : string;
  field : string;
  characteristic : string;
  offValue : Value;
  onValue : Value;
}.

Definition targets : list Target :=
  [ mkTarget "Switch" "Switch" "On" (VBool false) (VBool true);
    mkTarget "GarageDoor" "GarageDoor" "TargetDoorState"
      HAP.TargetDoorState_CLOSED HAP.TargetDoorState_OPEN;
    mkTarget "Door" "Door" "TargetPosition" (num 0) (num 100);
    mkTarget "Window" "Window" "TargetPosition" (num 0) (num 100);
    mkTarget "WindowCovering" "WindowCovering" "TargetPosition" (num 0) (num 100);
    mkTarget "Lock" "LockMechanism" "LockTargetState"
      HAP.LockTargetState_SECURED HAP.LockTargetState_UNSECURED;
    mkTarget "Faucet" "Faucet" "Active" HAP.Active_INACTIVE HAP.Active_ACTIVE;
    mkTarget "Stateful" "StatefulProgrammableSwitch" "ProgrammableSwitchOutputState"
      (num 0) (num 1);
    mkTarget "Outlet" "Outlet" "On" (VBool false) (VBool true) ].

End Shapes.
(** ** Handlers that leave something alone *)

Module Frame.

(** The handler [p] keeps what [obs] observes of the state, and each of
    its effects is one that [allowed] admits. *)
Definition keeps {S A} (obs : S -> A) (allowed : Effect -> bool) (p : Proc S)
  : Prop :=
  forall s, obs (fst (p s)) = obs s /\ forallb allowed (snd (p s)) = true.

(** An update of the characteristic [name]. *)
Definition writes (name : string) (e : Effect) : bool :=
  match e with
  | UpdateCharacteristic _ c _ => String.eqb c name
  | _ => false
  end.

(** The one-shot refresh that [Lock.pushChanges] schedules. *)
Definition is_refresh (e : Effect) : bool :=
  match e with IntervalOnce _ => true | _ => false end.

(** The handler [p] maintains the invariant [I] of the state. *)
Definition maintains {S} (I : S -> Prop) (p : Proc S) : Prop :=
  forall s, I s -> I (fst (p s)).

(** An effect that asks the cloud for something. *)
Definition asks_cloud (e : Effect) : bool :=
  match e with
  | GetStatus => true
  | ControlDevice _ _ _ _ => true
  | _ => false
  end.

End Frame.
(** ** The ways a status reaches an accessory *)

Module Inbound.

(** The handlers of the Hub 2 through which a status arrives: the
    periodic refresh, whatever the BLE client and the cloud answer, the
    handler of the platform's BLE events, and the handler of webhooks. *)
Inductive hub (u : Base.Utils) (d : Hub.Device) : Proc Hub.State -> Prop :=
| hub_refresh ble response : hub u d (Hub.refreshStatus u d ble response)
| hub_ble sd : hub u d (Hub.bleEventHandler u d sd)
| hub_webhook w : hub u d (Hub.webhookEventHandler u d w).

(** The same for the Lock. *)
Inductive lock (d : Lock.Device) : Proc Lock.State -> Prop :=
| lock_refresh ble response : lock d (Lock.refreshStatus d ble response)
| lock_ble sd : lock d (Lock.bleEventHandler d sd)
| lock_webhook w : lock d (Lock.webhookEventHandler d w).

(** The ways in which a status of the Lock is parsed and applied: a BLE
    event, a webhook, an advertisement that the refresh has monitored, and
    a poll that the cloud answers with a success code. *)
Inductive lock_parsed (d : Lock.Device) : Proc Lock.State -> Prop :=
| parsed_ble sd : lock_parsed d (Lock.bleEventHandler d sd)
| parsed_webhook w : lock_parsed d (Lock.webhookEventHandler d w)
| parsed_advertisement sd response :
    lock_parsed d (Lock.BLERefreshStatus d (Base.Advertised sd) response)
| parsed_poll ds :
    Base.successfulStatusCodes (statusCode_of ds) = true ->
    lock_parsed d (Lock.openAPIRefreshStatus d (Returns ds)).

(** The low-battery flag of the Lock is the one of its battery level. *)
Definition battery_ok (s : Lock.State) : Prop :=
  exists b, Lock.BatteryLevel s = VNum b
            /\ Lock.StatusLowBattery s = Lock.lowBattery b.

End Inbound.
(** ** The constructors of [Hub] and [Lock], after [super(...)] *)

(** What the constructors read besides the device: the name of the
    accessory, the configuration of the device and of the platform that
    decides what is registered, and the rates that [deviceBase] has set. *)
Module Wiring.

Record t : Type := mk {
  displayName : string;                 (* accessory.displayName *)
  webhook : option bool;                (* this.device.webhook *)
  optionsBLE : option bool;             (* this.config.options?.BLE *)
  formattedDeviceId : Outcome string;   (* formatDeviceIdAsMac(this.device.deviceId) *)
  deviceRefreshRate : Q;                (* this.deviceRefreshRate *)
  devicePushRate : Q;                   (* this.devicePushRate *)
  activate_latchbutton : option bool;   (* (device as lockConfig).activate_latchbutton *)
}.

End Wiring.

(** [this.field = ...], a change of the state with no effect. *)
Definition change {S} (f : S -> S) : Build S := fun s => (f s, []).

(** A piece of a constructor that leaves the state as it is. *)
Definition still {S} (p : Build S) : Prop := forall s, fst (p s) = s.

(** [registerWebhook] and [registerPlatformBLE], which [hub.ts] and
    [lock.ts] both have with this body; the handlers that they install are
    [webhookEventHandler] and [bleEventHandler].  None of the two awaits
    anything, so a call runs them to their end. *)
Definition registerWebhook {S} (deviceId : string) (w : Wiring.t) : Build S :=
  if truthy_bool (Wiring.webhook w) then
    inOrder [ did (emit (Log debugLog "is listening webhook."));
              note (WebhookHandler deviceId) ]
  else did (emit (Log debugLog "is not listening webhook.")).

Definition registerPlatformBLE {S} (w : Wiring.t) : Build S :=
  andThen (did (emit (Log debugLog "registerPlatformBLE")))
    (if truthy_bool (Wiring.optionsBLE w) then
       andThen (did (emit (Log debugLog "is listening to Platform BLE.")))
         (match Wiring.formattedDeviceId w with
          | Returns bleMac =>
              inOrder [ did (emit (Log debugLog ("bleMac: " +:+ bleMac)));
                        note (BLEHandler bleMac) ]
          | Throws error =>
              did (emit (Log errorLog
                           ("failed to format device ID as MAC, Error: " +:+ error)))
          end)
     else did (emit (Log debugLog "is not listening to Platform BLE"))).

(** The end of both constructors: the first refresh, started and not
    awaited, the two registrations, the refresh interval. *)
Definition startUp {S} (deviceId : string) (w : Wiring.t) : list (Build S) :=
  [ did (emit (Log debugLog "Retrieve initial values and update Homekit"));
    note (Started "refreshStatus");
    did (emit (Log debugLog "Registering Webhook Event Handler"));
    registerWebhook deviceId w;
    did (emit (Log debugLog "Registering Platform BLE Event Handler"));
    registerPlatformBLE w;
    note (Interval (Wiring.deviceRefreshRate w * 1000)%Q) ].

Module HubSetup.
Import Hub.

(** The optional fields of an object that is being constructed: the
    class declares them without an initializer. *)
Definition unset (s : State) : Prop :=
  TemperatureSensor s = None /\ HumiditySensor s = None /\ LightSensor s = None.

(** One of the three blocks [// Initialize X Sensor Service].  The
    service and the field have the same name.  The entry
    [accessory.context[field]], which holds the object of the field, is
    written through [ContextDefault] and [ContextStore]; the map [context]
    of the state holds the entries of the characteristics. *)
Definition sensor (hide : option bool) (get : State -> option Value)
    (set : Value -> State -> State)
    (field characteristic removing name : string) (initial : Value)
    (props : Props) : Build State :=
  if truthy_bool hide then
    fun s =>
      if present (get s) then
        inOrder [ did (emit (Log debugLog removing));
                  note (GetService field);
                  note (RemoveService field) ] s
      else (s, [])
  else
    inOrder [ note (ContextDefault field);
              note (GetOrAddService field);
              change (fun s => set (orElse (context s !! characteristic) initial) s);
              note (ContextStore field);
              did (emit (UpdateCharacteristic field "Name" (VStr name)));
              note (SetProps field characteristic props);
              note (OnGet field characteristic) ].

(** [{ unit: Units.CELSIUS, validValueRanges: [-273.15, 100],
       minValue: -273.15, maxValue: 100, minStep: 0.1 }] *)
Definition temperatureProps : Props :=
  {| unit_ := Some "CELSIUS"; validValues := [];
     validValueRanges := [(-27315 # 100); 100]%Q;
     minValue := Some (-27315 # 100)%Q; maxValue := Some 100%Q;
     minStep := Some (1 # 10)%Q |}.

(** [{ minStep: s }] *)
Definition stepProps (s : Q) : Props :=
  {| unit_ := None; validValues := []; validValueRanges := [];
     minValue := None; maxValue := None; minStep := Some s |}.

(** The constructor.  [doHubUpdate] and [hubUpdateInProgress], which it
    sets first, are not kept: the Hub 2 pushes nothing, and only the
    [skipWhile] of the interval reads the flag. *)
Definition constructor (d : Device) (w : Wiring.t) : Build State :=
  inOrder
    ([ note (SetCategory "SENSOR");
       sensor (hide_temperature d) TemperatureSensor set_temperature
         "TemperatureSensor" "CurrentTemperature"
         "Removing Temperature Sensor Service"
         (Wiring.displayName w +:+ " Temperature Sensor") (VNum 0)
         temperatureProps;
       sensor (hide_humidity d) HumiditySensor set_humidity
         "HumiditySensor" "CurrentRelativeHumidity"
         "Removing Humidity Sensor Service"
         (Wiring.displayName w +:+ " Humidity Sensor") (VNum 0)
         (stepProps (1 # 10));
       sensor (hide_lightsensor d) LightSensor set_light
         "LightSensor" "CurrentAmbientLightLevel"
         "Removing Light Sensor Service"
         (Wiring.displayName w +:+ " Light Sensor") (VNum (1 # 10000))
         (stepProps 1) ]
     ++ startUp (deviceId d) w).

(** The sensors that HomeKit is shown. *)
Definition sensors (s : State) : option Value * option Value * option Value :=
  (TemperatureSensor s, HumiditySensor s, LightSensor s).

(** The sensors are what the constructor makes of the saved context. *)
Definition restored (d : Device) (s : State) : Prop :=
  TemperatureSensor s
  = (if truthy_bool (hide_temperature d) then None
     else Some (orElse (context s !! "CurrentTemperature") (VNum 0)))
  /\ HumiditySensor s
     = (if truthy_bool (hide_humidity d) then None
        else Some (orElse (context s !! "CurrentRelativeHumidity") (VNum 0)))
  /\ LightSensor s
     = (if truthy_bool (hide_lightsensor d) then None
        else Some (orElse (context s !! "CurrentAmbientLightLevel")
                     (VNum (1 # 10000)))).

End HubSetup.

Module LockSetup.
Import Lock.

(** The optional fields of an object that is being constructed. *)
Definition unset (s : State) : Prop :=
  ContactSensor s = None /\ Switch s = None.

(** [this.hap.Characteristic.ChargingState.NOT_CHARGEABLE] *)
Definition ChargingState_NOT_CHARGEABLE : Value := num 2.

(** A block that removes the service of a field when the field is set,
    as in [HubSetup.sensor]. *)
Definition removing (get : State -> option Value) (service log : string)
  : Build State :=
  fun s =>
    if present (get s) then
      inOrder [ did (emit (Log debugLog log));
                note (GetService service);
                note (RemoveService service) ] s
    else (s, []).

(** [(device as lockConfig).activate_latchbutton === false] *)
Definition latchOff (w : Wiring.t) : bool :=
  match Wiring.activate_latchbutton w with
  | Some false => true
  | _ => false
  end.

Definition constructor (d : Device) (w : Wiring.t) : Build State :=
  let name := Wiring.displayName w in
  inOrder
    ([ note (SetCategory "DOOR_LOCK");
       change (set_lockUpdateInProgress false);
       (* LockMechanism *)
       note (ContextDefault "LockMechanism");
       note (GetOrAddService "LockMechanism");
       change (fun s =>
                 set_LockCurrentState
                   (orElse (context s !! "LockCurrentState") HAP.LockCurrentState_SECURED)
                   (set_LockTargetState
                      (orElse (context s !! "LockTargetState") HAP.LockTargetState_SECURED)
                      s));
       note (ContextStore "LockMechanism");
       did (emit (UpdateCharacteristic "LockMechanism" "Name" (VStr name)));
       note (OnGet "LockMechanism" "LockTargetState");
       note (OnSetBound "LockMechanism" "LockTargetState" "LockTargetStateSet");
       (* Battery *)
       note (ContextDefault "Battery");
       note (GetOrAddService "Battery");
       change (fun s =>
                 set_StatusLowBattery
                   (orElse (context s !! "StatusLowBattery")
                      HAP.StatusLowBattery_BATTERY_LEVEL_NORMAL)
                   (set_BatteryLevel
                      (orElse (context s !! "BatteryLevel") (num 100)) s));
       note (ContextStore "Battery");
       did (emit (UpdateCharacteristic "Battery" "Name" (VStr (name +:+ " Battery"))));
       did (emit (UpdateCharacteristic "Battery" "ChargingState"
                    ChargingState_NOT_CHARGEABLE));
       note (OnGet "Battery" "BatteryLevel");
       note (OnGet "Battery" "StatusLowBattery");
       (* ContactSensor *)
       (if truthy_bool (hide_contactsensor d) then
          removing ContactSensor "ContactSensor" "Removing Contact Sensor Service"
        else
          inOrder
            [ note (ContextDefault "ContactSensor");
              note (GetOrAddService "ContactSensor");
              change (fun s =>
                        set_ContactSensorState
                          (orElse (context s !! "ContactSensorState")
                             HAP.ContactSensorState_CONTACT_DETECTED) s);
              note (ContextStore "ContactSensor");
              did (emit (UpdateCharacteristic "ContactSensor" "Name"
                           (VStr (name +:+ " Contact Sensor"))));
              did (emit (UpdateCharacteristic "ContactSensor" "StatusActive"
                           (VBool true)));
              note (OnGet "ContactSensor" "ContactSensorState") ]);
       (* Switch, the latch button *)
       (if latchOff w then
          removing Switch "Switch" "Removing Latch Button Service"
        else
          inOrder
            [ note (ContextDefault "Switch");
              note (GetOrAddService "Switch");
              change (fun s =>
                        set_SwitchOn (orElse (context s !! "On") (VBool false)) s);
              note (ContextStore "Switch");
              did (emit (UpdateCharacteristic "Switch" "Name"
                           (VStr (name +:+ " Latch"))));
              note (OnGet "Switch" "On");
              note (OnSetBound "Switch" "On" "OnSet") ]) ]
     ++ startUp (deviceId d) w
     ++ [ note (Debounced (Wiring.devicePushRate w * 1000)%Q) ]).

(** What HomeKit is shown of the lock, and the flag of the debounce. *)
Definition shown (s : State)
  : Value * Value * option Value * Value * Value * option Value * bool :=
  (LockTargetState s, LockCurrentState s, ContactSensor s, BatteryLevel s,
   StatusLowBattery s, Switch s, lockUpdateInProgress s).

(** The fields are what the constructor makes of the saved context. *)
Definition restored (d : Device) (w : Wiring.t) (s : State) : Prop :=
  LockTargetState s
  = orElse (context s !! "LockTargetState") HAP.LockTargetState_SECURED
  /\ LockCurrentState s
     = orElse (context s !! "LockCurrentState") HAP.LockCurrentState_SECURED
  /\ ContactSensor s
     = (if truthy_bool (hide_contactsensor d) then None
        else Some (orElse (context s !! "ContactSensorState")
                     HAP.ContactSensorState_CONTACT_DETECTED))
  /\ BatteryLevel s = orElse (context s !! "BatteryLevel") (num 100)
  /\ StatusLowBattery s
     = orElse (context s !! "StatusLowBattery")
         HAP.StatusLowBattery_BATTERY_LEVEL_NORMAL
  /\ Switch s
     = (if latchOff w then None
        else Some (orElse (context s !! "On") (VBool false)))
  /\ lockUpdateInProgress s = false.

End LockSetup.

(** ** What a restart finds *)

(** The states of an accessory between two restarts of Homebridge: the
    constructor builds the first one, and status reports follow. *)
Module Reached.

Inductive hub (u : Base.Utils) (d : Hub.Device) (w : Wiring.t)
  : Hub.State -> Prop :=
| hub_built s0 :
    HubSetup.unset s0 -> hub u d w (fst (HubSetup.constructor d w s0))
| hub_reported s p :
    hub u d w s -> Inbound.hub u d p -> hub u d w (fst (p s)).

Inductive lock (d : Lock.Device) (w : Wiring.t) : Lock.State -> Prop :=
| lock_built s0 :
    LockSetup.unset s0 -> lock d w (fst (LockSetup.constructor d w s0))
| lock_reported s p :
    lock d w s -> Inbound.lock d p -> lock d w (fst (p s)).

End Reached.

(** ** Calls of [LockTargetStateSet] at any distance *)

Module Windows.
Import Lock Debounce.

(** The calls that close a debounce window: no call follows them before
    [rate] has passed. *)
Fixpoint closing (rate : Z) (calls : list (Z * Value)) : list (Z * Value) :=
  match calls with
  | [] => []
  | (t, v) :: rest =>
      match rest with
      | [] => [(t, v)]
      | (t', _) :: _ =>
          if t + rate <=? t' then (t, v) :: closing rate rest
          else closing rate rest
      end
  end.

(** When a handler ran, and the value it was given or found. *)
Definition stamp (r : Ran * bool) : Z * Value :=
  match fst r with
  | RanSet t v _ => (t, v)
  | RanPush t v _ => (t, v)
  end.

(** The push that a closing call leads to. *)
Definition pushed (rate : Z) (c : Z * Value) : Z * Value :=
  (fst c + rate, snd c).

End Windows.

(** ** More sample values *)

Module SetupSamples.

Definition wiring : Wiring.t :=
  {| Wiring.displayName := "Hall";
     Wiring.webhook := Some true;
     Wiring.optionsBLE := Some true;
     Wiring.formattedDeviceId := Returns "C0:FF:EE:00:00:0A";
     Wiring.deviceRefreshRate := 300;
     Wiring.devicePushRate := (1 # 10);
     Wiring.activate_latchbutton := None |}.

(** A Hub 2 whose humidity sensor the configuration hides. *)
Definition dryHub : Hub.Device :=
  {| Hub.deviceId := "C0FFEE00000A"; Hub.connectionType := Some "OpenAPI";
     Hub.enableCloudService := Some true; Hub.BLE := false; Hub.OpenAPI := true;
     Hub.token := Some "token"; Hub.offline := None;
     Hub.hide_temperature := None; Hub.hide_humidity := Some true;
     Hub.hide_lightsensor := None; Hub.set_minLux := None;
     Hub.set_maxLux := None; Hub.convertUnitTo := None |}.

(** A Hub 2 and a Lock that are being constructed, with a saved context. *)
Definition newHub (ctx : gmap string Value) : Hub.State :=
  {| Hub.TemperatureSensor := None; Hub.HumiditySensor := None;
     Hub.LightSensor := None; Hub.context := ctx |}.

Definition newLock (ctx : gmap string Value) : Lock.State :=
  {| Lock.LockTargetState := VStr "undefined";
     Lock.LockCurrentState := VStr "undefined";
     Lock.ContactSensor := None;
     Lock.BatteryLevel := VStr "undefined";
     Lock.StatusLowBattery := VStr "undefined";
     Lock.Switch := None;
     Lock.context := ctx;
     Lock.lockUpdateInProgress := false |}.

Definition heardHub : Hub.hub2ServiceData :=
  {| Hub.model := SwitchBotBLEModel.Hub2;
     Hub.modelName := SwitchBotBLEModelName.Hub2;
     Hub.celsius := 22; Hub.sd_humidity := 45; Hub.sd_lightLevel := 10 |}.

Definition heardLock : Lock.lockServiceData :=
  {| Lock.model := SwitchBotBLEModel.Lock;
     Lock.modelName := SwitchBotBLEModelName.Lock;
     Lock.status := "unlocked"; Lock.door_open := true;
     Lock.battery := Some 7%Q |}.

(** The two after the construction from nothing saved and one BLE event. *)
Definition reportedHub : Hub.State :=
  fst (Hub.bleEventHandler Samples.utils dryHub heardHub
         (fst (HubSetup.constructor dryHub wiring (newHub ∅)))).

Definition reportedLock : Lock.State :=
  fst (Lock.bleEventHandler Samples.bleLock heardLock
         (fst (LockSetup.constructor Samples.bleLock wiring (newLock ∅)))).

End SetupSamples.

(** * Properties *)

Module IRFacts.
Import IR Samples.

Lemma ownHub_spec (d : Device) :
  ownHub d = true <->
  hubDeviceId d = Some (deviceId d) \/ hubDeviceId d = Some "000000000000".
Proof.
  unfold ownHub. destruct (hubDeviceId d) as [h|].
  - rewrite orb_true_iff, !String.eqb_eq. split.
    + intros [->| ->]; auto.
    + intros [H|H]; injection H; auto.
  - split; [discriminate | intros [H|H]; discriminate].
Qed.

Lemma lookup_unknown (d : Device) (c : Z) :
  c <> 100 -> c <> 200 -> ~ In c knownNonSuccess ->
  lookupCode (statusMessages d) c = None.
Proof.
  intros H1 H2 H3. unfold statusMessages, lookupCode.
  repeat match goal with
  | |- context [?k =? c] =>
      destruct (Z.eqb_spec k c) as [?|?];
      [exfalso; subst c; first [now apply H1 | now apply H2 | apply H3; cbv [knownNonSuccess In]; lia] |]
  end.
  reflexivity.
Qed.

Lemma lookup_known (d : Device) (c : Z) :
  In c (100 :: 200 :: knownNonSuccess) ->
  exists m, lookupCode (statusMessages d) c = Some m /\
            truthy_str (Some m) = true.
Proof.
  intros H. simpl in H.
  repeat (destruct H as [<-|H]; [eexists; split; reflexivity |]).
  contradiction.
Qed.

(** C5. [statusCode]: 171 is first rewritten to 161 when the device's
    [hubDeviceId] is its own [deviceId] or ['000000000000']; then 100 and
    200 are logged with [debugLog] only; each code of the known
    non-success set is logged with [errorLog] and its message of the
    table; every other code is logged with [infoLog] as an unknown status
    code, and not as an error. *)
Theorem statusCode_classification (d : Device) (code : Z) :
  let c := rewriteCode d code in
  let own := hubDeviceId d = Some (deviceId d)
             \/ hubDeviceId d = Some "000000000000" in
  (code = 171 /\ own -> c = 161) /\
  (~ (code = 171 /\ own) -> c = code) /\
  (c = 100 ->
     statusCode d code = [Log debugLog "Command successfully sent, statusCode: 100"]) /\
  (c = 200 ->
     statusCode d code = [Log debugLog "Request successful, statusCode: 200"]) /\
  (In c knownNonSuccess ->
     exists m note,
       lookupCode (statusMessages d) c = Some m /\
       statusCode d code
         = note ++ [Log errorLog (m +:+ ", statusCode: " +:+ show_Z c)] /\
       (c = code -> note = []) /\
       Forall (fun e => exists msg, e = Log debugErrorLog msg) note) /\
  (c <> 100 -> c <> 200 -> ~ In c knownNonSuccess ->
     statusCode d code
       = [Log infoLog (("Unknown statusCode: " +:+ show_Z c
                        +:+ ", Submit Bugs Here: https://tinyurl.com/SwitchBotBug")
                       +:+ ", statusCode: " +:+ show_Z c)]).
Proof.
  intros c own.
  assert (Hrw : (code =? 171) && ownHub d = true <-> code = 171 /\ own).
  { rewrite andb_true_iff, Z.eqb_eq, ownHub_spec. reflexivity. }
  assert (Hc : c = rewriteCode d code) by reflexivity.
  clearbody c. unfold statusCode. rewrite <- Hc. unfold rewriteCode in Hc.
  destruct ((code =? 171) && ownHub d) eqn:E.
  - (* rewritten *)
    clear E. pose proof (proj1 Hrw eq_refl) as E. subst c.
    repeat split; try discriminate; try (intros; exfalso; tauto).
    + intros _. do 2 eexists.
      split; [reflexivity |]. split; [reflexivity |]. split.
      * intros H. destruct E as [E _]. rewrite E in H. discriminate H.
      * repeat constructor. eexists. reflexivity.
    + intros _ _ H. exfalso. apply H. cbv [knownNonSuccess In]. lia.
  - (* not rewritten *)
    assert (Hn : ~ (code = 171 /\ own)).
    { intros H. apply Hrw in H. discriminate H. }
    subst c. repeat split.
    + intros H. exfalso. tauto.
    + intros ->. reflexivity.
    + intros ->. reflexivity.
    + intros H.
      destruct (lookup_known d code) as (m & Hm & Ht).
      { right. right. exact H. }
      exists m, [].
      split; [exact Hm |]. split; [| split; [reflexivity | constructor]].
      unfold logMethod, logMessage. rewrite Hm, Ht.
      assert (code <> 100 /\ code <> 200) as [H1 H2].
      { cbv [knownNonSuccess In] in H. lia. }
      apply Z.eqb_neq in H1, H2. rewrite H1, H2. reflexivity.
    + intros H1 H2 H3. unfold logMethod, logMessage.
      rewrite (lookup_unknown d code H1 H2 H3).
      apply Z.eqb_neq in H1, H2. rewrite H1, H2. reflexivity.
Qed.

Lemma statusCode_classification_witness :
  rewriteCode selfHub 171 = 161 /\
  exists note,
    statusCode selfHub 171
      = note ++ [Log errorLog "Device is offline, statusCode: 161"].
Proof.
  pose proof (statusCode_classification selfHub 171) as (Hrw & _ & _ & _ & Herr & _).
  split.
  - apply Hrw. split; [reflexivity | left; reflexivity].
  - destruct Herr as (m & note & Hm & Hs & _).
    + vm_compute. tauto.
    + exists note. vm_compute in Hm. injection Hm as <-. exact Hs.
Defined.

Example statusCode_171_own_hub :
  statusCode selfHub 171
  = [Log debugErrorLog "statusCode 171 changed to 161: hubDeviceId C0FFEE000001 matches deviceId C0FFEE000001, device is its own hub.";
     Log errorLog "Device is offline, statusCode: 161"].
Proof. reflexivity. Qed.

Example statusCode_unknown :
  statusCode selfHub 418
  = [Log infoLog "Unknown statusCode: 418, Submit Bugs Here: https://tinyurl.com/SwitchBotBug, statusCode: 418"].
Proof. reflexivity. Qed.

(** C10. [Others.pushOnChanges] and [pushOffChanges] send a command to
    the cloud API only when [customize] is set: without it nothing is
    sent, not even [turnOn] or [turnOff], and an error is logged; with it
    the push is still suppressed when [disablePushOn] or
    [disablePushOff] is set. *)
Theorem others_push_needs_customize
    (d : Device) (response : Outcome (ApiBody unit))
    (On : option bool) (s : State) :
  (truthy_bool (customize d) = false ->
     pushOnChanges d response On s
       = (s, [Log debugLog "pushOnChanges On: ${On}, disablePushOn: ${this.deviceDisablePushOn}, customize: ${this.device.customize}, customOn: ${this.device.customOn}";
              Log errorLog "On Command not set"]) /\
     pushOffChanges d response On s
       = (s, [Log debugLog "pushOffChanges On: ${On}, disablePushOff: ${this.deviceDisablePushOff}, customize: ${this.device.customize}, customOff: ${this.device.customOff}";
              Log errorLog "Off Command not set."])) /\
  (deviceDisablePushOn d = true ->
     commands (snd (pushOnChanges d response On s)) = []) /\
  (deviceDisablePushOff d = true ->
     commands (snd (pushOffChanges d response On s)) = []) /\
  (commands (snd (pushOnChanges d response On s)) <> [] ->
     customize d = Some true /\ deviceDisablePushOn d = false) /\
  (commands (snd (pushOffChanges d response On s)) <> [] ->
     customize d = Some true /\ deviceDisablePushOff d = false).
Proof.
  assert (Hc : truthy_bool (customize d) = true -> customize d = Some true).
  { destruct (customize d) as [[|]|]; simpl; congruence. }
  unfold pushOnChanges, pushOffChanges, seq, emit, skip.
  split; [| split; [| split; [| split]]].
  - intros ->. split; reflexivity.
  - intros ->. rewrite andb_false_r.
    destruct (truthy_bool (customize d)); reflexivity.
  - intros ->. rewrite andb_false_r.
    destruct (truthy_bool (customize d)); reflexivity.
  - intros H. destruct (truthy_bool (customize d)); [| now elim H].
    split; [auto |].
    destruct (deviceDisablePushOn d); [| reflexivity].
    rewrite andb_false_r in H. now elim H.
  - intros H. destruct (truthy_bool (customize d)); [| now elim H].
    split; [auto |].
    destruct (deviceDisablePushOff d); [| reflexivity].
    rewrite andb_false_r in H. now elim H.
Qed.

Lemma others_push_needs_customize_witness :
  commands (snd (pushOnChanges plainRemote (Returns (mkApiBody 100 tt)) (Some true) fresh)) = []
  /\ customize customRemote = Some true.
Proof.
  pose proof (others_push_needs_customize plainRemote (Returns (mkApiBody 100 tt))
                (Some true) fresh) as (Hoff & _).
  pose proof (others_push_needs_customize customRemote (Returns (mkApiBody 100 tt))
                (Some true) fresh) as (_ & _ & _ & Hon & _).
  split.
  - destruct Hoff as [-> _]; reflexivity.
  - apply Hon. vm_compute. discriminate.
Defined.

Example custom_push_on :
  commands (snd (pushOnChanges customRemote (Returns (mkApiBody 100 tt)) (Some true) fresh))
  = [ControlDevice "C0FFEE000003" "power" "default" "customize"].
Proof. reflexivity. Qed.

Example plain_push_off :
  snd (pushOffChanges plainRemote (Returns (mkApiBody 100 tt)) (Some false) fresh)
  = [Log debugLog "pushOffChanges On: ${On}, disablePushOff: ${this.deviceDisablePushOff}, customize: ${this.device.customize}, customOff: ${this.device.customOff}";
     Log errorLog "Off Command not set."].
Proof. reflexivity. Qed.

End IRFacts.

Module VersionFacts.
Import Version.

Lemma replaceSuffix_beforeDash (s : string) :
  hasLineTerminator s = false -> replaceSuffix s = beforeDash s.
Proof.
  induction s as [|c r IH]; simpl; [reflexivity |].
  intros H. apply orb_false_iff in H as [_ Hr].
  rewrite Hr. simpl. rewrite andb_true_r.
  destruct (Ascii.eqb c "-"); [reflexivity |]. now rewrite IH.
Qed.

Lemma replaceV_strip_spec (s : string) :
  hasLineTerminator s = false -> replaceV s = strip_spec s.
Proof.
  intros H. unfold replaceV, strip_spec, dropLeadingV.
  destruct s as [|c r]; [reflexivity |].
  assert (Hr : hasLineTerminator r = false).
  { simpl in H. now apply orb_false_iff in H as [_ Hr]. }
  destruct (Ascii.eqb_spec c "V") as [->|Hc].
  - now apply replaceSuffix_beforeDash.
  - rewrite (replaceSuffix_beforeDash _ H).
    destruct c as [[] [] [] [] [] [] [] []]; try reflexivity.
    now elim Hc.
Qed.







End VersionFacts.

Module ProcFacts.

Lemma seq_emit {S} (e : Effect) (p : Proc S) (s : S) :
  seq (emit e) p s = (fst (p s), e :: snd (p s)).
Proof. unfold seq, emit. destruct (p s). reflexivity. Qed.

Lemma seq_run {S} (p q : Proc S) (s : S) :
  seq p q s = (fst (q (fst (p s))), snd (p s) ++ snd (q (fst (p s)))).
Proof. unfold seq. destruct (p s) as [s1 e1]. simpl. now destruct (q s1). Qed.

(** Runs a handler whose combinators are unfolded: reduce, and split on
    whatever a [match] or an [if] of the goal looks at. *)
Ltac run_proc :=
  repeat (cbv beta iota zeta;
          try match goal with
              | |- context [match ?x with _ => _ end] =>
                  lazymatch type of x with
                  | bool => destruct x
                  | option _ => destruct x
                  end
              end).

Lemma seq_fst {S} (p q : Proc S) (s : S) :
  fst (seq p q s) = fst (q (fst (p s))).
Proof. now rewrite seq_run. Qed.

Lemma seq_snd {S} (p q : Proc S) (s : S) :
  snd (seq p q s) = snd (p s) ++ snd (q (fst (p s))).
Proof. now rewrite seq_run. Qed.

Lemma seq_emit_snd {S} (e : Effect) (p : Proc S) (s : S) :
  snd (seq (emit e) p s) = e :: snd (p s).
Proof. now rewrite seq_emit. Qed.

(** Unfolds the combinators and the accessors of a handler. *)
Ltac hub_unfold :=
  cbv beta iota zeta delta
      [seq reading emit skip modify when fst snd app negb andb orb present
       Hub.shown
       Hub.set_humidity Hub.set_temperature Hub.set_light Hub.set_context
       Hub.HumiditySensor Hub.TemperatureSensor Hub.LightSensor Hub.context
       Base.updateCharacteristic].

Ltac lock_unfold :=
  cbv beta iota zeta delta
      [seq reading emit skip modify when fst snd app negb andb orb present
       Lock.contactShown
       Lock.set_LockTargetState Lock.set_LockCurrentState
       Lock.set_ContactSensorState Lock.set_BatteryLevel
       Lock.set_StatusLowBattery Lock.set_SwitchOn Lock.set_context
       Lock.set_lockUpdateInProgress
       Lock.LockTargetState Lock.LockCurrentState Lock.ContactSensor
       Lock.BatteryLevel Lock.StatusLowBattery Lock.Switch Lock.context
       Lock.lockUpdateInProgress Base.updateCharacteristic].

Ltac ctx_lookup :=
  repeat first [rewrite lookup_insert_eq | rewrite lookup_insert_ne by discriminate];
  try reflexivity.

End ProcFacts.

Module RefreshFacts.
Import ProcFacts.

(** C2, as stated, fails in the fourth branch: a lock marked offline is
    shown as secured, whatever its cached context, and a Hub 2 that is not
    marked offline is left as it is shown, nothing being re-applied. *)
Lemma refreshStatus_offline_counterexample :
  let r := Lock.refreshStatus Samples.offlineLock Base.NoBLE (Throws "unused")
             Samples.unlocked in
  let h := Hub.refreshStatus Samples.utils Samples.strandedHub Base.NoBLE
             (Throws "unused") Samples.hubState in
  transports (snd r) = []
  /\ Lock.context Samples.unlocked !! "LockTargetState"
     = Some HAP.LockTargetState_UNSECURED
  /\ shows "LockTargetState" (snd r) = Some HAP.LockTargetState_SECURED
  /\ shows "LockTargetState" (snd r)
     <> Lock.context Samples.unlocked !! "LockTargetState"
  /\ transports (snd h) = []
  /\ Hub.context Samples.hubState !! "CurrentRelativeHumidity" = Some (num 40)
  /\ written "CurrentRelativeHumidity" (snd h) = [].
Proof.
  repeat split; try reflexivity. vm_compute. discriminate.
Qed.

Lemma hub_offlineOff (d : Hub.Device) (s : Hub.State) :
  Hub.offlineOff d s = (s, Hub.hubOffline d s).
Proof.
  unfold Hub.offlineOff, Hub.hubOffline, when, cached.
  destruct (truthy_bool (Hub.offline d)); [| reflexivity].
  unfold seq, reading, emit, skip. run_proc. all: reflexivity.
Qed.

Lemma lock_offlineOff (d : Lock.Device) (s : Lock.State) :
  Lock.offlineOff d s = (s, Lock.lockOffline d s).
Proof.
  unfold Lock.offlineOff, Lock.lockOffline, when.
  destruct (truthy_bool (Lock.offline d)); [| reflexivity].
  unfold seq, reading, emit, skip. run_proc. all: reflexivity.
Qed.

(** C2, amended.  [refreshStatus], of the Hub 2 and of the Lock, takes
    exactly one of four branches, in this precedence: the cloud is needed
    ([this.OpenAPI]) and [enableCloudService] is off, and an error is
    logged without touching a transport; else BLE is configured, and the
    BLE refresh runs; else the cloud is configured and a token exists, and
    the cloud poll runs; else [offlineOff] runs and "refreshStatus will not
    happen" is logged with [debugWarnLog], no transport being touched.
    [offlineOff] writes to HomeKit only for a device marked offline: the
    Hub 2 its cached context, for the sensors it shows, the Lock the secured
    and contact-detected constants. *)
Theorem refreshStatus_precedence :
  (forall u d ble r s,
     let disabled := negb (truthy_bool (Hub.enableCloudService d)) && Hub.OpenAPI d in
     let cloud := Hub.OpenAPI d && truthy_str (Hub.token d) in
     (disabled = true ->
        Hub.refreshStatus u d ble r s
        = (s, [Log errorLog "refreshStatus enableCloudService: ${this.device.enableCloudService}"])) /\
     (disabled = false -> Hub.BLE d = true ->
        Hub.refreshStatus u d ble r s = Hub.BLERefreshStatus u d ble r s /\
        exists rest, snd (Hub.refreshStatus u d ble r s)
                     = Log debugLog "BLERefreshStatus" :: SwitchbotBLE :: rest) /\
     (disabled = false -> Hub.BLE d = false -> cloud = true ->
        Hub.refreshStatus u d ble r s = Hub.openAPIRefreshStatus u d r s /\
        exists rest, snd (Hub.refreshStatus u d ble r s)
                     = Log debugLog "openAPIRefreshStatus" :: GetStatus :: rest) /\
     (disabled = false -> Hub.BLE d = false -> cloud = false ->
        Hub.refreshStatus u d ble r s
        = (s, Hub.hubOffline d s
              ++ [Log debugWarnLog ("Connection Type: " +:+ show_opt (Hub.connectionType d)
                                    +:+ ", refreshStatus will not happen.")]) /\
        transports (snd (Hub.refreshStatus u d ble r s)) = []))
  /\
  (forall d ble r s,
     let disabled := negb (truthy_bool (Lock.enableCloudService d)) && Lock.OpenAPI d in
     let cloud := Lock.OpenAPI d && truthy_str (Lock.token d) in
     (disabled = true ->
        Lock.refreshStatus d ble r s
        = (s, [Log errorLog "refreshStatus enableCloudService: ${this.device.enableCloudService}"])) /\
     (disabled = false -> Lock.BLE d = true ->
        Lock.refreshStatus d ble r s = Lock.BLERefreshStatus d ble r s /\
        exists rest, snd (Lock.refreshStatus d ble r s)
                     = Log debugLog "BLERefreshStatus" :: SwitchbotBLE :: rest) /\
     (disabled = false -> Lock.BLE d = false -> cloud = true ->
        Lock.refreshStatus d ble r s = Lock.openAPIRefreshStatus d r s /\
        exists rest, snd (Lock.refreshStatus d ble r s)
                     = Log debugLog "openAPIRefreshStatus" :: GetStatus :: rest) /\
     (disabled = false -> Lock.BLE d = false -> cloud = false ->
        Lock.refreshStatus d ble r s
        = (s, Lock.lockOffline d s
              ++ [Log debugWarnLog ("Connection Type: " +:+ show_opt (Lock.connectionType d)
                                    +:+ ", refreshStatus will not happen.")]) /\
        transports (snd (Lock.refreshStatus d ble r s)) = [])).
Proof.
  split.
  - intros u d ble r s disabled cloud. unfold Hub.refreshStatus.
    fold disabled. fold cloud.
    split; [intros ->; reflexivity |].
    split; [intros -> ->; split; [reflexivity |] |].
    { unfold Hub.BLERefreshStatus. rewrite !seq_emit. simpl. eauto. }
    split; [intros -> -> ->; split; [reflexivity |] |].
    { unfold Hub.openAPIRefreshStatus. rewrite !seq_emit. simpl. eauto. }
    intros -> -> ->.
    rewrite seq_run, hub_offlineOff. simpl. split; [reflexivity |].
    unfold transports. rewrite List.filter_app. simpl. rewrite app_nil_r.
    unfold Hub.hubOffline, cached.
    destruct (truthy_bool (Hub.offline d)); [| reflexivity].
    destruct (Hub.shown (Hub.hide_temperature d) (Hub.TemperatureSensor s));
      destruct (Hub.shown (Hub.hide_humidity d) (Hub.HumiditySensor s));
      destruct (Hub.shown (Hub.hide_lightsensor d) (Hub.LightSensor s));
      destruct (Hub.context s !! "CurrentTemperature");
      destruct (Hub.context s !! "CurrentRelativeHumidity");
      destruct (Hub.context s !! "CurrentAmbientLightLevel");
      reflexivity.
  - intros d ble r s disabled cloud. unfold Lock.refreshStatus.
    fold disabled. fold cloud.
    split; [intros ->; reflexivity |].
    split; [intros -> ->; split; [reflexivity |] |].
    { unfold Lock.BLERefreshStatus. rewrite !seq_emit. simpl. eauto. }
    split; [intros -> -> ->; split; [reflexivity |] |].
    { unfold Lock.openAPIRefreshStatus. rewrite !seq_emit. simpl. eauto. }
    intros -> -> ->.
    rewrite seq_run, lock_offlineOff. simpl. split; [reflexivity |].
    unfold transports. rewrite List.filter_app. simpl. rewrite app_nil_r.
    unfold Lock.lockOffline.
    destruct (truthy_bool (Lock.offline d)); [| reflexivity].
    destruct (Lock.contactShown d s); reflexivity.
Qed.

Lemma refreshStatus_precedence_witness :
  Hub.refreshStatus Samples.utils Samples.cloudHub Base.NoBLE (Throws "timeout")
    Samples.hubState
  = Hub.openAPIRefreshStatus Samples.utils Samples.cloudHub (Throws "timeout")
      Samples.hubState
  /\ transports (snd (Lock.refreshStatus Samples.offlineLock Base.NoBLE
                        (Throws "timeout") Samples.unlocked)) = []
  /\ Lock.refreshStatus Samples.bleLock Base.NoBLE (Throws "timeout") Samples.unlocked
     = Lock.BLERefreshStatus Samples.bleLock Base.NoBLE (Throws "timeout")
         Samples.unlocked.
Proof.
  destruct refreshStatus_precedence as [Hh Hl].
  pose proof (Hh Samples.utils Samples.cloudHub Base.NoBLE (Throws "timeout")
                Samples.hubState) as (_ & _ & H3 & _).
  pose proof (Hl Samples.offlineLock Base.NoBLE (Throws "timeout") Samples.unlocked)
    as (_ & _ & _ & H4).
  pose proof (Hl Samples.bleLock Base.NoBLE (Throws "timeout") Samples.unlocked)
    as (_ & H2 & _).
  split; [apply H3; reflexivity |].
  split; [apply H4; reflexivity |].
  apply H2; reflexivity.
Defined.

End RefreshFacts.

Module StatusFacts.
Import ProcFacts Base.

Lemma lock_modelMatches_always (sd : Lock.lockServiceData) :
  Lock.modelMatches sd = true.
Proof.
  unfold Lock.modelMatches, Lock.eq_or. now rewrite !orb_true_r.
Qed.

Lemma hub_modelMatches_spec (sd : Hub.hub2ServiceData) :
  Hub.modelMatches sd = true <->
  Hub.model sd = SwitchBotBLEModel.Hub2 /\ Hub.modelName sd = SwitchBotBLEModelName.Hub2.
Proof.
  unfold Hub.modelMatches. now rewrite andb_true_iff, !String.eqb_eq.
Qed.

(** The Hub 2 does what C4 states: an advertisement of another model is
    not parsed, the state is kept, the failure is logged as an error, and
    the cloud is polled exactly when a token exists and the connection type
    is ['BLE/OpenAPI']. *)
Lemma hub_rejects_foreign_advertisement
    (u : Utils) (d : Hub.Device) (sd : Hub.hub2ServiceData)
    (r : Outcome (ApiBody Hub.hub2Status)) (s : Hub.State) :
  Hub.modelMatches sd = false ->
  let rejected :=
    [Log debugLog "BLERefreshStatus"; SwitchbotBLE; MonitorAdvertisement;
     Log errorLog "failed to get serviceData, serviceData: ${JSON.stringify(serviceData)}";
     Log errorLog "wasn't able to establish BLE Connection, node-switchbot: ${switchbot}"] in
  (Hub.fallbackToOpenAPI d = false ->
     Hub.BLERefreshStatus u d (Advertised sd) r s = (s, rejected)) /\
  (Hub.fallbackToOpenAPI d = true ->
     Hub.BLERefreshStatus u d (Advertised sd) r s
     = (fst (Hub.openAPIRefreshStatus u d r s),
        rejected ++ Log warnLog "Using OpenAPI Connection to Refresh Status"
                 :: snd (Hub.openAPIRefreshStatus u d r s))).
Proof.
  intros Hm rejected. unfold Hub.BLERefreshStatus, Hub.BLERefreshConnection, when.
  rewrite Hm. split; intros ->.
  - reflexivity.
  - rewrite !seq_emit. reflexivity.
Qed.

(** C4, on the failing input.  The Lock is handed the advertisement of a
    Hub 2: the test of the model tags lets it through, it is parsed as the
    state of the lock and shown in HomeKit, no error is logged and the
    cloud is not polled, although the device is on ['BLE/OpenAPI'] with a
    token. *)
Theorem lock_parses_foreign_advertisement :
  let sd := {| Lock.model := SwitchBotBLEModel.Hub2;
               Lock.modelName := SwitchBotBLEModelName.Hub2;
               Lock.status := "locked"; Lock.door_open := false;
               Lock.battery := None |} in
  let r := Lock.BLERefreshStatus Samples.bothLock (Advertised sd)
             (Returns (mkApiBody 100
                         {| Lock.lockState := "unlocked"; Lock.doorState := "closed";
                            Lock.st_battery := inject_Z 80; Lock.version := None |}))
             Samples.unlocked in
  Lock.fallbackToOpenAPI Samples.bothLock = true
  /\ Lock.model sd <> SwitchBotBLEModel.Lock
  /\ Lock.model sd <> SwitchBotBLEModel.LockPro
  /\ Lock.modelMatches sd = true
  /\ List.filter is_error_log (snd r) = []
  /\ transports (snd r) = [SwitchbotBLE; MonitorAdvertisement]
  /\ Lock.LockCurrentState Samples.unlocked = HAP.LockCurrentState_UNSECURED
  /\ Lock.LockCurrentState (fst r) = HAP.LockCurrentState_SECURED
  /\ shows "LockCurrentState" (snd r) = Some HAP.LockCurrentState_SECURED.
Proof.
  repeat split; try reflexivity; vm_compute; discriminate.
Qed.

Lemma validHumidity_range (h : Q) :
  (0 <= validHumidity h 0 100 <= 100)%Q.
Proof.
  unfold validHumidity. split.
  - apply Q.le_max_r.
  - apply Q.max_lub; [apply Q.le_min_r | discriminate].
Qed.

(** C7, on the failing input.  A humidity of 150 that the cloud poll or
    the webhook delivers is stored and shown as 150; the same value in a
    BLE advertisement is shown as 100. *)
Theorem hub_humidity_150 :
  let polled := Hub.openAPIRefreshStatus Samples.utils Samples.cloudHub
                  (Returns (mkApiBody 100
                              {| Hub.temperature := inject_Z 21;
                                 Hub.humidity := inject_Z 150;
                                 Hub.lightLevel := inject_Z 10;
                                 Hub.version := None |}))
                  Samples.hubState in
  let hooked := Hub.webhookEventHandler Samples.utils Samples.cloudHub
                  {| Hub.scale := "CELSIUS"; Hub.wh_temperature := inject_Z 21;
                     Hub.wh_humidity := inject_Z 150;
                     Hub.wh_lightLevel := inject_Z 10 |}
                  Samples.hubState in
  let heard := Hub.bleEventHandler Samples.utils Samples.cloudHub
                 {| Hub.model := SwitchBotBLEModel.Hub2;
                    Hub.modelName := SwitchBotBLEModelName.Hub2;
                    Hub.celsius := inject_Z 21; Hub.sd_humidity := inject_Z 150;
                    Hub.sd_lightLevel := inject_Z 10 |}
                 Samples.hubState in
  Hub.HumiditySensor (fst polled) = Some (num 150)
  /\ shows "CurrentRelativeHumidity" (snd polled) = Some (num 150)
  /\ Hub.context (fst polled) !! "CurrentRelativeHumidity" = Some (num 150)
  /\ Hub.HumiditySensor (fst hooked) = Some (num 150)
  /\ shows "CurrentRelativeHumidity" (snd hooked) = Some (num 150)
  /\ shows "CurrentRelativeHumidity" (snd heard) = Some (VNum 100).
Proof.
  repeat split; vm_compute; reflexivity.
Qed.







End StatusFacts.

Module PushFacts.
Import ProcFacts Base.

Lemma commands_app (a b : list Effect) :
  commands (a ++ b) = commands a ++ commands b.
Proof. apply List.filter_app. Qed.

Lemma lock_apiError_run (d : Lock.Device) (e : string) (s : Lock.State) :
  fst (Lock.apiError d e s) = s /\ commands (snd (Lock.apiError d e s)) = [].
Proof.
  destruct s as [LT LC CS BL SLB SW ctx F].
  unfold Lock.apiError. lock_unfold.
  destruct (truthy_bool (Lock.hide_contactsensor d));
    destruct CS; split; reflexivity.
Qed.

Lemma lock_update_commands (d : Lock.Device) (s : Lock.State) :
  commands (snd (Lock.updateHomeKitCharacteristics d s)) = [].
Proof.
  destruct s as [LT LC CS BL SLB SW ctx F].
  unfold Lock.updateHomeKitCharacteristics. lock_unfold.
  destruct (truthy_bool (Lock.hide_contactsensor d)); destruct CS; reflexivity.
Qed.

Lemma lock_statusCode_commands (d : Lock.Device) (c : Z) :
  commands (Lock.statusCode d c) = [].
Proof.
  unfold Lock.statusCode, IR.statusCode.
  match goal with |- context [if ?b then _ else _] => destruct b end; reflexivity.
Qed.

Lemma commands_cons (e : Effect) (es : list Effect) :
  commands (e :: es) = if is_command e then e :: commands es else commands es.
Proof. reflexivity. Qed.

Lemma commands_log (m : LogMethod) (msg : string) (es : list Effect) :
  commands (Log m msg :: es) = commands es.
Proof. reflexivity. Qed.

Lemma openAPIpushAnswered_commands (d : Lock.Device)
    (r : Outcome (ApiBody unit)) (s : Lock.State) :
  commands (snd (Lock.openAPIpushAnswered d r s)) = [].
Proof.
  unfold Lock.openAPIpushAnswered. destruct r as [e | ds].
  - rewrite seq_snd, commands_app.
    now rewrite (proj2 (lock_apiError_run d e s)).
  - rewrite seq_emit_snd, commands_log.
    destruct (successfulStatusCodes (statusCode_of ds)).
    + rewrite seq_emit_snd, commands_log. apply lock_update_commands.
    + apply lock_statusCode_commands.
Qed.

Lemma openAPIpushChanges_commands (d : Lock.Device)
    (r : Outcome (ApiBody unit)) (latch : bool) (s : Lock.State) :
  Lock.targetChanged s || latch = true ->
  commands (snd (Lock.openAPIpushChanges d r latch s))
  = [ControlDevice (Lock.deviceId d) (Lock.pushCommand latch s) "default" "command"].
Proof.
  intros H. unfold Lock.openAPIpushChanges, reading. rewrite H.
  unfold when. rewrite seq_snd, commands_app.
  rewrite openAPIpushAnswered_commands, app_nil_r.
  unfold Lock.openAPIpushSent, reading. rewrite seq_emit_snd, commands_log, H.
  reflexivity.
Qed.

Lemma openAPIpushChanges_skipped (d : Lock.Device)
    (r : Outcome (ApiBody unit)) (s : Lock.State) :
  Lock.targetChanged s = false ->
  Lock.openAPIpushChanges d r false s
  = (s, [Log debugLog "openAPIpushChanges";
         Log debugLog "No changes (openAPIpushChanges), LockCurrentState: ${this.LockMechanism.LockCurrentState}, TargetPosition: ${this.LockMechanism.LockTargetState}"]).
Proof.
  intros H. unfold Lock.openAPIpushChanges, reading. rewrite H.
  rewrite seq_run. unfold Lock.openAPIpushSent. rewrite seq_emit.
  unfold reading. rewrite H. reflexivity.
Qed.

Lemma BLEPushConnection_commands (d : Lock.Device)
    (r : Outcome (ApiBody unit)) (s : Lock.State) :
  commands (snd (Lock.BLEPushConnection d r s))
  = if Lock.fallbackToOpenAPI d && Lock.targetChanged s
    then [ControlDevice (Lock.deviceId d) (Lock.pushCommand false s) "default" "command"]
    else [].
Proof.
  unfold Lock.BLEPushConnection, when.
  destruct (Lock.fallbackToOpenAPI d); [| reflexivity].
  rewrite seq_emit_snd, commands_log. cbn [andb].
  destruct (Lock.targetChanged s) eqn:H.
  - apply openAPIpushChanges_commands. now rewrite H.
  - now rewrite (openAPIpushChanges_skipped d r s H).
Qed.

Lemma BLEpushFailed_commands (d : Lock.Device) (a : Lock.PushAnswers)
    (e : string) (s : Lock.State) :
  commands (snd (Lock.BLEpushFailed d a e s))
  = if Lock.fallbackToOpenAPI d && Lock.targetChanged s
    then [ControlDevice (Lock.deviceId d) (Lock.pushCommand false s) "default" "command"]
    else [].
Proof.
  unfold Lock.BLEpushFailed.
  rewrite seq_snd, commands_app.
  destruct (lock_apiError_run d e s) as [-> ->].
  rewrite seq_emit_snd, commands_log.
  apply BLEPushConnection_commands.
Qed.

Lemma openAPIpushAnswered_undiscovered (d : Lock.Device)
    (r : Outcome (ApiBody unit)) (s : Lock.State) :
  existsb Lock.is_discover (snd (Lock.openAPIpushAnswered d r s)) = false.
Proof.
  destruct s as [LT LC CS BL SLB SW ctx F].
  unfold Lock.openAPIpushAnswered, Lock.updateHomeKitCharacteristics, Lock.apiError,
    Lock.statusCode, IR.statusCode.
  lock_unfold.
  destruct r as [e | ds].
  - destruct (truthy_bool (Lock.hide_contactsensor d)); destruct CS; reflexivity.
  - destruct (successfulStatusCodes (statusCode_of ds)).
    + destruct (truthy_bool (Lock.hide_contactsensor d)); destruct CS; reflexivity.
    + match goal with |- context [if ?b then _ else _] => destruct b end;
        reflexivity.
Qed.

Lemma openAPIpushChanges_undiscovered (d : Lock.Device)
    (r : Outcome (ApiBody unit)) (latch : bool) (s : Lock.State) :
  Lock.chainStarted (snd (Lock.openAPIpushChanges d r latch s)) = false.
Proof.
  unfold Lock.chainStarted, Lock.openAPIpushChanges, reading.
  rewrite seq_snd, existsb_app.
  assert (Hs : existsb Lock.is_discover (snd (Lock.openAPIpushSent d latch s)) = false).
  { unfold Lock.openAPIpushSent, reading. rewrite seq_emit_snd.
    destruct (Lock.targetChanged s || latch); reflexivity. }
  rewrite Hs. cbn [orb]. unfold when.
  destruct (Lock.targetChanged s || latch); [| reflexivity].
  apply openAPIpushAnswered_undiscovered.
Qed.

Lemma BLEPushConnection_undiscovered (d : Lock.Device)
    (r : Outcome (ApiBody unit)) (s : Lock.State) :
  existsb Lock.is_discover (snd (Lock.BLEPushConnection d r s)) = false.
Proof.
  unfold Lock.BLEPushConnection, when.
  destruct (Lock.fallbackToOpenAPI d); [| reflexivity].
  rewrite seq_emit_snd. cbn [existsb Lock.is_discover orb].
  apply openAPIpushChanges_undiscovered.
Qed.

Lemma BLEpushRetried_commands (d : Lock.Device) (a : Lock.PushAnswers)
    (s : Lock.State) :
  commands (snd (Lock.BLEpushRetried d a s))
  = match Lock.ble_push a with
    | Lock.Commanded _ => [RetryBLE (Lock.maxRetryBLE d) (Lock.bleCommand s)]
    | _ => []
    end.
Proof. unfold Lock.BLEpushRetried. destruct (Lock.ble_push a); reflexivity. Qed.

Lemma BLEpushSettled_commands (d : Lock.Device) (a : Lock.PushAnswers)
    (s : Lock.State) :
  commands (snd (Lock.BLEpushSettled d a s))
  = match Lock.ble_push a with
    | Lock.DiscoverFails _ | Lock.Commanded (Throws _) =>
        if Lock.fallbackToOpenAPI d && Lock.targetChanged s
        then [ControlDevice (Lock.deviceId d) (Lock.pushCommand false s)
                "default" "command"]
        else []
    | _ => []
    end.
Proof.
  unfold Lock.BLEpushSettled.
  destruct (Lock.ble_push a) as [e | | e | [e | u]]; try reflexivity.
  - apply BLEpushFailed_commands.
  - apply BLEpushFailed_commands.
  - rewrite seq_emit_snd, commands_log. apply lock_update_commands.
Qed.

(** C8, as stated, fails in its second half: the requested state differs
    from the confirmed one, but the BLE connection cannot be established
    and the device is on ['BLE'] alone, so that no command is issued on any
    transport.  [pushChanges] then only schedules the refresh. *)
Lemma push_not_issued_counterexample :
  let a := {| Lock.ble_push := Lock.ConnectFailed;
              Lock.mac := Returns "C0:FF:EE:00:00:0C";
              Lock.cloud_push := Returns (mkApiBody 100 tt) |} in
  Lock.targetChanged Samples.asked = true
  /\ commands (Lock.effects_of (Lock.BLEpushChanges Samples.bleLock a Samples.asked)) = []
  /\ Lock.effects_of (Lock.pushChanges Samples.bleLock a Samples.asked)
     = [Log debugLog "BLEpushChanges"; SwitchbotBLE;
        Log debugLog "bleMac: C0:FF:EE:00:00:0C";
        Log errorLog "wasn't able to establish BLE Connection, node-switchbot: ${JSON.stringify(switchBotBLE)}";
        IntervalOnce 15000].
Proof. repeat split. Qed.

(** C8, amended.  When the requested [LockTargetState] equals the one of
    [accessory.context], [BLEpushChanges] and [openAPIpushChanges] without
    [LatchUnlock] issue no command, start no discovery and only log.  When
    it differs, or [LatchUnlock] is set, [openAPIpushChanges] issues exactly
    one command.  When it differs, [BLEpushChanges] itself issues nothing
    if [platform.connectBLE] rejects or the device id does not format as a
    MAC; if [connectBLE] returns [false] it issues one cloud command
    exactly when a token exists and the connection type is ['BLE/OpenAPI'];
    with a BLE client it calls [discover] and issues nothing more itself.
    The promise chain on [discover] calls [retryBLE] once, with the lock
    or unlock call, when [discover] resolves; when [discover] or
    [retryBLE] rejects, it issues one cloud command exactly when a token
    exists, the connection type is ['BLE/OpenAPI'] and the target still
    differs from the context, and otherwise none. *)
Theorem push_skipped_when_unchanged
    (d : Lock.Device) (a : Lock.PushAnswers) (r : Outcome (ApiBody unit))
    (s : Lock.State) :
  let cloud latch st :=
    [ControlDevice (Lock.deviceId d) (Lock.pushCommand latch st) "default" "command"] in
  let fallback st :=
    if Lock.fallbackToOpenAPI d && Lock.targetChanged st then cloud false st else [] in
  let own := Lock.effects_of (Lock.BLEpushChanges d a s) in
  (Lock.targetChanged s = false ->
     Lock.BLEpushChanges d a s
     = (s, [Log debugLog "BLEpushChanges";
            Log debugLog "No changes (BLEpushChanges), LockTargetState: ${this.LockMechanism.LockTargetState}, LockCurrentState: ${this.LockMechanism.LockCurrentState}"],
        None)
     /\ Lock.openAPIpushChanges d r false s
        = (s, [Log debugLog "openAPIpushChanges";
               Log debugLog "No changes (openAPIpushChanges), LockCurrentState: ${this.LockMechanism.LockCurrentState}, TargetPosition: ${this.LockMechanism.LockTargetState}"])) /\
  (forall latch, Lock.targetChanged s = true \/ latch = true ->
     commands (snd (Lock.openAPIpushChanges d r latch s)) = cloud latch s) /\
  (Lock.targetChanged s = true ->
     match Lock.ble_push a, Lock.mac a with
     | Lock.ConnectThrows _, _ => commands own = [] /\ Lock.chainStarted own = false
     | _, Throws _ => commands own = [] /\ Lock.chainStarted own = false
     | Lock.ConnectFailed, Returns _ =>
         commands own = fallback s /\ Lock.chainStarted own = false
     | Lock.DiscoverFails _, Returns _ =>
         commands own = [] /\ Lock.chainStarted own = true
     | Lock.Commanded _, Returns _ =>
         commands own = [] /\ Lock.chainStarted own = true
     end) /\
  (forall s2,
     commands (snd (Lock.BLEpushRetried d a s2))
     = match Lock.ble_push a with
       | Lock.Commanded _ => [RetryBLE (Lock.maxRetryBLE d) (Lock.bleCommand s2)]
       | _ => []
       end) /\
  (forall s3,
     commands (snd (Lock.BLEpushSettled d a s3))
     = match Lock.ble_push a with
       | Lock.DiscoverFails _ | Lock.Commanded (Throws _) => fallback s3
       | _ => []
       end).
Proof.
  intros cloud fallback own. split; [| split; [| split; [| split]]].
  - intros H. split.
    + unfold Lock.BLEpushChanges. now rewrite H.
    + now apply openAPIpushChanges_skipped.
  - intros latch H. apply openAPIpushChanges_commands.
    destruct H as [-> | ->]; [reflexivity | apply orb_true_r].
  - intros H. subst own. unfold Lock.BLEpushChanges. rewrite H.
    destruct (Lock.ble_push a) as [e | | e | o] eqn:Hb;
      [split; reflexivity | | |];
      unfold Lock.returns, Lock.effects_of;
      rewrite !seq_emit; unfold Lock.BLEpushConnected; rewrite Hb;
      destruct (Lock.mac a) as [e' | m]; try (split; reflexivity);
      cbn [fst snd].
    rewrite !seq_emit_snd, !commands_cons. cbn [is_command].
    rewrite BLEPushConnection_commands. subst fallback cloud. cbn beta.
    split; [reflexivity |].
    unfold Lock.chainStarted. cbn [existsb Lock.is_discover orb].
    apply BLEPushConnection_undiscovered.
  - intros s2. apply BLEpushRetried_commands.
  - intros s3. apply BLEpushSettled_commands.
Qed.

Lemma push_skipped_when_unchanged_witness :
  let a := {| Lock.ble_push := Lock.Commanded (Throws "timeout");
              Lock.mac := Returns "C0:FF:EE:00:00:0D";
              Lock.cloud_push := Returns (mkApiBody 100 tt) |} in
  (commands (Lock.effects_of (Lock.BLEpushChanges Samples.bothLock a Samples.asked)) = []
   /\ Lock.chainStarted
        (Lock.effects_of (Lock.BLEpushChanges Samples.bothLock a Samples.asked)) = true)
  /\ commands (snd (Lock.BLEpushRetried Samples.bothLock a Samples.asked))
     = [RetryBLE 2 BLElock]
  /\ commands (snd (Lock.BLEpushSettled Samples.bothLock a Samples.asked))
     = [ControlDevice "C0FFEE00000D" "lock" "default" "command"]
  /\ Lock.BLEpushChanges Samples.bothLock a Samples.unlocked
     = (Samples.unlocked,
        [Log debugLog "BLEpushChanges";
         Log debugLog "No changes (BLEpushChanges), LockTargetState: ${this.LockMechanism.LockTargetState}, LockCurrentState: ${this.LockMechanism.LockCurrentState}"],
        None)
  /\ commands (snd (Lock.openAPIpushChanges Samples.cloudLock
                      (Returns (mkApiBody 100 tt)) true Samples.unlocked))
     = [ControlDevice "C0FFEE00000E" "unlock" "default" "command"].
Proof.
  intros a. split; [| split; [| split; [| split]]].
  - exact (proj1 (proj2 (proj2 (push_skipped_when_unchanged Samples.bothLock a
                                  (Returns (mkApiBody 100 tt)) Samples.asked)))
             eq_refl).
  - exact (proj1 (proj2 (proj2 (proj2
             (push_skipped_when_unchanged Samples.bothLock a
                (Returns (mkApiBody 100 tt)) Samples.asked))))
             Samples.asked).
  - exact (proj2 (proj2 (proj2 (proj2
             (push_skipped_when_unchanged Samples.bothLock a
                (Returns (mkApiBody 100 tt)) Samples.asked))))
             Samples.asked).
  - exact (proj1 (proj1 (push_skipped_when_unchanged Samples.bothLock a
                           (Returns (mkApiBody 100 tt)) Samples.unlocked)
                    eq_refl)).
  - exact (proj1 (proj2 (push_skipped_when_unchanged Samples.cloudLock a
                           (Returns (mkApiBody 100 tt)) Samples.unlocked))
             true (or_intror eq_refl)).
Defined.

End PushFacts.

Module LatchFacts.
Import ProcFacts Base.

Lemma written_app (name : string) (a b : list Effect) :
  written name (a ++ b) = written name a ++ written name b.
Proof.
  induction a as [|e a IH]; [reflexivity |].
  destruct e; cbn [written app]; try exact IH.
  destruct (String.eqb characteristic name); [cbn [app]; now rewrite IH | exact IH].
Qed.

Lemma quiet_nothing (es : list Effect) :
  forallb quiet es = true ->
  commands es = [] /\ timeouts es = [] /\ signals es = [] /\ written "On" es = [].
Proof.
  induction es as [|e es IH]; [now repeat split |].
  cbn [forallb]. rewrite andb_true_iff. intros [He Hes].
  destruct (IH Hes) as (Hc & Ht & Hs & Hw).
  destruct e; try discriminate He; cbn; try now repeat split.
  cbn in He. destruct (String.eqb characteristic "On"); [discriminate He |].
  now repeat split.
Qed.

Lemma lock_apiError_quiet (d : Lock.Device) (e : string) (s : Lock.State) :
  forallb quiet (snd (Lock.apiError d e s)) = true.
Proof.
  destruct s as [LT LC CS BL SLB SW ctx F].
  unfold Lock.apiError. lock_unfold.
  destruct (truthy_bool (Lock.hide_contactsensor d)); destruct CS; reflexivity.
Qed.

Lemma lock_update_quiet (d : Lock.Device) (s : Lock.State) :
  forallb quiet (snd (Lock.updateHomeKitCharacteristics d s)) = true.
Proof.
  destruct s as [LT LC CS BL SLB SW ctx F].
  unfold Lock.updateHomeKitCharacteristics. lock_unfold.
  destruct (truthy_bool (Lock.hide_contactsensor d)); destruct CS; reflexivity.
Qed.

Lemma lock_statusCode_quiet (d : Lock.Device) (c : Z) :
  forallb quiet (Lock.statusCode d c) = true.
Proof.
  unfold Lock.statusCode, IR.statusCode.
  match goal with |- context [if ?b then _ else _] => destruct b end; reflexivity.
Qed.

Lemma openAPIpushAnswered_quiet (d : Lock.Device)
    (r : Outcome (ApiBody unit)) (s : Lock.State) :
  forallb quiet (snd (Lock.openAPIpushAnswered d r s)) = true.
Proof.
  unfold Lock.openAPIpushAnswered. destruct r as [e | ds].
  - rewrite seq_snd, forallb_app, lock_apiError_quiet. reflexivity.
  - rewrite seq_emit_snd. cbn [forallb quiet andb].
    destruct (successfulStatusCodes (statusCode_of ds)).
    + rewrite seq_emit_snd. cbn [forallb quiet andb]. apply lock_update_quiet.
    + apply lock_statusCode_quiet.
Qed.

Lemma openAPIpushAnswered_latch (d : Lock.Device)
    (r : Outcome (ApiBody unit)) (s : Lock.State) :
  present (Lock.Switch s) = true ->
  present (Lock.Switch (fst (Lock.openAPIpushAnswered d r s))) = true.
Proof.
  destruct s as [LT LC CS BL SLB SW ctx F]. cbn [Lock.Switch]. intros H.
  unfold Lock.openAPIpushAnswered, Lock.apiError, Lock.updateHomeKitCharacteristics.
  destruct r as [e | ds]; [| destruct (successfulStatusCodes (statusCode_of ds))];
    lock_unfold;
    destruct (truthy_bool (Lock.hide_contactsensor d)); destruct CS; exact H.
Qed.

(** C9.  [OnSet] with a truthy value issues one push, the [unlock]
    command; when that push is answered, by a success code, by another
    code or by an exception, the handler issues no command and sets one
    timer, of 500 ms, before which the [On] characteristic is not written;
    the timer writes [false] to the [On] characteristic and logs, which
    issues no command, signals no update and leaves the state as it is. *)
Theorem latch_resets_after_push
    (d : Lock.Device) (response : Outcome (ApiBody unit)) (value : Value)
    (s s1 : Lock.State) :
  truthy value = true ->
  present (Lock.Switch s) = true ->
  present (Lock.Switch s1) = true ->
  let called := snd (Lock.OnSet d value s) in
  let answered := snd (Lock.OnSet_answered d response s1) in
  commands called = [ControlDevice (Lock.deviceId d) "unlock" "default" "command"]
  /\ timeouts called = [] /\ written "On" called = []
  /\ commands answered = []
  /\ timeouts answered = [SetTimeout 500 LatchOff]
  /\ signals answered = []
  /\ written "On" answered = []
  /\ (forall s2,
        Lock.runCallback LatchOff s2
        = (s2, [UpdateCharacteristic "Switch" "On" (VBool false);
                Log debugLog "Latch button switched off automatically."])).
Proof.
  intros Hv Hs Hs1 called answered.
  assert (Hcalled :
    called = [Log debugLog "Latch Button Set On: ${value}";
              Log debugLog "Attempting to open the latch";
              Log debugLog "openAPIpushChanges";
              Log debugLog "SwitchBot OpenAPI bodyChange: ${JSON.stringify(bodyChange)}";
              ControlDevice (Lock.deviceId d) "unlock" "default" "command";
              DoUpdateNext]).
  { subst called. destruct s as [LT LC CS BL SLB SW ctx F].
    cbn [Lock.Switch] in Hs. destruct SW; [| discriminate Hs].
    unfold Lock.OnSet, Lock.openAPIpushSent, Lock.doLockUpdate_next. rewrite Hv.
    lock_unfold. destruct (Lock.targetChanged _); reflexivity. }
  assert (Hquiet := openAPIpushAnswered_quiet d response s1).
  apply quiet_nothing in Hquiet as (Hc & Ht & Hg & Hw).
  assert (Hlatch := openAPIpushAnswered_latch d response s1 Hs1).
  assert (Hans : answered
                 = snd (Lock.openAPIpushAnswered d response s1)
                   ++ [Log debugLog "Latch opened successfully";
                       Log debugLog "SwitchService is: ${this.Switch?.Service ? 'available' : 'not available'}";
                       SetTimeout 500 LatchOff]).
  { subst answered. unfold Lock.OnSet_answered. rewrite seq_snd. f_equal.
    assert (Hsettle : Lock.openAPIpushSettles response = Returns tt)
      by (destruct response; reflexivity).
    rewrite Hsettle, !seq_emit_snd. unfold reading, when.
    now rewrite Hlatch. }
  rewrite Hcalled, Hans, written_app, Hw.
  unfold commands, timeouts, signals in *.
  rewrite !List.filter_app, Hc, Ht, Hg.
  repeat split.
Qed.

Lemma latch_resets_after_push_witness :
  commands (snd (Lock.OnSet Samples.cloudLock (VBool true) Samples.unlocked))
  = [ControlDevice "C0FFEE00000E" "unlock" "default" "command"]
  /\ timeouts (snd (Lock.OnSet_answered Samples.cloudLock (Throws "timeout")
                      Samples.unlocked))
     = [SetTimeout 500 LatchOff]
  /\ written "On" (snd (Lock.OnSet_answered Samples.cloudLock
                          (Returns (mkApiBody 161 tt)) Samples.unlocked))
     = [].
Proof.
  pose proof (latch_resets_after_push Samples.cloudLock (Throws "timeout")
                (VBool true) Samples.unlocked Samples.unlocked
                eq_refl eq_refl eq_refl) as (H1 & _ & _ & _ & H5 & _).
  pose proof (latch_resets_after_push Samples.cloudLock (Returns (mkApiBody 161 tt))
                (VBool true) Samples.unlocked Samples.unlocked
                eq_refl eq_refl eq_refl) as (_ & _ & _ & _ & _ & _ & H7 & _).
  split; [exact H1 | split; [exact H5 | exact H7]].
Defined.

End LatchFacts.

Module DebounceFacts.
Import ProcFacts Lock Debounce.

Lemma LockTargetStateSet_run (v : Value) (s : State) :
  fst (LockTargetStateSet v s) = armed v s
  /\ exists m msg, snd (LockTargetStateSet v s) = [Log m msg; DoUpdateNext].
Proof.
  unfold LockTargetStateSet, doLockUpdate_next, reading.
  rewrite seq_fst, seq_snd.
  destruct (targetChanged s); (split; [reflexivity | eauto]).
Qed.

Lemma subscriber_resets (d : Device) (a : PushAnswers) (s : State) :
  lockUpdateInProgress (fst (doLockUpdate_subscriber d a s)) = false.
Proof.
  unfold doLockUpdate_subscriber.
  destruct (pushChanges d a s) as [[s1 e1] [e|]].
  - match goal with |- context [let '(_, _) := ?p in _] => destruct p end.
    reflexivity.
  - reflexivity.
Qed.

Lemma last_cons {A} (x d : A) (l : list A) :
  List.last (x :: l) d = List.last l x.
Proof.
  revert x d. induction l as [|y l IH]; intros x d; [reflexivity |].
  change (List.last (x :: y :: l) d) with (List.last (y :: l) d).
  now rewrite !IH.
Qed.

Section Window.
Variables (d : Device) (answers : Z -> PushAnswers) (rate : Z).

Lemma call_armed (s0 : State) (t t' : Z) (v v' : Value) (w : Loop) :
  due w = Some (t + rate) -> lock w = armed v s0 -> t <= t' < t + rate ->
  let w' := call d answers rate t' v' w in
  lock w' = armed v' s0 /\ due w' = Some (t' + rate)
  /\ exists r, history w' = history w ++ [r] /\ is_call r.
Proof.
  intros Hdue Hlock Ht. unfold call, elapse. rewrite Hdue.
  destruct (Z.leb_spec (t + rate) t') as [Hle | _]; [lia |].
  destruct (LockTargetStateSet_run v' (lock w)) as [Hs (m & msg & He)].
  destruct (LockTargetStateSet v' (lock w)) as [s' es] eqn:E.
  cbn [fst snd] in Hs, He. cbn [lock due history]. subst s'.
  rewrite Hlock. split; [reflexivity |]. split; [reflexivity |].
  eexists. split; [reflexivity |]. split; reflexivity.
Qed.

Lemma run_armed (s0 : State) (rest : list (Z * Value)) :
  forall (t : Z) (v : Value) (w : Loop),
    due w = Some (t + rate) -> lock w = armed v s0 -> chained rate t rest ->
    let w' := run d answers rate rest w in
    let tv := List.last rest (t, v) in
    lock w' = armed (snd tv) s0 /\ due w' = Some (fst tv + rate)
    /\ exists calls, history w' = history w ++ calls /\ Forall is_call calls
                     /\ length calls = length rest.
Proof.
  induction rest as [|[t' v'] rest IH]; intros t v w Hdue Hlock Hch.
  - cbn. repeat split; try assumption. exists []. now rewrite app_nil_r.
  - inversion Hch as [| ? ? ? ? Ht Hrest]; subst.
    destruct (call_armed s0 t t' v v' w Hdue Hlock Ht) as (Hl & Hd & r & Hh & Hr).
    destruct (IH t' v' _ Hd Hl Hrest) as (Hl' & Hd' & calls & Hh' & Hc & Hn).
    cbn [run]. rewrite last_cons.
    split; [exact Hl' |]. split; [exact Hd' |].
    exists (r :: calls). rewrite Hh', Hh, <- app_assoc.
    split; [reflexivity |]. split; [now constructor | cbn; now rewrite Hn].
Qed.

End Window.
Lemma calls_no_push (l : list (Ran * bool)) :
  Forall is_call l -> pushes l = [].
Proof.
  induction 1 as [|r l [Hr _] _ IH]; [reflexivity |].
  unfold pushes in *. cbn [List.filter]. now rewrite Hr.
Qed.

(** One debounce window.  Calls of [LockTargetStateSet], each less than
    [devicePushRate] after the one before, starting with no timer pending:
    after them the state is the one that the last call alone would have
    left, [lockUpdateInProgress] is set after every call, and nothing is
    pushed before the window closes, [devicePushRate] after the last call;
    then the subscriber runs once, which is one [pushChanges] on the last
    value written, and [lockUpdateInProgress] is reset when the [await] of
    [pushChanges] is over, whether it returned or threw. *)
Lemma one_window
    (d : Device) (answers : Z -> PushAnswers) (rate : Z) (w0 : Loop)
    (t0 : Z) (v0 : Value) (rest : list (Z * Value)) :
  due w0 = None ->
  chained rate t0 rest ->
  let calls := (t0, v0) :: rest in
  let tn := fst (List.last calls (t0, v0)) in
  let vn := snd (List.last calls (t0, v0)) in
  let w := run d answers rate calls w0 in
  let cycle := doLockUpdate_subscriber d (answers (tn + rate)) (armed vn (lock w0)) in
  (lock w = armed vn (lock w0) /\ due w = Some (tn + rate)
   /\ lockUpdateInProgress (lock w) = true
   /\ exists ran, history w = history w0 ++ ran /\ Forall is_call ran
                  /\ length ran = length calls)
  /\ (forall now, now < tn + rate -> elapse d answers now w = w)
  /\ (forall now, tn + rate <= now ->
        let w' := elapse d answers now w in
        lock w' = fst cycle /\ due w' = None
        /\ lockUpdateInProgress (lock w') = false
        /\ history w' = history w ++ [(RanPush (tn + rate) vn (snd cycle), false)]
        /\ pushes (history w')
           = pushes (history w0) ++ [(RanPush (tn + rate) vn (snd cycle), false)])
  /\ (exists tail,
        snd cycle
        = effects_of (pushChanges d (answers (tn + rate)) (armed vn (lock w0)))
          ++ tail).
Proof.
  intros Hidle Hch calls tn vn w cycle.
  set (w1 := call d answers rate t0 v0 w0).
  assert (H1 : lock w1 = armed v0 (lock w0) /\ due w1 = Some (t0 + rate)
               /\ exists r, history w1 = history w0 ++ [r] /\ is_call r).
  { subst w1. unfold call, elapse. rewrite Hidle.
    destruct (LockTargetStateSet_run v0 (lock w0)) as [Hs (m & msg & He)].
    destruct (LockTargetStateSet v0 (lock w0)) as [s' es].
    cbn [fst snd] in Hs, He. cbn [lock due history]. subst s'.
    split; [reflexivity |]. split; [reflexivity |].
    eexists. split; [reflexivity |]. split; reflexivity. }
  destruct H1 as (Hl1 & Hd1 & r & Hh1 & Hr).
  destruct (run_armed d answers rate (lock w0) rest t0 v0 w1 Hd1 Hl1 Hch)
    as (Hl & Hd & ran & Hh & Hran & Hn).
  assert (Hlast : List.last calls (t0, v0) = List.last rest (t0, v0)).
  { subst calls. apply last_cons. }
  assert (Hw : w = run d answers rate rest w1) by reflexivity.
  subst tn vn cycle. rewrite Hlast in *. rewrite <- Hw in Hl, Hd, Hh.
  set (tv := List.last rest (t0, v0)) in *.
  assert (Hhist : history w = history w0 ++ r :: ran).
  { rewrite Hh, Hh1, <- app_assoc. reflexivity. }
  split; [| split; [| split]].
  - split; [exact Hl |]. split; [exact Hd |]. split; [now rewrite Hl |].
    exists (r :: ran). split; [exact Hhist |].
    split; [now constructor | cbn; now rewrite Hn].
  - intros now Hnow. unfold elapse. rewrite Hd.
    destruct (Z.leb_spec (fst tv + rate) now); [lia | reflexivity].
  - intros now Hnow w'. subst w'. unfold elapse, fire. rewrite Hd.
    destruct (Z.leb_spec (fst tv + rate) now); [| lia].
    rewrite Hl.
    pose proof (subscriber_resets d (answers (fst tv + rate)) (armed (snd tv) (lock w0)))
      as Hreset.
    destruct (doLockUpdate_subscriber d (answers (fst tv + rate))
                (armed (snd tv) (lock w0))) as [s' es].
    cbn [fst snd] in Hreset |- *. cbn [lock due history]. rewrite Hreset.
    repeat split.
    unfold pushes. rewrite List.filter_app. cbn [List.filter is_push fst].
    f_equal. rewrite Hhist, List.filter_app.
    fold (pushes (r :: ran)). rewrite (calls_no_push (r :: ran)).
    + apply app_nil_r.
    + now constructor.
  - unfold doLockUpdate_subscriber.
    destruct (pushChanges d (answers (fst tv + rate)) (armed (snd tv) (lock w0)))
      as [[s1 e1] [e|]]; cbn [effects_of fst snd].
    + match goal with |- context [let '(_, _) := ?p in _] => destruct p end.
      eexists. reflexivity.
    + eexists. reflexivity.
Qed.

(** The subscriber on a lock on BLE whose target has changed, with a BLE
    client and a device id that formats: [discover] is called, the refresh
    is scheduled, the flag is reset; nothing else has happened. *)
Lemma subscriber_discovers (d : Device) (a : PushAnswers) (s : State)
    (m : string) (r : Outcome unit) :
  negb (truthy_bool (enableCloudService d)) && OpenAPI d = false ->
  BLE d = true -> targetChanged s = true ->
  mac a = Returns m -> ble_push a = Commanded r ->
  doLockUpdate_subscriber d a s
  = (set_lockUpdateInProgress false s,
     [Log debugLog "BLEpushChanges"; SwitchbotBLE; Log debugLog ("bleMac: " +:+ m);
      BLEDiscover; IntervalOnce 15000]).
Proof.
  intros Hg Hble Hch Hm Hb.
  unfold doLockUpdate_subscriber, pushChanges, BLEpushChanges.
  rewrite Hg, Hble, Hch, Hb.
  unfold returns. rewrite !seq_emit. unfold BLEpushConnected. rewrite Hm, Hb.
  reflexivity.
Qed.

(** The promise chain of a push over BLE leaves [lockUpdateInProgress]
    and [LockTargetState] as it finds them. *)
Lemma chain_keeps_flag (d : Device) (a : PushAnswers) (s : State) :
  fst (BLEpushRetried d a s) = s
  /\ lockUpdateInProgress (fst (BLEpushSettled d a s)) = lockUpdateInProgress s
  /\ LockTargetState (fst (BLEpushSettled d a s)) = LockTargetState s.
Proof.
  split.
  { unfold BLEpushRetried. destruct (ble_push a); reflexivity. }
  destruct s as [LT LC CS BL SLB SW ctx F].
  unfold BLEpushSettled, BLEpushFailed, BLEPushConnection, openAPIpushChanges,
    openAPIpushSent, openAPIpushAnswered, updateHomeKitCharacteristics, apiError,
    contactShown.
  destruct (ble_push a) as [e | | e | [e | u]];
    try (split; reflexivity);
    destruct (fallbackToOpenAPI d); destruct (cloud_push a) as [e' | ds];
    try match goal with
        | |- context [Base.successfulStatusCodes ?x] =>
            destruct (Base.successfulStatusCodes x)
        end;
    destruct CS; destruct (truthy_bool (hide_contactsensor d));
    lock_unfold;
    repeat match goal with
           | |- context [targetChanged ?x] => destruct (targetChanged x)
           end;
    split; reflexivity.
Qed.

(** C1.  Where the claim fails: a lock on BLE.  After calls of
    [LockTargetStateSet] within one debounce window the subscriber runs
    once, on the last value written; but [BLEpushChanges] does not await
    the promise chain that it puts on [discover], so when the subscriber
    resets [lockUpdateInProgress] the push has only called [discover] and
    no command has been issued.  The lock or unlock call of the last value
    is handed to [retryBLE] by the chain afterwards, with
    [lockUpdateInProgress] already [false], and the flag stays [false]
    while the chain runs to its end. *)
Theorem debounce_flag_released_before_ble_push
    (d : Device) (answers : Z -> PushAnswers) (rate : Z) (w0 : Loop)
    (t0 : Z) (v0 : Value) (rest : list (Z * Value))
    (m : string) (r : Outcome unit) (now : Z) :
  due w0 = None ->
  chained rate t0 rest ->
  let calls := (t0, v0) :: rest in
  let tn := fst (List.last calls (t0, v0)) in
  let vn := snd (List.last calls (t0, v0)) in
  let a := answers (tn + rate) in
  let w' := elapse d answers now (run d answers rate calls w0) in
  let ran := snd (doLockUpdate_subscriber d a (armed vn (lock w0))) in
  negb (truthy_bool (enableCloudService d)) && OpenAPI d = false ->
  BLE d = true ->
  targetChanged (armed vn (lock w0)) = true ->
  mac a = Returns m -> ble_push a = Commanded r ->
  tn + rate <= now ->
  pushes (history w') = pushes (history w0) ++ [(RanPush (tn + rate) vn ran, false)]
  /\ commands ran = [] /\ chainStarted ran = true
  /\ lockUpdateInProgress (lock w') = false
  /\ commands (snd (BLEpushRetried d a (lock w')))
     = [RetryBLE (maxRetryBLE d)
          (if strict_eq vn HAP.LockTargetState_SECURED then BLElock else BLEunlock)]
  /\ lockUpdateInProgress (fst (BLEpushRetried d a (lock w'))) = false
  /\ lockUpdateInProgress
       (fst (BLEpushSettled d a (fst (BLEpushRetried d a (lock w'))))) = false.
Proof.
  intros Hidle Hchain calls tn vn a w' ran Hg Hble Hch Hm Hb Hnow.
  destruct (one_window d answers rate w0 t0 v0 rest Hidle Hchain)
    as (_ & _ & Hafter & _).
  destruct (Hafter now Hnow) as (Hlock & _ & Hflag & _ & Hpushes).
  fold calls tn vn a w' in Hlock, Hflag, Hpushes.
  pose proof (subscriber_discovers d a (armed vn (lock w0)) m r Hg Hble Hch Hm Hb)
    as Hrun.
  assert (Hran : ran = [Log debugLog "BLEpushChanges"; SwitchbotBLE;
                        Log debugLog ("bleMac: " +:+ m); BLEDiscover;
                        IntervalOnce 15000]).
  { subst ran. now rewrite Hrun. }
  assert (Hw : lock w' = set_lockUpdateInProgress false (armed vn (lock w0))).
  { rewrite Hlock. fold a. now rewrite Hrun. }
  destruct (chain_keeps_flag d a (lock w')) as (Hretried & _ & _).
  destruct (chain_keeps_flag d a (fst (BLEpushRetried d a (lock w'))))
    as (_ & Hsettled & _).
  split; [exact Hpushes |].
  split; [now rewrite Hran |]. split; [now rewrite Hran |].
  split; [exact Hflag |]. split.
  - rewrite PushFacts.BLEpushRetried_commands, Hb. unfold bleCommand.
    rewrite Hw. reflexivity.
  - split; [now rewrite Hretried |].
    rewrite Hsettled, Hretried. exact Hflag.
Qed.

Lemma debounce_flag_released_before_ble_push_witness :
  lockUpdateInProgress
    (lock (elapse Samples.bleLock (fun _ => Samples.agreeing) 1000
             (run Samples.bleLock (fun _ => Samples.agreeing) 100
                [(0, HAP.LockTargetState_SECURED)] Samples.idle))) = false
  /\ commands
       (snd (BLEpushRetried Samples.bleLock Samples.agreeing
               (lock (elapse Samples.bleLock (fun _ => Samples.agreeing) 1000
                        (run Samples.bleLock (fun _ => Samples.agreeing) 100
                           [(0, HAP.LockTargetState_SECURED)] Samples.idle)))))
     = [RetryBLE 2 BLElock].
Proof.
  pose (H := debounce_flag_released_before_ble_push Samples.bleLock
               (fun _ => Samples.agreeing) 100 Samples.idle 0
               HAP.LockTargetState_SECURED [] "C0:FF:EE:00:00:0E" (Returns tt) 1000
               eq_refl (chained_nil 100 0) eq_refl eq_refl eq_refl eq_refl eq_refl).
  assert (Hnow : 0 + 100 <= 1000) by lia.
  split.
  - exact (proj1 (proj2 (proj2 (proj2 (H Hnow))))).
  - exact (proj1 (proj2 (proj2 (proj2 (proj2 (H Hnow)))))).
Defined.

(** Three calls 40 ms and 50 ms apart with a push rate of 100 ms: one push,
    190 ms after the first call, of the last value. *)
Example debounce_three_calls :
  let calls := [(0, HAP.LockTargetState_SECURED);
                (40, HAP.LockTargetState_UNSECURED);
                (90, HAP.LockTargetState_SECURED)] in
  let w := elapse Samples.cloudLock (fun _ => Samples.agreeing) 1000
             (run Samples.cloudLock (fun _ => Samples.agreeing) 100 calls Samples.idle) in
  List.map summary (pushes (history w))
  = [(190, HAP.LockTargetState_SECURED,
      [ControlDevice "C0FFEE00000E" "lock" "default" "command"], false)].
Proof. vm_compute. reflexivity. Qed.

(** The same calls when [platform.connectBLE] throws: the push fails, the
    error is shown, and the update is no longer in progress. *)
Example debounce_push_throws :
  let calls := [(0, HAP.LockTargetState_SECURED);
                (40, HAP.LockTargetState_UNSECURED);
                (90, HAP.LockTargetState_SECURED)] in
  let w := elapse Samples.bleLock (fun _ => Samples.throwing) 1000
             (run Samples.bleLock (fun _ => Samples.throwing) 100 calls Samples.idle) in
  List.map summary (pushes (history w))
  = [(190, HAP.LockTargetState_SECURED, [], false)]
  /\ List.map (fun r => shows "LockTargetState" (effects_in (fst r)))
       (pushes (history w))
     = [Some (VErr "adapter")]
  /\ lockUpdateInProgress (lock w) = false.
Proof. vm_compute. repeat split. Qed.

End DebounceFacts.

(** * Further properties of the handlers *)

Module RestartFacts.
Import Version Shapes ProcFacts.

Lemma replaceSuffix_plain (s : string) :
  plainVersion s = true -> replaceSuffix s = s.
Proof.
  induction s as [|c r IH]; [reflexivity |].
  cbn [plainVersion replaceSuffix]. unfold plainChar.
  rewrite !andb_true_iff, !negb_true_iff. intros [[[_ Hd] _] Hr].
  rewrite Hd. cbn [andb]. now rewrite IH.
Qed.

Lemma replaceV_plain (s : string) :
  plainVersion s = true -> replaceV s = s.
Proof.
  intros H. pose proof (replaceSuffix_plain s H) as Hs.
  destruct s as [|c r]; [reflexivity |].
  cbn [plainVersion] in H. unfold plainChar in H.
  rewrite !andb_true_iff, !negb_true_iff in H. destruct H as [[[Hv _] _] _].
  unfold replaceV.
  destruct c as [[] [] [] [] [] [] [] []]; try exact Hs. discriminate Hv.
Qed.

Lemma plain_noLT (s : string) :
  plainVersion s = true -> hasLineTerminator s = false.
Proof.
  induction s as [|c r IH]; [reflexivity |].
  cbn [plainVersion hasLineTerminator]. unfold plainChar.
  rewrite !andb_true_iff, !negb_true_iff. intros [[_ Hl] Hr].
  now rewrite Hl, IH.
Qed.

Lemma matchAny_plain (s : string) :
  plainVersion s = true -> matchAny s = list_ascii_of_string s.
Proof.
  induction s as [|c r IH]; [reflexivity |].
  cbn [plainVersion matchAny list_ascii_of_string]. unfold plainChar.
  rewrite !andb_true_iff, !negb_true_iff. intros [[_ Hl] Hr].
  now rewrite Hl, IH.
Qed.

Lemma joinDot_plain (s : string) :
  plainVersion s = true -> plainVersion (joinDot (list_ascii_of_string s)) = true.
Proof.
  induction s as [|c r IH]; [reflexivity |].
  intros H. cbn [plainVersion] in H. apply andb_true_iff in H as [Hc Hr].
  cbn [list_ascii_of_string joinDot].
  destruct r as [|c' r'].
  - cbn. now rewrite Hc.
  - change (list_ascii_of_string (String c' r'))
      with (c' :: list_ascii_of_string r') in *.
    cbn [plainVersion]. rewrite Hc. cbn [andb].
    change (plainChar ".") with true. cbn [andb]. exact (IH Hr).
Qed.

Lemma joinDot_dotted (c c' : ascii) (l : list ascii) :
  includesDot (joinDot (c :: c' :: l)) = true.
Proof. cbn [joinDot includesDot]. now rewrite orb_true_r. Qed.

Lemma deviceVersion_plain (v : string) :
  plainVersion v = true ->
  IR.deviceVersion (IR.deviceVersion v) = IR.deviceVersion v.
Proof.
  intros H.
  assert (Hv : IR.deviceVersion v
               = if includesDot v then v
                 else match list_ascii_of_string v with
                      | [] => "0.0.0"
                      | m => joinDot m
                      end).
  { unfold IR.deviceVersion.
    rewrite (replaceV_plain v H), (matchAny_plain v H).
    now destruct (includesDot v). }
  rewrite Hv. destruct (includesDot v) eqn:Hdot; [exact Hv |].
  destruct v as [|c [|c' r]].
  - reflexivity.
  - exact Hv.
  - pose proof (joinDot_plain _ H) as Hp.
    cbn [list_ascii_of_string] in *.
    unfold IR.deviceVersion. rewrite joinDot_dotted. cbn [negb].
    now apply replaceV_plain.
Qed.

Lemma getDeviceContext_run (d : IR.Device) (pv : option string) (s : IR.State) :
  let v := IR.deviceVersion
             (IR.deviceFirmwareVersion (IR.firmware d) (IR.context_version s) pv) in
  IR.getDeviceContext d pv s
  = ({| IR.On := IR.On s; IR.has := IR.has s;
        IR.context :=
          <["version" := VStr v]>
            (<["remoteType" := VStr (IR.remoteType d)]>
               (<["deviceId" := VStr (IR.deviceId d)]>
                  (<["model" := VStr (IR.remoteType d)]>
                     (<["name" := VStr (IR.deviceName d)]> (IR.context s))))) |},
     [Log debugLog "version: ${version?.replace(/^V|-.*$/g, '')}";
      UpdateCharacteristic "AccessoryInformation" "HardwareRevision" (VStr v);
      UpdateCharacteristic "AccessoryInformation" "SoftwareRevision" (VStr v);
      UpdateCharacteristic "AccessoryInformation" "FirmwareRevision" (VStr v);
      UpdateCharacteristic "AccessoryInformation" "FirmwareRevision" (VStr v);
      Log debugSuccessLog ("version: " +:+ v)]).
Proof. reflexivity. Qed.

(** X1.  The version that [getDeviceContext] caches in [accessory.context] is
    the one it shows, and a restart reads it back: for a device without a
    configured [firmware], running [getDeviceContext] again on the state it
    left shows the same version and leaves the same state, provided the
    version it started from holds no [V], no [-] and no line terminator.
    Without the proviso the version can change from one start to the next:
    ["12-0.5"] is shown as ["12"], and ["12"] as ["1.2"]. *)
Theorem firmware_version_survives_restart
    (d : IR.Device) (pv : option string) (s : IR.State) :
  IR.firmware d = None ->
  let v0 := IR.deviceFirmwareVersion None (IR.context_version s) pv in
  let first := IR.getDeviceContext d pv s in
  IR.context (fst first) !! "version" = Some (VStr (IR.deviceVersion v0))
  /\ shows "FirmwareRevision" (snd first) = Some (VStr (IR.deviceVersion v0))
  /\ (plainVersion v0 = true ->
      IR.getDeviceContext d pv (fst first) = first)
  /\ IR.deviceVersion "12-0.5" = "12" /\ IR.deviceVersion "12" = "1.2".
Proof.
  intros Hfw v0 first. subst first. rewrite getDeviceContext_run.
  rewrite Hfw. fold v0. cbn [fst snd].
  split; [apply lookup_insert_eq |]. split; [reflexivity |].
  split; [| split; reflexivity].
  intros Hplain. rewrite getDeviceContext_run. rewrite Hfw.
  unfold IR.context_version. cbn [IR.context IR.On IR.has].
  rewrite lookup_insert_eq. cbn [IR.deviceFirmwareVersion].
  rewrite (deviceVersion_plain v0 Hplain).
  f_equal. f_equal.
  apply map_eq. intros i.
  destruct (decide (i = "version")) as [->|Hv];
    [| destruct (decide (i = "remoteType")) as [->|Hr];
       [| destruct (decide (i = "deviceId")) as [->|Hi];
          [| destruct (decide (i = "model")) as [->|Hm];
             [| destruct (decide (i = "name")) as [->|Hn]]]]];
    repeat first [rewrite lookup_insert_eq
                 | rewrite lookup_insert_ne by first [congruence | discriminate]];
    reflexivity.
Qed.

Lemma firmware_version_survives_restart_witness :
  let first := IR.getDeviceContext Samples.plainRemote (Some "3.7.0") Samples.fresh in
  shows "FirmwareRevision" (snd first) = Some (VStr "3.7.0")
  /\ IR.getDeviceContext Samples.plainRemote (Some "3.7.0") (fst first) = first.
Proof.
  intros first.
  pose proof (firmware_version_survives_restart Samples.plainRemote (Some "3.7.0")
                Samples.fresh eq_refl) as (_ & H2 & H3 & _).
  split; [exact H2 | exact (H3 eq_refl)].
Defined.

Lemma beforeDash_empty (s : string) :
  beforeDash s = "" <-> s = "" \/ exists r, s = String "-" r.
Proof.
  destruct s as [|c r]; cbn [beforeDash].
  - split; auto.
  - destruct (Ascii.eqb_spec c "-") as [->|Hc].
    + split; [intros _; right; now exists r | reflexivity].
    + split; [discriminate |].
      intros [H | [r' H]]; [discriminate H |].
      injection H as H _. contradiction.
Qed.

Lemma joinDot_nonempty (c : ascii) (l : list ascii) : joinDot (c :: l) <> "".
Proof. destruct l; discriminate. Qed.

(** X2.  A version can be shown as the empty string.  [getDeviceContext]
    yields it exactly for a version that holds a [.] and of which the
    stripping leaves nothing, its ['0.0.0'] applying only to versions
    without a [.]; the firmware handling of [openAPIparseStatus], of the
    Hub 2 and of the Lock, yields it for every non-empty version of which
    the stripping leaves nothing.  Without line terminators the stripping
    leaves nothing exactly of [""], ["V"], and the versions that start
    with [-] or with [V-]. *)
Theorem version_can_be_empty :
  (forall v, IR.deviceVersion v = "" <-> includesDot v = true /\ replaceV v = "") /\
  (forall v, Hub.firmwareVersion v = Some ""
             <-> exists s, v = Some s /\ s <> "" /\ replaceV s = "") /\
  (forall v, Lock.firmwareVersion v = Some ""
             <-> exists s, v = Some s /\ s <> "" /\ replaceV s = "") /\
  (forall v, hasLineTerminator v = false ->
             (replaceV v = ""
              <-> v = "" \/ v = "V" \/ (exists r, v = String "-" r)
                  \/ exists r, v = String "V" (String "-" r))) /\
  IR.deviceVersion "-1.0" = "" /\
  Hub.firmwareVersion (Some "V-rc1") = Some "".
Proof.
  assert (Hfw : forall v,
            (if truthy_str v then Some (replaceV (show_opt v)) else None) = Some ""
            <-> exists s, v = Some s /\ s <> "" /\ replaceV s = "").
  { intros [s|]; cbn [truthy_str show_opt].
    - destruct (String.eqb_spec s "") as [->|Hs]; cbn [negb].
      + split; [discriminate |]. intros (s' & E & Hne & _).
        injection E as <-. now elim Hne.
      + split.
        * intros E. injection E as E. now exists s.
        * intros (s' & E & _ & Hr). injection E as <-. now rewrite Hr.
    - split; [discriminate |]. intros (s' & E & _). discriminate E. }
  split; [| split; [exact Hfw | split; [exact Hfw | split; [| split; reflexivity]]]].
  - intros v. unfold IR.deviceVersion.
    destruct (includesDot v); cbn [negb].
    + split; [intros H; now split | now intros [_ H]].
    + split; [| now intros [H _]].
      destruct (matchAny (replaceV v)) as [|c l]; [discriminate |].
      intros H. now apply joinDot_nonempty in H.
  - intros v Hlt.
    rewrite (VersionFacts.replaceV_strip_spec v Hlt). unfold strip_spec.
    rewrite beforeDash_empty. unfold dropLeadingV.
    destruct v as [|c r].
    + split; auto.
    + destruct (Ascii.eqb_spec c "V") as [->|Hc].
      * cbv beta iota. split.
        -- intros [-> | [r' ->]]; [right; left; reflexivity |].
           right. right. right. now exists r'.
        -- intros [H | [H | [[r' H] | [r' H]]]]; try discriminate H.
           ++ injection H as ->. now left.
           ++ injection H as ->. right. now exists r'.
      * assert (Hd : match c with
                     | "V"%char => r
                     | _ => String c r
                     end = String c r).
        { destruct c as [[] [] [] [] [] [] [] []]; try reflexivity. now elim Hc. }
        rewrite Hd. split.
        -- intros [H | [r' H]]; [discriminate H |].
           right. right. left. now exists r'.
        -- intros [H | [H | [[r' H] | [r' H]]]]; try discriminate H.
           ++ injection H as H _. now elim Hc.
           ++ right. now exists r'.
           ++ injection H as H _. now elim Hc.
Qed.

Lemma version_can_be_empty_witness :
  replaceV "-beta" = "" /\ replaceV "V1-beta" <> "".
Proof.
  pose proof version_can_be_empty as (_ & _ & _ & H & _).
  split.
  - apply (H "-beta" eq_refl). right. right. left. now exists "beta".
  - intros E. apply (H "V1-beta" eq_refl) in E.
    destruct E as [E | [E | [[r E] | [r E]]]]; discriminate E.
Defined.

End RestartFacts.
Module OthersFacts.
Import IR Shapes ProcFacts.

Lemma match_OpenAPI {A} (c : string) (a b : A) :
  c <> "OpenAPI" ->
  match c with "OpenAPI" => a | _ => b end = b.
Proof.
  intros H.
  repeat (destruct c as [|[[] [] [] [] [] [] [] []] c]; try reflexivity).
  now elim H.
Qed.

Lemma onOpenAPI_spec (c : option string) :
  onOpenAPI c = true <-> c = Some "OpenAPI".
Proof.
  destruct c as [c|]; cbn [onOpenAPI]; [| split; discriminate].
  rewrite String.eqb_eq. split; [now intros -> | now intros [= ->]].
Qed.

Ltac ir_unfold :=
  cbv beta iota zeta delta
      [seq reading emit skip modify when fst snd app
       IR.On IR.has IR.context IR.set_On IR.set_context].

Lemma update_run (d : Device) (s : State) :
  fst (updateHomeKitCharacteristics d s) = s
  /\ commands (snd (updateHomeKitCharacteristics d s)) = [].
Proof.
  destruct s as [on h ctx]. unfold updateHomeKitCharacteristics.
  ir_unfold. run_proc; split; reflexivity.
Qed.

Lemma apiError_run (d : Device) (e : string) (s : State) :
  fst (apiError d e s) = s
  /\ commands (snd (apiError d e s)) = []
  /\ forallb (is_error_of e) (updates (snd (apiError d e s))) = true.
Proof.
  destruct s as [on h ctx]. unfold apiError. ir_unfold.
  run_proc; cbn; rewrite ?String.eqb_refl; repeat split; reflexivity.
Qed.

Lemma statusCode_run (d : Device) (c : Z) :
  commands (statusCode d c) = [] /\ updates (statusCode d c) = [].
Proof.
  unfold statusCode.
  match goal with |- context [if ?b then _ else _] => destruct b end;
    split; reflexivity.
Qed.

Lemma updates_app (a b : list Effect) : updates (a ++ b) = updates a ++ updates b.
Proof. apply List.filter_app. Qed.

Lemma updates_cons (e : Effect) (es : list Effect) :
  updates (e :: es) = if is_update e then e :: updates es else updates es.
Proof. reflexivity. Qed.

Lemma pushChanges_run (d : Device) (r : Outcome (ApiBody unit)) (bc : bodyChange)
    (s : State) :
  fst (pushChanges d r bc s) = s
  /\ commands (snd (pushChanges d r bc s))
     = (if onOpenAPI (connectionType d)
        then [ControlDevice (deviceId d) (command bc) (parameter bc) (commandType_ bc)]
        else [])
  /\ (onOpenAPI (connectionType d) = false ->
      updates (snd (pushChanges d r bc s)) = [])
  /\ (onOpenAPI (connectionType d) = true ->
      match r with
      | Throws e =>
          forallb (is_error_of e) (updates (snd (pushChanges d r bc s))) = true
      | Returns ds =>
          updates (snd (pushChanges d r bc s))
          = if successfulStatusCodes (statusCode_of ds)
            then updates (snd (updateHomeKitCharacteristics d s))
            else []
      end).
Proof.
  destruct (onOpenAPI (connectionType d)) eqn:E.
  - apply onOpenAPI_spec in E. unfold pushChanges. rewrite E.
    cbv beta iota. rewrite !seq_emit. cbn [fst snd].
    rewrite !PushFacts.commands_cons. cbn [is_command].
    rewrite ?updates_cons. cbn [is_update].
    destruct r as [e | ds].
    + rewrite seq_run. cbn [emit fst snd].
      destruct (apiError_run d e s) as (Hs & Hc & Hu).
      rewrite Hs, PushFacts.commands_app, Hc, updates_app.
      cbn [commands updates List.filter is_command is_update app].
      rewrite app_nil_r.
      repeat split; try discriminate. intros _. exact Hu.
    + rewrite !seq_emit. cbn [fst snd].
      rewrite !PushFacts.commands_cons. cbn [is_command].
      rewrite ?updates_cons. cbn [is_update].
      destruct (successfulStatusCodes (statusCode_of ds)).
      * rewrite !seq_emit. cbn [fst snd].
        rewrite !PushFacts.commands_cons. cbn [is_command].
        rewrite ?updates_cons. cbn [is_update].
        destruct (update_run d s) as [Hs Hc]. rewrite Hs, Hc.
        repeat split; try discriminate.
      * cbn [fst snd]. destruct (statusCode_run d (statusCode_of ds)) as [Hc Hu].
        rewrite Hc, Hu. repeat split; try discriminate.
  - assert (Hrun : pushChanges d r bc s
                   = (s, [Log debugLog "pushChanges";
                          Log warnLog ("Connection Type: " +:+ show_opt (connectionType d)
                                       +:+ ", commands will not be sent to OpenAPI")])).
    { unfold pushChanges. destruct (connectionType d) as [c|]; [| reflexivity].
      cbn [onOpenAPI] in E. apply String.eqb_neq in E.
      rewrite (match_OpenAPI c _ _ E). reflexivity. }
    rewrite Hrun. repeat split; try discriminate.
Qed.

Lemma pushOn_run (d : Device) (r : Outcome (ApiBody unit)) (on : option bool)
    (s : State) :
  let bc := {| command := commandOn d; parameter := "default";
               commandType_ := commandType d |} in
  let sent := truthy_bool (customize d)
              && (is_true on && negb (deviceDisablePushOn d)) in
  fst (pushOnChanges d r on s) = s
  /\ commands (snd (pushOnChanges d r on s))
     = (if sent && onOpenAPI (connectionType d)
        then [ControlDevice (deviceId d) (commandOn d) "default" (commandType d)]
        else [])
  /\ updates (snd (pushOnChanges d r on s))
     = (if sent then updates (snd (pushChanges d r bc s)) else []).
Proof.
  intros bc sent. subst sent. unfold pushOnChanges. rewrite seq_emit.
  cbn [fst snd]. rewrite PushFacts.commands_cons, updates_cons.
  cbn [is_command is_update].
  destruct (truthy_bool (customize d)); cbn [andb]; [| repeat split; reflexivity].
  destruct (is_true on && negb (deviceDisablePushOn d)); cbn [andb];
    [| repeat split; reflexivity].
  fold bc. destruct (pushChanges_run d r bc s) as (Hs & Hc & _).
  rewrite Hs, Hc. repeat split.
Qed.

Lemma pushOff_run (d : Device) (r : Outcome (ApiBody unit)) (on : option bool)
    (s : State) :
  let bc := {| command := commandOff d; parameter := "default";
               commandType_ := commandType d |} in
  let sent := truthy_bool (customize d)
              && (is_false on && negb (deviceDisablePushOff d)) in
  fst (pushOffChanges d r on s) = s
  /\ commands (snd (pushOffChanges d r on s))
     = (if sent && onOpenAPI (connectionType d)
        then [ControlDevice (deviceId d) (commandOff d) "default" (commandType d)]
        else [])
  /\ updates (snd (pushOffChanges d r on s))
     = (if sent then updates (snd (pushChanges d r bc s)) else []).
Proof.
  intros bc sent. subst sent. unfold pushOffChanges. rewrite seq_emit.
  cbn [fst snd]. rewrite PushFacts.commands_cons, updates_cons.
  cbn [is_command is_update].
  destruct (truthy_bool (customize d)); cbn [andb]; [| repeat split; reflexivity].
  destruct (is_false on && negb (deviceDisablePushOff d)); cbn [andb];
    [| repeat split; reflexivity].
  fold bc. destruct (pushChanges_run d r bc s) as (Hs & Hc & _).
  rewrite Hs, Hc. repeat split.
Qed.

(** [OnSet] is the assignment of [this.On], which only logs, followed by
    the push that [this.On] selects, which keeps the state. *)
Lemma OnSet_run (d : Device) (r : Outcome (ApiBody unit)) (v : Value) (s : State) :
  exists asg : State * list Effect,
    commands (snd asg) = [] /\ updates (snd asg) = []
    /\ has (fst asg) = has s /\ context (fst asg) = context s
    /\ fst (OnSet d r v s) = fst asg
    /\ snd (OnSet d r v s)
       = snd asg
         ++ snd ((if is_true (On (fst asg))
                  then pushOnChanges d r (On (fst asg))
                  else pushOffChanges d r (On (fst asg))) (fst asg)).
Proof.
  unfold OnSet, reading. rewrite seq_run.
  match goal with |- context [fst (?a s)] => set (asg := a s) end.
  exists asg. cbv beta.
  assert (Hasg : commands (snd asg) = [] /\ updates (snd asg) = []
                 /\ has (fst asg) = has s /\ context (fst asg) = context s).
  { subst asg. destruct s as [on h ctx]. ir_unfold.
    run_proc; repeat split; reflexivity. }
  destruct Hasg as (H1 & H2 & H3 & H4).
  repeat (split; [assumption |]).
  split; [| reflexivity].
  destruct (is_true (On (fst asg))).
  - apply pushOn_run.
  - apply pushOff_run.
Qed.

Lemma OnSet_commands
    (d : Device) (r : Outcome (ApiBody unit)) (v : Value) (s : State) :
  let s' := fst (OnSet d r v s) in
  let es := snd (OnSet d r v s) in
  let allowed := truthy_bool (customize d) && onOpenAPI (connectionType d) in
  let request c := [ControlDevice (deviceId d) c "default" (commandType d)] in
  has s' = has s /\ context s' = context s
  /\ commands es
     = match On s' with
       | Some true =>
           if allowed && negb (deviceDisablePushOn d) then request (commandOn d) else []
       | Some false =>
           if allowed && negb (deviceDisablePushOff d) then request (commandOff d) else []
       | None => []
       end
  /\ (truthy_bool (customize d) = true ->
      commandType d = if truthy_str (commandTypeCfg d)
                      then show_opt (commandTypeCfg d) else "customize").
Proof.
  intros s' es allowed request. subst s' es allowed request.
  destruct (OnSet_run d r v s) as (asg & Hc & _ & Hh & Hx & Hs & He).
  rewrite Hs, He, PushFacts.commands_app, Hc. cbn [app].
  split; [exact Hh |]. split; [exact Hx |]. split.
  - destruct (On (fst asg)) as [[|]|]; cbn [is_true].
    + destruct (pushOn_run d r (Some true) (fst asg)) as (_ & -> & _).
      cbn [is_true andb].
      destruct (truthy_bool (customize d)), (deviceDisablePushOn d),
        (onOpenAPI (connectionType d)); reflexivity.
    + destruct (pushOff_run d r (Some false) (fst asg)) as (_ & -> & _).
      cbn [is_false andb].
      destruct (truthy_bool (customize d)), (deviceDisablePushOff d),
        (onOpenAPI (connectionType d)); reflexivity.
    + destruct (pushOff_run d r None (fst asg)) as (_ & -> & _).
      cbn [is_false andb]. now rewrite andb_false_r.
  - intros H. unfold commandType. rewrite H, andb_true_r. reflexivity.
Qed.

(** X3.  [Others.OnSet] sends at most one request, whatever the cloud answers:
    none unless [customize] is set and the connection type is ['OpenAPI'];
    otherwise the on command when [this.On] has become [true] and
    [disablePushOn] is off, the off command when it has become [false] and
    [disablePushOff] is off, and none while [this.On] is [undefined].  The
    request names the device, the parameter ['default'], and as its command
    type the configured one or ['customize'], the type ['command'] being
    sent only when it is configured. *)
Theorem others_sends_at_most_one_command
    (d : Device) (r : Outcome (ApiBody unit)) (v : Value) (s : State) :
  let s' := fst (OnSet d r v s) in
  let es := snd (OnSet d r v s) in
  let allowed := truthy_bool (customize d) && onOpenAPI (connectionType d) in
  let request c := [ControlDevice (deviceId d) c "default" (commandType d)] in
  has s' = has s /\ context s' = context s
  /\ commands es
     = match On s' with
       | Some true =>
           if allowed && negb (deviceDisablePushOn d) then request (commandOn d) else []
       | Some false =>
           if allowed && negb (deviceDisablePushOff d) then request (commandOff d) else []
       | None => []
       end
  /\ (truthy_bool (customize d) = true ->
      commandType d = if truthy_str (commandTypeCfg d)
                      then show_opt (commandTypeCfg d) else "customize").
Proof. exact (OnSet_commands d r v s). Qed.

Lemma others_sends_at_most_one_command_witness :
  commandType Samples.customRemote = "customize"
  /\ commands (snd (OnSet Samples.customRemote (Throws "timeout") (VBool true)
                      Samples.fresh))
     = [ControlDevice "C0FFEE000003" "power" "default" "customize"].
Proof.
  pose proof (others_sends_at_most_one_command Samples.customRemote (Throws "timeout")
                (VBool true) Samples.fresh) as (_ & _ & Hc & Ht).
  split; [exact (Ht eq_refl) | exact Hc].
Defined.

Lemma OnSet_updates
    (d : Device) (r : Outcome (ApiBody unit)) (v : Value) (s : State) :
  let s' := fst (OnSet d r v s) in
  let es := snd (OnSet d r v s) in
  (commands es = [] -> updates es = []) /\
  (commands es <> [] ->
     match r with
     | Throws e => forallb (is_error_of e) (updates es) = true
     | Returns ds =>
         updates es
         = if successfulStatusCodes (statusCode_of ds)
           then updates (snd (updateHomeKitCharacteristics d s'))
           else []
     end).
Proof.
  intros s' es. subst s' es.
  destruct (OnSet_run d r v s) as (asg & Hc & Hu & _ & _ & Hs & He).
  rewrite Hs, He, PushFacts.commands_app, updates_app, Hc, Hu. cbn [app].
  set (s1 := fst asg).
  assert (Hpush :
    forall (push : Proc State) (bc : bodyChange) (sent : bool),
      commands (snd (push s1))
      = (if sent && onOpenAPI (connectionType d)
         then [ControlDevice (deviceId d) (command bc) "default" (commandType d)]
         else []) ->
      updates (snd (push s1))
      = (if sent then updates (snd (pushChanges d r bc s1)) else []) ->
      (commands (snd (push s1)) = [] -> updates (snd (push s1)) = []) /\
      (commands (snd (push s1)) <> [] ->
         match r with
         | Throws e => forallb (is_error_of e) (updates (snd (push s1))) = true
         | Returns ds =>
             updates (snd (push s1))
             = if successfulStatusCodes (statusCode_of ds)
               then updates (snd (updateHomeKitCharacteristics d s1))
               else []
         end)).
  { intros push bc sent Hcs Hus. rewrite Hcs, Hus.
    destruct (pushChanges_run d r bc s1) as (_ & _ & Hoff & Hon).
    destruct sent; cbn [andb]; [| split; [reflexivity | intros H; now elim H]].
    destruct (onOpenAPI (connectionType d)).
    - split; [discriminate | intros _; exact (Hon eq_refl)].
    - split; [intros _; exact (Hoff eq_refl) | intros H; now elim H]. }
  destruct (is_true (On s1)).
  - destruct (pushOn_run d r (On s1) s1) as (_ & H1 & H2).
    exact (Hpush (pushOnChanges d r (On s1))
             {| command := commandOn d; parameter := "default";
                commandType_ := commandType d |} _ H1 H2).
  - destruct (pushOff_run d r (On s1) s1) as (_ & H1 & H2).
    exact (Hpush (pushOffChanges d r (On s1))
             {| command := commandOff d; parameter := "default";
                commandType_ := commandType d |} _ H1 H2).
Qed.

(** X4.  HomeKit is shown the new state of an [Others] accessory only when the
    cloud accepted the request.  When [OnSet] sends no request it updates
    no characteristic; when the request is answered with a status code
    other than 100 and 200 it updates none either; when the request throws,
    every update hands the error to HomeKit; when it is answered with 100 or
    200, the updates are those of [updateHomeKitCharacteristics]. *)
Theorem others_homekit_follows_cloud
    (d : Device) (r : Outcome (ApiBody unit)) (v : Value) (s : State) :
  let s' := fst (OnSet d r v s) in
  let es := snd (OnSet d r v s) in
  (commands es = [] -> updates es = []) /\
  (commands es <> [] ->
     match r with
     | Throws e => forallb (is_error_of e) (updates es) = true
     | Returns ds =>
         updates es
         = if successfulStatusCodes (statusCode_of ds)
           then updates (snd (updateHomeKitCharacteristics d s'))
           else []
     end).
Proof. exact (OnSet_updates d r v s). Qed.

Lemma others_homekit_follows_cloud_witness :
  updates (snd (OnSet Samples.customRemote (Returns (mkApiBody 190 tt)) (VBool true)
                  Samples.fresh)) = []
  /\ updates (snd (OnSet Samples.plainRemote (Returns (mkApiBody 100 tt)) (VBool true)
                     Samples.fresh)) = [].
Proof.
  split.
  - refine (proj2 (others_homekit_follows_cloud Samples.customRemote
                     (Returns (mkApiBody 190 tt)) (VBool true) Samples.fresh) _).
    discriminate.
  - refine (proj1 (others_homekit_follows_cloud Samples.plainRemote
                     (Returns (mkApiBody 100 tt)) (VBool true) Samples.fresh) _).
    reflexivity.
Defined.

Lemma constructor_run
    (d : Device) (displayName : string) (s0 : State) :
  let r := Others.constructor d displayName s0 in
  (forall t f svc,
     In (t, (f, svc)) Others.deviceTypes -> otherDeviceType d = t ->
     added (snd r) = [svc]
     /\ removed (snd r) ≡ₚ Others.otherServices t
     /\ ~ In svc (removed (snd r))
     /\ (exists c, bound (snd r) = [(f, c, "OnSet")])
     /\ (forall f', In f' Others.fields -> has (fst r) f' = true)
     /\ On (fst r) = On s0 /\ context (fst r) = context s0)
  /\ ((forall e, In e Others.deviceTypes -> otherDeviceType d <> fst e) ->
      fst r = s0
      /\ added (snd r) = [] /\ removed (snd r) = [] /\ bound (snd r) = []
      /\ List.filter is_error_log (effects (snd r))
         = [Log errorLog "Device Type not set"]).
Proof.
  intros r. subst r. split.
  - intros t f svc Hin Ht. unfold Others.constructor. rewrite Ht.
    cbn [In Others.deviceTypes] in Hin.
    repeat (destruct Hin as [E | Hin]; [injection E as <- <- <- |]);
      [.. | contradiction];
      (split; [reflexivity |]);
      (split; [eapply bool_decide_unpack; vm_compute; exact I |]);
      (split; [cbn; intuition discriminate |]);
      (split; [eexists; reflexivity |]);
      (split; [| split; reflexivity]);
      intros f' Hf'; cbn in Hf';
      repeat (destruct Hf' as [<- | Hf']; [reflexivity |]); contradiction.
  - intros Hno.
    assert (Hne : forall t f svc, In (t, (f, svc)) Others.deviceTypes ->
                                  String.eqb (otherDeviceType d) t = false).
    { intros t f svc Hin. apply String.eqb_neq. exact (Hno _ Hin). }
    unfold Others.constructor.
    rewrite (Hne "Switch" "Switch" "Switch") by (cbn; tauto).
    rewrite (Hne "GarageDoor" "GarageDoor" "GarageDoorOpener") by (cbn; tauto).
    rewrite (Hne "Door" "Door" "Door") by (cbn; tauto).
    rewrite (Hne "Window" "Window" "Window") by (cbn; tauto).
    rewrite (Hne "WindowCovering" "WindowCovering" "WindowCovering") by (cbn; tauto).
    rewrite (Hne "Lock" "LockMechanism" "LockMechanism") by (cbn; tauto).
    rewrite (Hne "Faucet" "Faucet" "Faucet") by (cbn; tauto).
    rewrite (Hne "Fan" "Fan" "Fanv2") by (cbn; tauto).
    rewrite (Hne "Stateful" "StatefulProgrammableSwitch" "StatefulProgrammableSwitch")
      by (cbn; tauto).
    rewrite (Hne "Outlet" "Outlet" "Outlet") by (cbn; tauto).
    repeat split.
Qed.

(** The objects that the constructor stores in [accessory.context]. *)
Lemma constructor_stored
    (d : Device) (displayName : string) (s0 : State) :
  let r := Others.constructor d displayName s0 in
  (forall t f svc,
     In (t, (f, svc)) Others.deviceTypes -> otherDeviceType d = t ->
     stored (snd r) ≡ₚ Others.fields)
  /\ ((forall e, In e Others.deviceTypes -> otherDeviceType d <> fst e) ->
      stored (snd r) = []).
Proof.
  intros r. subst r. split.
  - intros t f svc Hin Ht. unfold Others.constructor. rewrite Ht.
    cbn [In Others.deviceTypes] in Hin.
    repeat (destruct Hin as [E | Hin]; [injection E as <- <- <- |]);
      [.. | contradiction];
      eapply bool_decide_unpack; vm_compute; exact I.
  - intros Hno.
    assert (Hne : forall t f svc, In (t, (f, svc)) Others.deviceTypes ->
                                  String.eqb (otherDeviceType d) t = false).
    { intros t f svc Hin. apply String.eqb_neq. exact (Hno _ Hin). }
    unfold Others.constructor.
    rewrite (Hne "Switch" "Switch" "Switch") by (cbn; tauto).
    rewrite (Hne "GarageDoor" "GarageDoor" "GarageDoorOpener") by (cbn; tauto).
    rewrite (Hne "Door" "Door" "Door") by (cbn; tauto).
    rewrite (Hne "Window" "Window" "Window") by (cbn; tauto).
    rewrite (Hne "WindowCovering" "WindowCovering" "WindowCovering") by (cbn; tauto).
    rewrite (Hne "Lock" "LockMechanism" "LockMechanism") by (cbn; tauto).
    rewrite (Hne "Faucet" "Faucet" "Faucet") by (cbn; tauto).
    rewrite (Hne "Fan" "Fan" "Fanv2") by (cbn; tauto).
    rewrite (Hne "Stateful" "StatefulProgrammableSwitch" "StatefulProgrammableSwitch")
      by (cbn; tauto).
    rewrite (Hne "Outlet" "Outlet" "Outlet") by (cbn; tauto).
    reflexivity.
Qed.

(** X5.  The constructor of [Others], for each of the ten device types it
    knows: it gets or adds the service of that type and no other, binds
    [OnSet] to one characteristic of it, and removes the services of the
    nine other types, each once and never its own.  Since each removal
    assigns the field of the service it removes and stores the object of
    the field in [accessory.context], all ten service fields are set
    afterwards and each of them has been stored in [accessory.context],
    once; [this.On] is still what it was.  For any other type it logs an
    error and sets up nothing: the object and the entries of
    [accessory.context] are as they were. *)
Theorem others_constructor_services
    (d : Device) (displayName : string) (s0 : State) :
  let r := Others.constructor d displayName s0 in
  (forall t f svc,
     In (t, (f, svc)) Others.deviceTypes -> otherDeviceType d = t ->
     added (snd r) = [svc]
     /\ removed (snd r) ≡ₚ Others.otherServices t
     /\ ~ In svc (removed (snd r))
     /\ (exists c, bound (snd r) = [(f, c, "OnSet")])
     /\ (forall f', In f' Others.fields -> has (fst r) f' = true)
     /\ stored (snd r) ≡ₚ Others.fields
     /\ On (fst r) = On s0)
  /\ ((forall e, In e Others.deviceTypes -> otherDeviceType d <> fst e) ->
      fst r = s0
      /\ added (snd r) = [] /\ removed (snd r) = [] /\ bound (snd r) = []
      /\ stored (snd r) = []
      /\ List.filter is_error_log (effects (snd r))
         = [Log errorLog "Device Type not set"]).
Proof.
  intros r. subst r.
  destruct (constructor_run d displayName s0) as [Hknown Hnot].
  destruct (constructor_stored d displayName s0) as [Sknown Snot].
  split.
  - intros t f svc Hin Ht.
    destruct (Hknown t f svc Hin Ht) as (H1 & H2 & H3 & H4 & H5 & H6 & _).
    repeat split; try assumption. exact (Sknown t f svc Hin Ht).
  - intros Hno. destruct (Hnot Hno) as (H1 & H2 & H3 & H4 & H5).
    repeat split; try assumption. exact (Snot Hno).
Qed.

Lemma others_constructor_services_witness :
  removed (snd (Others.constructor Samples.plainRemote "Amp" Samples.fresh))
  ≡ₚ ["GarageDoorOpener"; "Door"; "Window"; "WindowCovering"; "LockMechanism";
      "Faucet"; "Fanv2"; "StatefulProgrammableSwitch"; "Outlet"]
  /\ added (snd (Others.constructor Samples.plainRemote "Amp" Samples.fresh))
     = ["Switch"].
Proof.
  pose proof (proj1 (others_constructor_services Samples.plainRemote "Amp" Samples.fresh)
                "Switch" "Switch" "Switch" (or_introl eq_refl) eq_refl)
    as (Ha & Hr & _).
  split; [exact Hr | exact Ha].
Defined.

Lemma written_updates (c : string) (es : list Effect) :
  written c (updates es) = written c es.
Proof.
  induction es as [|e es IH]; [reflexivity |].
  destruct e; rewrite updates_cons; cbn [is_update written]; try exact IH.
  now rewrite IH.
Qed.

Lemma push_keeps (d : Device) (r : Outcome (ApiBody unit)) (s : State) :
  fst ((if is_true (On s) then pushOnChanges d r (On s)
        else pushOffChanges d r (On s)) s) = s.
Proof. destruct (is_true (On s)); [apply pushOn_run | apply pushOff_run]. Qed.

Lemma OnSet_assigns (d : Device) (r : Outcome (ApiBody unit)) (v : Value)
    (s : State) (tg : Target) :
  In tg targets -> otherDeviceType d = deviceType tg ->
  has s (field tg) = true ->
  On (fst (OnSet d r v s)) = Some (negb (strict_eq v (offValue tg))).
Proof.
  intros Hin Ht Hh. unfold OnSet, reading. rewrite seq_fst. cbv beta.
  rewrite push_keeps. rewrite Ht. destruct s as [on h ctx]. cbn [has] in Hh.
  cbn [In targets] in Hin.
  repeat (destruct Hin as [<- | Hin];
          [cbn [deviceType field offValue] in *; cbn [String.eqb Ascii.eqb Bool.eqb];
           ir_unfold; rewrite Hh; reflexivity |]).
  contradiction.
Qed.

Lemma update_writes (d : Device) (s : State) (tg : Target) (b : bool) :
  In tg targets -> otherDeviceType d = deviceType tg ->
  has s (field tg) = true -> On s = Some b ->
  shows (characteristic tg) (snd (updateHomeKitCharacteristics d s))
  = Some (if b then onValue tg else offValue tg).
Proof.
  intros Hin Ht Hh Hon. unfold updateHomeKitCharacteristics, reading.
  rewrite Ht, Hon. destruct s as [on h ctx]. cbn [has] in *.
  cbn [In targets] in Hin.
  repeat (destruct Hin as [<- | Hin];
          [cbn [deviceType field offValue onValue characteristic] in *;
           cbn [String.eqb Ascii.eqb Bool.eqb andb orb]; rewrite Hh;
           destruct b; reflexivity |]).
  contradiction.
Qed.

Lemma constructor_target (d : Device) (displayName : string) (s0 : State)
    (tg : Target) :
  In tg targets -> otherDeviceType d = deviceType tg ->
  bound (snd (Others.constructor d displayName s0))
  = [(field tg, characteristic tg, "OnSet")]
  /\ has (fst (Others.constructor d displayName s0)) (field tg) = true.
Proof.
  intros Hin Ht. unfold Others.constructor. rewrite Ht.
  cbn [In targets] in Hin.
  repeat (destruct Hin as [<- | Hin]; [split; reflexivity |]).
  contradiction.
Qed.

(** X6.  What is set in HomeKit is what HomeKit is shown, for the nine device
    types of [Others] other than [Fan]: on the accessory that the
    constructor leaves, [OnSet] with the off value or the on value of the
    characteristic it is bound to sends the off or the on command, and when
    the cloud accepts the request that characteristic is written last with
    the value that was set. *)
Theorem others_shows_what_was_set
    (d : Device) (displayName : string) (s0 : State) (ds : ApiBody unit)
    (tg : Target) (v : Value) :
  In tg targets -> otherDeviceType d = deviceType tg ->
  truthy_bool (customize d) = true -> onOpenAPI (connectionType d) = true ->
  deviceDisablePushOn d = false -> deviceDisablePushOff d = false ->
  successfulStatusCodes (statusCode_of ds) = true ->
  v = offValue tg \/ v = onValue tg ->
  let built := Others.constructor d displayName s0 in
  let es := snd (OnSet d (Returns ds) v (fst built)) in
  bound (snd built) = [(field tg, characteristic tg, "OnSet")]
  /\ commands es
     = [ControlDevice (deviceId d)
          (if strict_eq v (offValue tg) then commandOff d else commandOn d)
          "default" (commandType d)]
  /\ shows (characteristic tg) es = Some v.
Proof.
  intros Hin Ht Hcust Hconn Hon Hoff Hok Hv built es. subst built es.
  destruct (constructor_target d displayName s0 tg Hin Ht) as [Hb Hh].
  set (s := fst (Others.constructor d displayName s0)) in *.
  pose proof (OnSet_assigns d (Returns ds) v s tg Hin Ht Hh) as Hassign.
  destruct (OnSet_commands d (Returns ds) v s) as (Hhas & _ & Hc & _).
  assert (Hflip : negb (strict_eq v (offValue tg))
                  = if strict_eq v (offValue tg) then false else true)
    by now destruct (strict_eq v (offValue tg)).
  assert (Hval : (if strict_eq v (offValue tg) then offValue tg else onValue tg) = v).
  { cbn [In targets] in Hin.
    repeat (destruct Hin as [<- | Hin];
            [destruct Hv as [-> | ->]; reflexivity |]).
    contradiction. }
  split; [exact Hb |]. split.
  - rewrite Hc, Hassign, Hcust, Hconn, Hon, Hoff.
    now destruct (strict_eq v (offValue tg)).
  - assert (Hsent : commands (snd (OnSet d (Returns ds) v s)) <> []).
    { rewrite Hc, Hassign, Hcust, Hconn, Hon, Hoff.
      now destruct (strict_eq v (offValue tg)). }
    pose proof (proj2 (OnSet_updates d (Returns ds) v s) Hsent) as Hu.
    cbv beta iota in Hu. rewrite Hok in Hu.
    unfold shows. rewrite <- written_updates, Hu, written_updates.
    fold (shows (characteristic tg)
            (snd (updateHomeKitCharacteristics d (fst (OnSet d (Returns ds) v s))))).
    rewrite (update_writes d _ tg (negb (strict_eq v (offValue tg))) Hin Ht);
      [| now rewrite Hhas | exact Hassign].
    rewrite Hflip. destruct (strict_eq v (offValue tg)); now rewrite <- Hval.
Qed.

Lemma others_shows_what_was_set_witness :
  let door := {| deviceId := "C0FFEE000004"; deviceName := "Gate"; remoteType := "Others";
                 hubDeviceId := Some "F00D00000001"; connectionType := Some "OpenAPI";
                 customize := Some true; commandTypeCfg := None;
                 customOn := Some "open"; customOff := Some "close";
                 disablePushOn := None; disablePushOff := None;
                 firmware := None; otherType := Some "GarageDoor" |} in
  let s := fst (Others.constructor door "Gate" Samples.fresh) in
  let es := snd (OnSet door (Returns (mkApiBody 100 tt)) HAP.TargetDoorState_CLOSED s) in
  commands es = [ControlDevice "C0FFEE000004" "close" "default" "customize"]
  /\ shows "TargetDoorState" es = Some HAP.TargetDoorState_CLOSED.
Proof.
  intros door s es.
  pose proof (others_shows_what_was_set door "Gate" Samples.fresh (mkApiBody 100 tt)
                (mkTarget "GarageDoor" "GarageDoor" "TargetDoorState"
                   HAP.TargetDoorState_CLOSED HAP.TargetDoorState_OPEN)
                HAP.TargetDoorState_CLOSED)
    as H.
  destruct H as (_ & Hc & Hs); try reflexivity.
  - cbn. tauto.
  - now left.
  - split; [exact Hc | exact Hs].
Defined.

(** X7.  An [Others] accessory of type [Fan] cannot be switched off from
    HomeKit.  The constructor binds [OnSet] to the [Active] characteristic,
    whose values are numbers; [OnSet] has no branch for [Fan], so the value
    is compared with [false] in the branch of [Outlet], whose field the
    constructor has set; every number differs from [false], so [this.On]
    becomes [true] and the on command is the one that is sent, for
    [INACTIVE] as for [ACTIVE]; when the cloud accepts it, [Active] is
    shown as [ACTIVE]. *)
Theorem others_fan_is_never_switched_off
    (d : Device) (displayName : string) (s0 : State)
    (r : Outcome (ApiBody unit)) (q : Q) :
  otherDeviceType d = "Fan" ->
  let built := Others.constructor d displayName s0 in
  let s' := fst (OnSet d r (VNum q) (fst built)) in
  let es := snd (OnSet d r (VNum q) (fst built)) in
  bound (snd built) = [("Fan", "Active", "OnSet")]
  /\ On s' = Some true
  /\ commands es
     = (if truthy_bool (customize d) && onOpenAPI (connectionType d)
           && negb (deviceDisablePushOn d)
        then [ControlDevice (deviceId d) (commandOn d) "default" (commandType d)]
        else [])
  /\ (forall ds, r = Returns ds -> successfulStatusCodes (statusCode_of ds) = true ->
      commands es <> [] -> shows "Active" es = Some HAP.Active_ACTIVE).
Proof.
  intros Ht built s' es. subst built s' es.
  assert (Hb : bound (snd (Others.constructor d displayName s0))
               = [("Fan", "Active", "OnSet")]
               /\ has (fst (Others.constructor d displayName s0)) "Outlet" = true
               /\ has (fst (Others.constructor d displayName s0)) "Fan" = true).
  { unfold Others.constructor. rewrite Ht. repeat split. }
  destruct Hb as (Hb & Hout & Hfan).
  set (s := fst (Others.constructor d displayName s0)) in *.
  assert (Hassign : On (fst (OnSet d r (VNum q) s)) = Some true).
  { unfold OnSet, reading. rewrite seq_fst. cbv beta. rewrite push_keeps, Ht.
    destruct s as [on h ctx]. cbn [has] in Hout.
    cbn [String.eqb Ascii.eqb Bool.eqb]. ir_unfold. rewrite Hout. reflexivity. }
  destruct (OnSet_commands d r (VNum q) s) as (Hhas & _ & Hc & _).
  split; [exact Hb |]. split; [exact Hassign |]. split.
  - rewrite Hc, Hassign. reflexivity.
  - intros ds -> Hok Hsent.
    pose proof (proj2 (OnSet_updates d (Returns ds) (VNum q) s) Hsent) as Hu.
    cbv beta iota in Hu. rewrite Hok in Hu.
    unfold shows. rewrite <- written_updates, Hu, written_updates.
    unfold updateHomeKitCharacteristics, reading. rewrite Ht, Hassign, Hhas, Hfan.
    reflexivity.
Qed.

Lemma others_fan_is_never_switched_off_witness :
  let fan := {| deviceId := "C0FFEE000005"; deviceName := "Fan"; remoteType := "Others";
                hubDeviceId := Some "F00D00000001"; connectionType := Some "OpenAPI";
                customize := Some true; commandTypeCfg := None;
                customOn := None; customOff := None;
                disablePushOn := None; disablePushOff := None;
                firmware := None; otherType := Some "Fan" |} in
  let s := fst (Others.constructor fan "Fan" Samples.fresh) in
  commands (snd (OnSet fan (Returns (mkApiBody 100 tt)) HAP.Active_INACTIVE s))
  = [ControlDevice "C0FFEE000005" "turnOn" "default" "customize"].
Proof.
  intros fan s.
  exact (proj1 (proj2 (proj2
           (others_fan_is_never_switched_off fan "Fan" Samples.fresh
              (Returns (mkApiBody 100 tt)) 0%Q eq_refl)))).
Defined.

End OthersFacts.
Module LoggingFacts.
Import IR IRBase ProcFacts.

Lemma enabling_spec (l : string) :
  enablingDeviceLogging l = true <-> l = "debugMode" \/ l = "debug" \/ l = "standard".
Proof.
  unfold enablingDeviceLogging. rewrite !orb_true_iff, !String.eqb_eq. tauto.
Qed.

Lemma printed_app (l rt dn : string) (a b : list Effect) :
  printed l rt dn (a ++ b) = printed l rt dn a ++ printed l rt dn b.
Proof. apply List.flat_map_app. Qed.

(** X8.  A logging level other than ['debugMode'], ['debug'] and ['standard']
    silences an infrared accessory altogether: no call of a logging method
    reaches the logger, those of [errorLog] included.  [getDeviceLogSettings]
    lets such a level through: unless the platform is in debug mode, the
    configured [device.logging] is taken as it is, the empty string too,
    which [??] keeps, and the level of the platform is then not consulted.
    In debug mode every call of a logging method reaches the logger, once. *)
Theorem unknown_logging_level_hides_errors
    (c : LogConfig) (remoteType displayName : string) :
  (forall l es,
     debugMode c = false -> logging c = Some l ->
     l <> "debugMode" -> l <> "debug" -> l <> "standard" ->
     deviceLogging c = l
     /\ printed (deviceLogging c) remoteType displayName es = [])
  /\ (forall m msg,
        debugMode c = true ->
        deviceLogging c = "debugMode"
        /\ length (log (deviceLogging c) remoteType displayName m msg) = 1%nat)
  /\ (debugMode c = false -> logging c = None -> platformLogging c = None ->
      deviceLogging c = "standard")
  /\ (forall s, context (fst (getDeviceLogSettings c s)) !! "deviceLogging"
                = Some (VStr (deviceLogging c))).
Proof.
  split; [| split; [| split]].
  - intros l es Hd Hl H1 H2 H3. unfold deviceLogging. rewrite Hd, Hl.
    cbn [orElse]. split; [reflexivity |].
    assert (He : enablingDeviceLogging l = false).
    { destruct (enablingDeviceLogging l) eqn:E; [| reflexivity].
      apply enabling_spec in E. tauto. }
    induction es as [|e es IH]; [reflexivity |].
    cbn [printed List.flat_map]. fold (printed l remoteType displayName es).
    rewrite IH, app_nil_r. destruct e; try reflexivity.
    unfold log. now rewrite He.
  - intros m msg Hd. unfold deviceLogging. rewrite Hd.
    split; [reflexivity |]. destruct m; reflexivity.
  - intros Hd Hl Hp. unfold deviceLogging. now rewrite Hd, Hl, Hp.
  - intros s. unfold getDeviceLogSettings. rewrite seq_fst.
    cbn [modify emit fst set_context context]. apply lookup_insert_eq.
Qed.

Lemma unknown_logging_level_hides_errors_witness :
  let c := {| debugMode := false; logging := Some ""; platformLogging := Some "debug" |} in
  printed (deviceLogging c) "Others" "Amp"
    (snd (pushOffChanges Samples.plainRemote (Returns (mkApiBody 100 tt)) (Some false)
            Samples.fresh))
  = [].
Proof.
  intros c.
  refine (proj2 (proj1 (unknown_logging_level_hides_errors c "Others" "Amp")
                   "" _ eq_refl eq_refl _ _ _)); discriminate.
Defined.

(** X9.  Under ['standard'] logging the classifier of status codes reaches the
    logger at most once: not at all for the codes 100 and 200, nor for the
    note that 171 was rewritten to 161, once at the error level with the
    message of the table for a code that the table knows, and once at the
    info level for a code that it does not know. *)
Theorem standard_logging_of_status_codes
    (d : Device) (code : Z) (remoteType displayName : string) :
  let c := rewriteCode d code in
  let tag := remoteType +:+ ": " +:+ displayName in
  let text := logMessage d c +:+ ", statusCode: " +:+ show_Z c in
  printed "standard" remoteType displayName (statusCode d code)
  = match logMethod d c with
    | errorLog => [mkLine LError tag text]
    | infoLog => [mkLine LInfo tag text]
    | _ => []
    end
  /\ (logMethod d c = debugLog <-> c = 100 \/ c = 200)
  /\ (logMethod d c = errorLog \/ logMethod d c = infoLog \/ logMethod d c = debugLog).
Proof.
  intros c tag text. subst c tag text. split; [| split].
  - unfold statusCode. rewrite printed_app.
    assert (Hn : forall (b : bool) (msg : string),
              printed "standard" remoteType displayName
                (if b then [Log debugErrorLog msg] else []) = []).
    { intros [] msg; reflexivity. }
    rewrite Hn. cbn [app].
    unfold logMethod.
    destruct ((rewriteCode d code =? 100) || (rewriteCode d code =? 200));
      [reflexivity |].
    destruct (truthy_str (lookupCode (statusMessages d) (rewriteCode d code)));
      reflexivity.
  - unfold logMethod. rewrite <- !Z.eqb_eq, <- orb_true_iff.
    destruct ((rewriteCode d code =? 100) || (rewriteCode d code =? 200)).
    + tauto.
    + destruct (truthy_str (lookupCode (statusMessages d) (rewriteCode d code)));
        split; discriminate.
  - unfold logMethod.
    destruct ((rewriteCode d code =? 100) || (rewriteCode d code =? 200));
      [tauto |].
    destruct (truthy_str (lookupCode (statusMessages d) (rewriteCode d code)));
      tauto.
Qed.

(** X10.  [updateCharacteristic] of [irdeviceBase] writes a defined value to
    HomeKit and caches it in [accessory.context] under the name of the
    characteristic, leaving the other entries as they are; doing it again
    with the same value leaves the same state.  An undefined value is
    logged and neither written nor cached. *)
Theorem ir_updateCharacteristic_caches
    (service name : string) (s : State) :
  updateCharacteristic service name None s
  = (s, [Log debugLog (name +:+ ": undefined")])
  /\ forall x,
       let r := updateCharacteristic service name (Some x) s in
       Shapes.updates (snd r) = [UpdateCharacteristic service name x]
       /\ shows name (snd r) = Some x
       /\ context (fst r) !! name = Some x
       /\ (forall k, k <> name -> context (fst r) !! k = context s !! k)
       /\ On (fst r) = On s /\ has (fst r) = has s
       /\ updateCharacteristic service name (Some x) (fst r) = r.
Proof.
  split; [reflexivity |]. intros x r. subst r.
  assert (Hrun : forall s1,
            updateCharacteristic service name (Some x) s1
            = (set_context name x s1,
               [UpdateCharacteristic service name x;
                Log debugLog ("updateCharacteristic " +:+ name +:+ ": ${CharacteristicValue}");
                Log debugWarnLog (name +:+ " context before: ${this.accessory.context[CharacteristicName]}");
                Log debugWarnLog (name +:+ " context after: ${this.accessory.context[CharacteristicName]}")]))
    by reflexivity.
  rewrite !Hrun. cbn [fst snd].
  split; [reflexivity |]. split.
  { unfold shows. cbn [written]. now rewrite String.eqb_refl. }
  split; [apply lookup_insert_eq |].
  split; [intros k Hk; now apply lookup_insert_ne |].
  split; [reflexivity |]. split; [reflexivity |].
  f_equal. unfold set_context. cbn [On has context]. f_equal.
  apply insert_insert_eq.
Qed.

Lemma ir_updateCharacteristic_caches_witness :
  context (fst (updateCharacteristic "Switch" "On" (Some (VBool true)) Samples.fresh))
    !! "version"
  = context Samples.fresh !! "version".
Proof.
  refine (proj1 (proj2 (proj2 (proj2
            (proj2 (ir_updateCharacteristic_caches "Switch" "On" Samples.fresh)
               (VBool true)))))
            "version" _).
  discriminate.
Defined.

(** X11.  The accessory information that the constructor of [irdeviceBase]
    writes after [getDeviceContext]: the model is the remote type of the
    device, which [getDeviceContext] has just cached, so that the fallback
    ['Unknown'] is never shown; the serial number is the device id. *)
Theorem ir_accessory_model_is_remote_type
    (d : Device) (platformVersion : option string) (displayName : string)
    (s : State) :
  let es := snd (seq (getDeviceContext d platformVersion)
                   (accessoryInformation d displayName) s) in
  shows "Model" es = Some (VStr (IR.remoteType d))
  /\ shows "SerialNumber" es = Some (VStr (deviceId d))
  /\ shows "Manufacturer" es = Some (VStr "SwitchBot")
  /\ shows "Name" es = Some (VStr displayName).
Proof.
  intros es. subst es. rewrite seq_snd.
  rewrite RestartFacts.getDeviceContext_run. cbn [fst snd].
  unfold accessoryInformation, reading. cbn [context].
  rewrite lookup_insert_ne by discriminate.
  rewrite lookup_insert_ne by discriminate.
  rewrite lookup_insert_ne by discriminate.
  rewrite lookup_insert_eq.
  repeat split.
Qed.

End LoggingFacts.
Module FrameFacts.
Import Frame ProcFacts.

Section Keeps.
Context {S A : Type} (obs : S -> A) (allowed : Effect -> bool).

Lemma keeps_skip : keeps obs allowed skip.
Proof. intros s. split; reflexivity. Qed.

Lemma keeps_emit (e : Effect) : allowed e = true -> keeps obs allowed (emit e).
Proof. intros H s. split; [reflexivity |]. cbn. now rewrite H. Qed.

Lemma keeps_modify (f : S -> S) :
  (forall s, obs (f s) = obs s) -> keeps obs allowed (modify f).
Proof. intros H s. split; [apply H | reflexivity]. Qed.

Lemma keeps_seq (p q : Proc S) :
  keeps obs allowed p -> keeps obs allowed q -> keeps obs allowed (seq p q).
Proof.
  intros Hp Hq s. rewrite seq_fst, seq_snd, forallb_app.
  destruct (Hp s) as [H1 H2]. destruct (Hq (fst (p s))) as [H3 H4].
  split; [now rewrite H3 | now rewrite H2, H4].
Qed.

Lemma keeps_reading {B} (f : S -> B) (k : B -> Proc S) :
  (forall b, keeps obs allowed (k b)) -> keeps obs allowed (reading f k).
Proof. intros H s. apply H. Qed.

Lemma keeps_when (b : bool) (p : Proc S) :
  (b = true -> keeps obs allowed p) -> keeps obs allowed (when b p).
Proof. destruct b; intros H; [now apply H | apply keeps_skip]. Qed.

Lemma keeps_if (b : bool) (p q : Proc S) :
  keeps obs allowed p -> keeps obs allowed q ->
  keeps obs allowed (if b then p else q).
Proof. now destruct b. Qed.

Lemma keeps_effects (es : list Effect) :
  forallb allowed es = true -> keeps obs allowed (fun s => (s, es)).
Proof. intros H s. now split. Qed.

End Keeps.

Lemma unwritten (name : string) (es : list Effect) :
  forallb (fun e => negb (writes name e)) es = true -> written name es = [].
Proof.
  induction es as [|e es IH]; [reflexivity |].
  cbn [forallb]. rewrite andb_true_iff. intros [He Hes].
  destruct e; cbn [written]; try exact (IH Hes).
  cbn [writes] in He. apply negb_true_iff in He. rewrite He. exact (IH Hes).
Qed.

Lemma nothing_of (f : Effect -> bool) (es : list Effect) :
  forallb (fun e => negb (f e)) es = true -> List.filter f es = [].
Proof.
  induction es as [|e es IH]; [reflexivity |].
  cbn [forallb List.filter]. rewrite andb_true_iff, negb_true_iff.
  intros [-> Hes]. exact (IH Hes).
Qed.

Lemma keeps_nothing {S} (f : Effect -> bool) (p : Proc S) (s : S) :
  keeps (fun _ : S => tt) (fun e => negb (f e)) p ->
  List.filter f (snd (p s)) = [].
Proof. intros K. apply nothing_of. exact (proj2 (K s)). Qed.

Section Maintains.
Context {S : Type} (I : S -> Prop).

Lemma maintains_skip : maintains I skip.
Proof. intros s H. exact H. Qed.

Lemma maintains_emit (e : Effect) : maintains I (emit e).
Proof. intros s H. exact H. Qed.

Lemma maintains_modify (f : S -> S) :
  (forall s, I s -> I (f s)) -> maintains I (modify f).
Proof. intros H s. apply H. Qed.

Lemma maintains_seq (p q : Proc S) :
  maintains I p -> maintains I q -> maintains I (seq p q).
Proof. intros Hp Hq s H. rewrite seq_fst. apply Hq, Hp, H. Qed.

Lemma maintains_reading {B} (f : S -> B) (k : B -> Proc S) :
  (forall b, maintains I (k b)) -> maintains I (reading f k).
Proof. intros H s. apply H. Qed.

Lemma maintains_when (b : bool) (p : Proc S) :
  maintains I p -> maintains I (when b p).
Proof. destruct b; intros H; [exact H | apply maintains_skip]. Qed.

Lemma maintains_if (b : bool) (p q : Proc S) :
  maintains I p -> maintains I q -> maintains I (if b then p else q).
Proof. now destruct b. Qed.

Lemma maintains_effects (es : list Effect) : maintains I (fun s => (s, es)).
Proof. intros s H. exact H. Qed.

(** Two assignments with a log between them, which establish the
    invariant together. *)
Lemma maintains_pair (f g : S -> S) (e : Effect) (q : Proc S) :
  (forall s, I (g (f s))) -> maintains I q ->
  maintains I (seq (modify f) (seq (emit e) (seq (modify g) q))).
Proof.
  intros H Hq s _. rewrite !seq_fst. cbn [modify emit fst]. apply Hq, H.
Qed.

End Maintains.

Ltac proc_maintains tac :=
  repeat first
    [ tac
    | apply maintains_seq
    | apply maintains_skip
    | apply maintains_emit
    | apply maintains_reading; intros ?; cbv beta
    | apply maintains_when
    | apply maintains_if
    | apply maintains_effects
    | apply maintains_modify; let H := fresh "H" in intros [] H; exact H
    | match goal with
      | |- maintains _ (Base.updateCharacteristic _ _ _ ?v) =>
          unfold Base.updateCharacteristic; destruct v
      | |- maintains _ (match ?x with _ => _ end) => destruct x
      end ].

(** Proves that a handler keeps an observation, by the structure of the
    handler; [tac] closes the branches of a [when] that cannot be taken. *)
Ltac proc_keeps tac :=
  repeat first
    [ apply keeps_seq
    | apply keeps_skip
    | apply keeps_emit; reflexivity
    | apply keeps_reading; intros ?; cbv beta
    | apply keeps_when; let Hw := fresh "Hw" in intros Hw; try (exfalso; tac Hw)
    | apply keeps_if
    | apply keeps_modify; intros []; cbn;
      rewrite ?lookup_insert_ne by discriminate; reflexivity
    | apply keeps_effects; unfold Lock.statusCode, IR.statusCode;
      match goal with |- context [if ?b then _ else _] => destruct b end;
      reflexivity
    | match goal with
      | |- keeps _ _ (Base.updateCharacteristic _ _ _ ?v) =>
          unfold Base.updateCharacteristic; destruct v
      | |- keeps _ _ (match ?x with _ => _ end) => destruct x
      end ].

End FrameFacts.

Module HubFacts.
Import Frame FrameFacts ProcFacts Base.

(** Proves that a handler of the Hub 2 keeps an observation, [Hh] being
    the fact that the sensor in question is hidden. *)
Ltac hub_keeps Hh :=
  repeat first
    [ apply keeps_seq
    | apply keeps_skip
    | apply keeps_emit; reflexivity
    | apply keeps_reading; intros ?
    | apply keeps_when;
      let Hw := fresh in
      intros Hw;
      try (exfalso; unfold Hub.shown in Hw; rewrite Hh in Hw; discriminate Hw)
    | apply keeps_if
    | apply keeps_modify; intros []; cbn;
      rewrite ?lookup_insert_ne by discriminate; reflexivity
    | match goal with
      | |- keeps _ _ (Base.updateCharacteristic _ _ _ ?v) =>
          unfold Base.updateCharacteristic; destruct v
      | |- keeps _ _ (match ?x with _ => _ end) => destruct x
      end ].

Ltac hub_handlers Hh :=
  unfold Hub.refreshStatus, Hub.bleEventHandler, Hub.webhookEventHandler,
    Hub.BLERefreshStatus, Hub.BLERefreshConnection, Hub.openAPIRefreshStatus,
    Hub.BLEparseStatus, Hub.openAPIparseStatus, Hub.parseStatusWebhook,
    Hub.openAPIparseFirmware, Hub.updateHomeKitCharacteristics,
    Hub.offlineOff, Hub.apiError;
  hub_keeps Hh.

Section Hidden.
Variables (u : Utils) (d : Hub.Device) (p : Proc Hub.State).
Hypothesis Hp : Inbound.hub u d p.

Lemma hidden_temperature :
  truthy_bool (Hub.hide_temperature d) = true ->
  keeps (fun s => (Hub.TemperatureSensor s, Hub.context s !! "CurrentTemperature"))
        (fun e => negb (writes "CurrentTemperature" e)) p.
Proof. intros Hh. destruct Hp; hub_handlers Hh. Qed.

Lemma hidden_humidity :
  truthy_bool (Hub.hide_humidity d) = true ->
  keeps (fun s => (Hub.HumiditySensor s, Hub.context s !! "CurrentRelativeHumidity"))
        (fun e => negb (writes "CurrentRelativeHumidity" e)) p.
Proof. intros Hh. destruct Hp; hub_handlers Hh. Qed.

Lemma hidden_light :
  truthy_bool (Hub.hide_lightsensor d) = true ->
  keeps (fun s => (Hub.LightSensor s, Hub.context s !! "CurrentAmbientLightLevel"))
        (fun e => negb (writes "CurrentAmbientLightLevel" e)) p.
Proof. intros Hh. destruct Hp; hub_handlers Hh. Qed.

End Hidden.

(** X12.  A sensor of the Hub 2 that the configuration hides is left alone by
    every way a status arrives (the refresh, whatever the BLE client and
    the cloud answer, a BLE event, a webhook): its value in the state and
    its entry of [accessory.context] stay as they were, and its
    characteristic is not written, not even with an error. *)
Theorem hub_hidden_sensor_is_left_alone
    (u : Utils) (d : Hub.Device) (p : Proc Hub.State) (s : Hub.State) :
  Inbound.hub u d p ->
  (truthy_bool (Hub.hide_temperature d) = true ->
     Hub.TemperatureSensor (fst (p s)) = Hub.TemperatureSensor s
     /\ Hub.context (fst (p s)) !! "CurrentTemperature"
        = Hub.context s !! "CurrentTemperature"
     /\ written "CurrentTemperature" (snd (p s)) = [])
  /\ (truthy_bool (Hub.hide_humidity d) = true ->
        Hub.HumiditySensor (fst (p s)) = Hub.HumiditySensor s
        /\ Hub.context (fst (p s)) !! "CurrentRelativeHumidity"
           = Hub.context s !! "CurrentRelativeHumidity"
        /\ written "CurrentRelativeHumidity" (snd (p s)) = [])
  /\ (truthy_bool (Hub.hide_lightsensor d) = true ->
        Hub.LightSensor (fst (p s)) = Hub.LightSensor s
        /\ Hub.context (fst (p s)) !! "CurrentAmbientLightLevel"
           = Hub.context s !! "CurrentAmbientLightLevel"
        /\ written "CurrentAmbientLightLevel" (snd (p s)) = []).
Proof.
  intros Hp. split; [| split]; intros Hh.
  - destruct (hidden_temperature u d p Hp Hh s) as [Ho Hw].
    injection Ho as H1 H2. repeat split; try assumption. now apply unwritten.
  - destruct (hidden_humidity u d p Hp Hh s) as [Ho Hw].
    injection Ho as H1 H2. repeat split; try assumption. now apply unwritten.
  - destruct (hidden_light u d p Hp Hh s) as [Ho Hw].
    injection Ho as H1 H2. repeat split; try assumption. now apply unwritten.
Qed.

Lemma hub_hidden_sensor_is_left_alone_witness :
  Hub.HumiditySensor
    (fst (Hub.bleEventHandler Samples.utils SetupSamples.dryHub SetupSamples.heardHub
            Samples.hubState))
  = Hub.HumiditySensor Samples.hubState
  /\ Hub.context
       (fst (Hub.bleEventHandler Samples.utils SetupSamples.dryHub SetupSamples.heardHub
               Samples.hubState)) !! "CurrentRelativeHumidity"
     = Hub.context Samples.hubState !! "CurrentRelativeHumidity"
  /\ written "CurrentRelativeHumidity"
       (snd (Hub.bleEventHandler Samples.utils SetupSamples.dryHub SetupSamples.heardHub
               Samples.hubState))
     = [].
Proof.
  exact (proj1 (proj2
           (hub_hidden_sensor_is_left_alone Samples.utils SetupSamples.dryHub _
              Samples.hubState
              (Inbound.hub_ble Samples.utils SetupSamples.dryHub SetupSamples.heardHub)))
           eq_refl).
Defined.

Lemma hub_poll_asks_once (u : Utils) (d : Hub.Device)
    (r : Outcome (ApiBody Hub.hub2Status)) (s : Hub.State) :
  List.filter asks_cloud (snd (Hub.openAPIRefreshStatus u d r s)) = [GetStatus].
Proof.
  unfold Hub.openAPIRefreshStatus. rewrite !seq_emit_snd.
  cbn [List.filter asks_cloud]. f_equal. apply keeps_nothing.
  assert (Hh : True) by exact I. destruct r; hub_handlers Hh.
Qed.

End HubFacts.

Module LockFacts.
Import Frame FrameFacts ProcFacts Base.

Ltac lock_handlers tac :=
  unfold Lock.refreshStatus, Lock.bleEventHandler, Lock.webhookEventHandler,
    Lock.BLERefreshStatus, Lock.BLERefreshConnection, Lock.openAPIRefreshStatus,
    Lock.BLEparseStatus, Lock.openAPIparseStatus, Lock.parseStatusWebhook,
    Lock.openAPIparseFirmware, Lock.updateHomeKitCharacteristics,
    Lock.offlineOff, Lock.apiError;
  proc_keeps tac.

Ltac never Hw := fail.

Lemma lock_poll_asks_once (d : Lock.Device)
    (r : Outcome (ApiBody Lock.lockStatus)) (s : Lock.State) :
  List.filter asks_cloud (snd (Lock.openAPIRefreshStatus d r s)) = [GetStatus].
Proof.
  unfold Lock.openAPIRefreshStatus. rewrite !seq_emit_snd.
  cbn [List.filter asks_cloud]. f_equal. apply keeps_nothing.
  destruct r; lock_handlers never.
Qed.

End LockFacts.
Module FallbackFacts.
Import Frame FrameFacts ProcFacts Base HubFacts LockFacts.

Lemma hub_parsed_quiet (u : Utils) (d : Hub.Device) (sd : Hub.hub2ServiceData)
    (s : Hub.State) :
  List.filter asks_cloud
    (snd (seq (Hub.BLEparseStatus u d sd) (Hub.updateHomeKitCharacteristics d) s)) = [].
Proof. apply keeps_nothing. assert (Hh : True) by exact I. hub_handlers Hh. Qed.

Lemma lock_parsed_quiet (d : Lock.Device) (sd : Lock.lockServiceData)
    (s : Lock.State) :
  List.filter asks_cloud
    (snd (seq (Lock.BLEparseStatus d sd) (Lock.updateHomeKitCharacteristics d) s)) = [].
Proof. apply keeps_nothing. lock_handlers never. Qed.

(** X13.  A refresh over BLE reaches the cloud only as a fallback.  For a
    device on BLE, [refreshStatus] asks the cloud for nothing unless a token
    exists and the connection type is ['BLE/OpenAPI'].  With both, and the
    cloud service enabled, the Hub 2 polls the cloud once when the BLE client
    is missing or the advertisement is not that of a Hub 2, and not when the
    advertisement is parsed; the Lock polls it once when the BLE client is
    missing, and never once an advertisement has arrived. *)
Theorem ble_refresh_reaches_cloud_only_as_fallback :
  (forall u d ble r s,
     let asked := List.filter asks_cloud (snd (Hub.refreshStatus u d ble r s)) in
     Hub.BLE d = true ->
     (Hub.fallbackToOpenAPI d = false -> asked = []) /\
     (Hub.fallbackToOpenAPI d = true ->
      negb (truthy_bool (Hub.enableCloudService d)) && Hub.OpenAPI d = false ->
      match ble with
      | NoBLE => asked = [GetStatus]
      | Advertised sd => asked = if Hub.modelMatches sd then [] else [GetStatus]
      end))
  /\
  (forall d ble r s,
     let asked := List.filter asks_cloud (snd (Lock.refreshStatus d ble r s)) in
     Lock.BLE d = true ->
     (Lock.fallbackToOpenAPI d = false -> asked = []) /\
     (Lock.fallbackToOpenAPI d = true ->
      negb (truthy_bool (Lock.enableCloudService d)) && Lock.OpenAPI d = false ->
      match ble with
      | NoBLE => asked = [GetStatus]
      | Advertised _ => asked = []
      end)).
Proof.
  split.
  - intros u d ble r s asked Hble. subst asked. unfold Hub.refreshStatus.
    rewrite Hble. split.
    + intros Hf. apply keeps_nothing.
      destruct (negb (truthy_bool (Hub.enableCloudService d)) && Hub.OpenAPI d);
        [apply keeps_emit; reflexivity |].
      unfold Hub.BLERefreshStatus, Hub.BLERefreshConnection. rewrite Hf.
      assert (Hh : True) by exact I. hub_handlers Hh.
    + intros Hf ->. unfold Hub.BLERefreshStatus, Hub.BLERefreshConnection, when.
      rewrite Hf. rewrite !seq_emit_snd. cbn [List.filter asks_cloud].
      destruct ble as [|sd].
      * rewrite !seq_emit_snd. cbn [List.filter asks_cloud].
        apply hub_poll_asks_once.
      * rewrite !seq_emit_snd. cbn [List.filter asks_cloud].
        destruct (Hub.modelMatches sd).
        -- apply hub_parsed_quiet.
        -- rewrite !seq_emit_snd. cbn [List.filter asks_cloud].
           apply hub_poll_asks_once.
  - intros d ble r s asked Hble. subst asked. unfold Lock.refreshStatus.
    rewrite Hble. split.
    + intros Hf. apply keeps_nothing.
      destruct (negb (truthy_bool (Lock.enableCloudService d)) && Lock.OpenAPI d);
        [apply keeps_emit; reflexivity |].
      unfold Lock.BLERefreshStatus, Lock.BLERefreshConnection. rewrite Hf.
      lock_handlers never.
    + intros Hf ->. unfold Lock.BLERefreshStatus, Lock.BLERefreshConnection, when.
      rewrite Hf. rewrite !seq_emit_snd. cbn [List.filter asks_cloud].
      destruct ble as [|sd].
      * rewrite !seq_emit_snd. cbn [List.filter asks_cloud].
        apply lock_poll_asks_once.
      * rewrite !seq_emit_snd. cbn [List.filter asks_cloud].
        rewrite StatusFacts.lock_modelMatches_always.
        apply lock_parsed_quiet.
Qed.

Lemma ble_refresh_reaches_cloud_only_as_fallback_witness :
  List.filter asks_cloud
    (snd (Lock.refreshStatus Samples.bleLock NoBLE (Throws "unused") Samples.unlocked))
  = []
  /\ List.filter asks_cloud
       (snd (Lock.refreshStatus Samples.bothLock NoBLE (Throws "timeout")
               Samples.unlocked))
     = [GetStatus].
Proof.
  destruct ble_refresh_reaches_cloud_only_as_fallback as [_ Hl].
  split.
  - exact (proj1 (Hl Samples.bleLock NoBLE (Throws "unused") Samples.unlocked eq_refl)
             eq_refl).
  - exact (proj2 (Hl Samples.bothLock NoBLE (Throws "timeout") Samples.unlocked eq_refl)
             eq_refl eq_refl).
Defined.

End FallbackFacts.

Module PushMoreFacts.
Import Frame FrameFacts ProcFacts Base Inbound LockFacts.

Lemma returns_run (p : Proc Lock.State) (s : Lock.State) :
  Lock.returns p s = (fst (p s), snd (p s), None).
Proof. unfold Lock.returns. now destruct (p s). Qed.

(** [pushChanges], branch by branch: either a handler that returns,
    followed by the scheduling of the refresh, or the exception of
    [platform.connectBLE]. *)
Lemma lock_pushChanges_run (d : Lock.Device) (a : Lock.PushAnswers) (s : Lock.State) :
  (exists p : Proc Lock.State,
     Lock.pushChanges d a s = (fst (p s), snd (p s) ++ [IntervalOnce 15000], None)
     /\ (forall A (obs : Lock.State -> A) allowed,
           (forall e, allowed (Log debugLog e) = true) ->
           (forall e, allowed (Log errorLog e) = true) ->
           (forall e, allowed (Log debugWarnLog e) = true) ->
           allowed SwitchbotBLE = true ->
           keeps obs allowed (Lock.BLEpushConnected d a) ->
           keeps obs allowed (Lock.openAPIpushChanges d (Lock.cloud_push a) false) ->
           keeps obs allowed (Lock.offlineOff d) ->
           keeps obs allowed p)
     /\ (negb (truthy_bool (Lock.enableCloudService d)) && Lock.OpenAPI d = false ->
         Lock.BLE d = true -> Lock.targetChanged s = true ->
         forall e, Lock.ble_push a <> Lock.ConnectThrows e))
  \/
  (exists e,
     Lock.pushChanges d a s = (s, [Log debugLog "BLEpushChanges"; SwitchbotBLE], Some e)
     /\ negb (truthy_bool (Lock.enableCloudService d)) && Lock.OpenAPI d = false
     /\ Lock.BLE d = true /\ Lock.targetChanged s = true
     /\ Lock.ble_push a = Lock.ConnectThrows e).
Proof.
  unfold Lock.pushChanges.
  destruct (negb (truthy_bool (Lock.enableCloudService d)) && Lock.OpenAPI d) eqn:Hdis.
  { left. eexists. rewrite returns_run. split; [reflexivity |].
    split; [| discriminate].
    intros A obs allowed H1 H2 H3 H4 K1 K2 K3. apply keeps_emit, H2. }
  destruct (Lock.BLE d) eqn:Hble.
  - unfold Lock.BLEpushChanges.
    destruct (Lock.targetChanged s) eqn:Hch.
    + destruct (Lock.ble_push a) as [e | | e | o] eqn:Hb.
      * right. exists e. repeat split; reflexivity.
      * left. eexists. rewrite returns_run. split; [reflexivity |].
        split; [| intros _ _ _ e; discriminate].
        intros A obs allowed H1 H2 H3 H4 K1 K2 K3.
        repeat apply keeps_seq; try (apply keeps_emit; auto). exact K1.
      * left. eexists. rewrite returns_run. split; [reflexivity |].
        split; [| intros _ _ _ e'; discriminate].
        intros A obs allowed H1 H2 H3 H4 K1 K2 K3.
        repeat apply keeps_seq; try (apply keeps_emit; auto). exact K1.
      * left. eexists. rewrite returns_run. split; [reflexivity |].
        split; [| intros _ _ _ e'; discriminate].
        intros A obs allowed H1 H2 H3 H4 K1 K2 K3.
        repeat apply keeps_seq; try (apply keeps_emit; auto). exact K1.
    + left. eexists. rewrite returns_run. split; [reflexivity |].
      split; [| discriminate].
      intros A obs allowed H1 H2 H3 H4 K1 K2 K3.
      repeat apply keeps_seq; apply keeps_emit; auto.
  - destruct (Lock.OpenAPI d && truthy_str (Lock.token d)).
    + left. eexists. rewrite returns_run. split; [reflexivity |].
      split; [| discriminate].
      intros A obs allowed H1 H2 H3 H4 K1 K2 K3. exact K2.
    + left. eexists. rewrite returns_run. split; [reflexivity |].
      split; [| discriminate].
      intros A obs allowed H1 H2 H3 H4 K1 K2 K3.
      apply keeps_seq; [exact K3 | apply keeps_emit; auto].
Qed.

Ltac lock_push_handlers tac :=
  unfold Lock.BLEpushConnected, Lock.BLEpushRetried, Lock.BLEpushSettled,
    Lock.BLEpushFailed, Lock.BLEPushConnection,
    Lock.openAPIpushChanges, Lock.openAPIpushSent, Lock.openAPIpushAnswered,
    Lock.updateHomeKitCharacteristics, Lock.offlineOff, Lock.apiError;
  proc_keeps tac.

Section Unscheduled.
Variables (d : Lock.Device) (a : Lock.PushAnswers).

Lemma connected_unscheduled :
  keeps (fun _ : Lock.State => tt) (fun e => negb (is_refresh e))
    (Lock.BLEpushConnected d a).
Proof. lock_push_handlers never. Qed.

Lemma retried_unscheduled :
  keeps (fun _ : Lock.State => tt) (fun e => negb (is_refresh e))
    (Lock.BLEpushRetried d a).
Proof. lock_push_handlers never. Qed.

Lemma settled_unscheduled :
  keeps (fun _ : Lock.State => tt) (fun e => negb (is_refresh e))
    (Lock.BLEpushSettled d a).
Proof. lock_push_handlers never. Qed.

Lemma cloud_unscheduled (r : Outcome (ApiBody unit)) (latch : bool) :
  keeps (fun _ : Lock.State => tt) (fun e => negb (is_refresh e))
    (Lock.openAPIpushChanges d r latch).
Proof. lock_push_handlers never. Qed.

Lemma offline_unscheduled :
  keeps (fun _ : Lock.State => tt) (fun e => negb (is_refresh e)) (Lock.offlineOff d).
Proof. lock_push_handlers never. Qed.

Lemma apiError_unscheduled (e : string) :
  keeps (fun _ : Lock.State => tt) (fun e => negb (is_refresh e)) (Lock.apiError d e).
Proof. lock_push_handlers never. Qed.

End Unscheduled.

(** X14.  [Lock.pushChanges] schedules the refresh that follows a push, 15 s
    later, once and as the last thing that it does itself, whichever branch
    it took; the promise chain that a push over BLE has started runs after
    that and schedules nothing.  [pushChanges] throws, and then schedules
    nothing, exactly when the cloud is not needed or is enabled, the device
    is on BLE, the requested state differs from the one of the context, and
    [platform.connectBLE] rejects.  The subscriber of [doLockUpdate] then
    shows the error and logs it; no command was issued, no discovery was
    started and no refresh is scheduled. *)
Theorem lock_push_schedules_one_refresh
    (d : Lock.Device) (a : Lock.PushAnswers) (s : Lock.State) :
  let r := Lock.pushChanges d a s in
  let es := Lock.effects_of r in
  let thrown := snd r in
  let run := snd (Lock.doLockUpdate_subscriber d a s) in
  (forall e,
     thrown = Some e
     <-> negb (truthy_bool (Lock.enableCloudService d)) && Lock.OpenAPI d = false
         /\ Lock.BLE d = true /\ Lock.targetChanged s = true
         /\ Lock.ble_push a = Lock.ConnectThrows e)
  /\ (thrown = None ->
      List.filter is_refresh es = [IntervalOnce 15000]
      /\ (exists before, es = before ++ [IntervalOnce 15000])
      /\ run = es)
  /\ (forall e, thrown = Some e ->
      fst (fst r) = s /\ commands es = [] /\ Lock.chainStarted es = false
      /\ List.filter is_refresh run = []
      /\ run = es ++ snd (Lock.apiError d e s)
               ++ [Log errorLog ("failed pushChanges with "
                                 +:+ show_opt (Lock.connectionType d)
                                 +:+ " Connection, Error Message: ${JSON.stringify(e.message)}")])
  /\ (forall s2, List.filter is_refresh (snd (Lock.BLEpushRetried d a s2)) = [])
  /\ (forall s3, List.filter is_refresh (snd (Lock.BLEpushSettled d a s3)) = []).
Proof.
  intros r es thrown run. subst r es thrown run.
  unfold Lock.doLockUpdate_subscriber, Lock.effects_of.
  split; [| split; [| split; [| split]]];
    [| | | intros s2; apply keeps_nothing, retried_unscheduled
         | intros s3; apply keeps_nothing, settled_unscheduled];
    destruct (lock_pushChanges_run d a s)
      as [(p & -> & K & Hno) | (e & -> & H1 & H2 & H3 & H4)];
    cbn [fst snd].
  - intros e. split; [discriminate |]. intros (H1 & H2 & H3 & H4).
    now elim (Hno H1 H2 H3 e).
  - intros e'. split.
    + intros [= <-]. now repeat split.
    + intros (_ & _ & _ & H). rewrite H4 in H. now injection H as ->.
  - intros _. split; [| split].
    + rewrite List.filter_app. cbn [List.filter is_refresh].
      rewrite (keeps_nothing is_refresh p s); [reflexivity |].
      apply K; try reflexivity.
      * apply connected_unscheduled.
      * apply cloud_unscheduled.
      * apply offline_unscheduled.
    + now eexists.
    + now rewrite app_nil_r.
  - discriminate.
  - intros e. discriminate.
  - intros e' [= <-]. split; [reflexivity |]. split; [reflexivity |].
    split; [reflexivity |].
    rewrite seq_run. cbn [emit fst snd app List.filter is_refresh].
    split; [| reflexivity].
    rewrite List.filter_app. cbn [List.filter is_refresh]. rewrite app_nil_r.
    apply keeps_nothing, apiError_unscheduled.
Qed.

Lemma lock_push_schedules_one_refresh_witness :
  snd (Lock.pushChanges Samples.bleLock Samples.throwing Samples.asked) = Some "adapter"
  /\ List.filter is_refresh
       (snd (Lock.doLockUpdate_subscriber Samples.bleLock Samples.throwing Samples.asked))
     = []
  /\ List.filter is_refresh
       (Lock.effects_of (Lock.pushChanges Samples.cloudLock Samples.agreeing Samples.asked))
     = [IntervalOnce 15000].
Proof.
  pose proof (lock_push_schedules_one_refresh Samples.bleLock Samples.throwing
                Samples.asked) as (Hiff & _ & Hthrown & _).
  pose proof (lock_push_schedules_one_refresh Samples.cloudLock Samples.agreeing
                Samples.asked) as (_ & Hnone & _).
  assert (Ht : snd (Lock.pushChanges Samples.bleLock Samples.throwing Samples.asked)
               = Some "adapter").
  { apply Hiff. repeat split. }
  split; [exact Ht |]. split.
  - exact (proj1 (proj2 (proj2 (proj2 (Hthrown "adapter" Ht))))).
  - exact (proj1 (Hnone eq_refl)).
Defined.

Lemma strict_eq_refl (v : Value) : strict_eq v v = true.
Proof.
  destruct v; cbn [strict_eq].
  - apply Qeq_bool_iff. reflexivity.
  - apply Bool.eqb_reflx.
  - apply String.eqb_refl.
  - apply String.eqb_refl.
Qed.

(** What [updateHomeKitCharacteristics] of the Lock leaves: the state as
    it was but for the context, in which the target and the current state
    are those of the state. *)
Lemma lock_update_syncs (d : Lock.Device) (s : Lock.State) :
  let s' := fst (Lock.updateHomeKitCharacteristics d s) in
  Lock.LockTargetState s' = Lock.LockTargetState s
  /\ Lock.LockCurrentState s' = Lock.LockCurrentState s
  /\ Lock.context s' !! "LockTargetState" = Some (Lock.LockTargetState s)
  /\ Lock.context s' !! "LockCurrentState" = Some (Lock.LockCurrentState s)
  /\ Lock.targetChanged s' = false
  /\ shows "LockTargetState" (snd (Lock.updateHomeKitCharacteristics d s))
     = Some (Lock.LockTargetState s).
Proof.
  destruct s as [LT LC CS BL SLB SW ctx F].
  assert (Hs : forall m : gmap string Value,
            m !! "LockTargetState" = Some LT ->
            strict_neq (Some LT) (m !! "LockTargetState") = false).
  { intros m ->. cbn [strict_neq]. now rewrite strict_eq_refl. }
  unfold Lock.updateHomeKitCharacteristics, Lock.targetChanged. lock_unfold.
  destruct (truthy_bool (Lock.hide_contactsensor d)); destruct CS;
    (repeat split; try reflexivity; try (apply Hs); ctx_lookup).
Qed.

Lemma openAPIpushSent_keeps (d : Lock.Device) (latch : bool) (s : Lock.State) :
  fst (Lock.openAPIpushSent d latch s) = s.
Proof.
  unfold Lock.openAPIpushSent, reading. rewrite seq_fst. cbn [emit fst].
  destruct (Lock.targetChanged s || latch); reflexivity.
Qed.

(** X15.  A push to the cloud is taken as done only when the cloud accepts it.
    When [openAPIpushChanges] has something to send and the answer is 100 or
    200, the requested [LockTargetState] is shown and becomes the one of
    [accessory.context], so that the same request is not sent again.  With
    another status code nothing is shown and the state is as before, and
    with an exception the error is shown and the state is as before: the
    request still differs from the context, and the next push sends it
    again. *)
Theorem lock_push_acknowledged_only_on_success
    (d : Lock.Device) (r : Outcome (ApiBody unit)) (latch : bool) (s : Lock.State) :
  Lock.targetChanged s || latch = true ->
  let p := Lock.openAPIpushChanges d r latch s in
  match r with
  | Returns ds =>
      if successfulStatusCodes (statusCode_of ds)
      then Lock.context (fst p) !! "LockTargetState" = Some (Lock.LockTargetState s)
           /\ Lock.LockTargetState (fst p) = Lock.LockTargetState s
           /\ Lock.targetChanged (fst p) = false
           /\ shows "LockTargetState" (snd p) = Some (Lock.LockTargetState s)
           /\ (forall r', commands (snd (Lock.openAPIpushChanges d r' false (fst p))) = [])
      else fst p = s /\ Shapes.updates (snd p) = []
  | Throws e =>
      fst p = s /\ shows "LockTargetState" (snd p) = Some (VErr e)
  end.
Proof.
  intros H p. subst p.
  assert (Hp : Lock.openAPIpushChanges d r latch s
               = (fst (Lock.openAPIpushAnswered d r s),
                  [Log debugLog "openAPIpushChanges";
                   Log debugLog "SwitchBot OpenAPI bodyChange: ${JSON.stringify(bodyChange)}";
                   ControlDevice (Lock.deviceId d) (Lock.pushCommand latch s)
                     "default" "command"]
                  ++ snd (Lock.openAPIpushAnswered d r s))).
  { unfold Lock.openAPIpushChanges, reading. rewrite H.
    unfold when. rewrite seq_run, openAPIpushSent_keeps. f_equal. f_equal.
    unfold Lock.openAPIpushSent, reading. rewrite seq_emit_snd. now rewrite H. }
  rewrite Hp. cbn [fst snd].
  unfold Lock.openAPIpushAnswered. destruct r as [e | ds].
  - rewrite seq_run. destruct (PushFacts.lock_apiError_run d e s) as [Hs _].
    rewrite Hs. cbn [emit fst snd]. split; [reflexivity |].
    destruct s as [LT LC CS BL SLB SW ctx F]. unfold Lock.apiError. lock_unfold.
    destruct (truthy_bool (Lock.hide_contactsensor d)); destruct CS; reflexivity.
  - rewrite seq_emit. cbn [fst snd].
    destruct (successfulStatusCodes (statusCode_of ds)).
    + rewrite seq_emit. cbn [fst snd].
      destruct (lock_update_syncs d s) as (H1 & _ & H3 & _ & H5 & H6).
      split; [exact H3 |]. split; [exact H1 |]. split; [exact H5 |]. split.
      * unfold shows in *. cbn [app written]. exact H6.
      * intros r'. now rewrite (PushFacts.openAPIpushChanges_skipped d r' _ H5).
    + cbn [fst snd]. split; [reflexivity |].
      cbn [app]. rewrite !OthersFacts.updates_cons. cbn [Shapes.is_update].
      unfold Lock.statusCode. apply OthersFacts.statusCode_run.
Qed.

Lemma lock_push_acknowledged_only_on_success_witness :
  Lock.targetChanged
    (fst (Lock.openAPIpushChanges Samples.cloudLock (Returns (mkApiBody 100 tt)) false
            Samples.asked)) = false
  /\ fst (Lock.openAPIpushChanges Samples.cloudLock (Returns (mkApiBody 190 tt)) false
            Samples.asked) = Samples.asked.
Proof.
  split.
  - exact (proj1 (proj2 (proj2
             (lock_push_acknowledged_only_on_success Samples.cloudLock
                (Returns (mkApiBody 100 tt)) false Samples.asked eq_refl)))).
  - exact (proj1
             (lock_push_acknowledged_only_on_success Samples.cloudLock
                (Returns (mkApiBody 190 tt)) false Samples.asked eq_refl)).
Defined.

Lemma subscriber_idle (d : Lock.Device) (a : Lock.PushAnswers) (s : Lock.State) :
  Lock.targetChanged s = false ->
  commands (snd (Lock.doLockUpdate_subscriber d a s)) = []
  /\ Lock.chainStarted (snd (Lock.doLockUpdate_subscriber d a s)) = false
  /\ snd (Lock.pushChanges d a s) = None.
Proof.
  intros H. unfold Lock.doLockUpdate_subscriber, Lock.pushChanges, Lock.BLEpushChanges.
  rewrite H.
  destruct (negb (truthy_bool (Lock.enableCloudService d)) && Lock.OpenAPI d);
    [repeat split; reflexivity |].
  destruct (Lock.BLE d); [repeat split; reflexivity |].
  destruct (Lock.OpenAPI d && truthy_str (Lock.token d)).
  - rewrite returns_run, (PushFacts.openAPIpushChanges_skipped d _ s H).
    repeat split; reflexivity.
  - rewrite returns_run, seq_run, RefreshFacts.lock_offlineOff. cbn [fst snd emit].
    rewrite !app_nil_r. unfold Lock.chainStarted.
    rewrite !PushFacts.commands_app, !existsb_app.
    cbn [commands List.filter is_command existsb Lock.is_discover orb].
    rewrite !app_nil_r, !orb_false_r.
    unfold Lock.lockOffline.
    destruct (truthy_bool (Lock.offline d)); [| repeat split; reflexivity].
    destruct (Lock.contactShown d s); repeat split; reflexivity.
Qed.

Lemma lock_parse_agrees (d : Lock.Device) (s : Lock.State) :
  let agree s1 :=
    Lock.LockTargetState s1 = Lock.LockCurrentState s1
    /\ (Lock.LockCurrentState s1 = HAP.LockCurrentState_SECURED
        \/ Lock.LockCurrentState s1 = HAP.LockCurrentState_UNSECURED) in
  (forall sd, agree (fst (Lock.BLEparseStatus d sd s)))
  /\ (forall st, agree (fst (Lock.openAPIparseStatus d st s)))
  /\ (forall w, agree (fst (Lock.parseStatusWebhook w s))).
Proof.
  intros agree. subst agree. destruct s as [LT LC CS BL SLB SW ctx F].
  split; [| split].
  - intros sd. unfold Lock.BLEparseStatus. lock_unfold.
    destruct (String.eqb (Lock.status sd) "locked");
      destruct (truthy_bool (Lock.hide_contactsensor d)); destruct CS;
      destruct (Lock.battery sd); auto.
  - intros st. unfold Lock.openAPIparseStatus, Lock.openAPIparseFirmware.
    destruct (Lock.firmwareVersion (Lock.version st)); lock_unfold;
      destruct (String.eqb (Lock.lockState st) "locked");
      destruct (truthy_bool (Lock.hide_contactsensor d)); destruct CS; auto.
  - intros w. unfold Lock.parseStatusWebhook. lock_unfold.
    destruct (String.eqb (Lock.wh_lockState w) "LOCKED"); auto.
Qed.

Lemma lock_parsed_run (d : Lock.Device) (p : Proc Lock.State) (s : Lock.State) :
  Inbound.lock_parsed d p ->
  exists s1,
    fst (p s) = fst (Lock.updateHomeKitCharacteristics d s1)
    /\ Lock.LockTargetState s1 = Lock.LockCurrentState s1
    /\ (Lock.LockCurrentState s1 = HAP.LockCurrentState_SECURED
        \/ Lock.LockCurrentState s1 = HAP.LockCurrentState_UNSECURED).
Proof.
  intros Hp. destruct Hp as [sd | w | sd r | ds Hok].
  - exists (fst (Lock.BLEparseStatus d sd s)). split.
    + unfold Lock.bleEventHandler. now rewrite seq_emit, seq_fst.
    + exact (proj1 (lock_parse_agrees d s) sd).
  - exists (fst (Lock.parseStatusWebhook w s)). split.
    + unfold Lock.webhookEventHandler. now rewrite seq_emit, seq_fst.
    + exact (proj2 (proj2 (lock_parse_agrees d s)) w).
  - exists (fst (Lock.BLEparseStatus d sd s)). split.
    + unfold Lock.BLERefreshStatus.
      rewrite StatusFacts.lock_modelMatches_always.
      now rewrite !seq_emit, seq_fst.
    + exact (proj1 (lock_parse_agrees d s) sd).
  - exists (fst (Lock.openAPIparseStatus d (body_of ds) s)). split.
    + unfold Lock.openAPIRefreshStatus. rewrite Hok.
      now rewrite !seq_emit, seq_fst.
    + exact (proj1 (proj2 (lock_parse_agrees d s)) (body_of ds)).
Qed.

(** X16.  A status report discards a request that is waiting for its push.
    Every way in which a status of the Lock is parsed (a BLE event, a
    webhook, a monitored advertisement, a successful poll) sets the target
    state to the reported current state, secured or unsecured, and caches it
    in [accessory.context]; the requested state then no longer differs from
    the context, and the subscriber of [doLockUpdate], when the debounce
    lets it run, issues no command and starts no discovery over BLE,
    whatever was requested before. *)
Theorem lock_status_report_cancels_pending_push
    (d : Lock.Device) (p : Proc Lock.State) (v : Value) (s0 : Lock.State) :
  Inbound.lock_parsed d p ->
  let requested := fst (Lock.LockTargetStateSet v s0) in
  let s' := fst (p requested) in
  Lock.LockTargetState requested = v
  /\ Lock.LockTargetState s' = Lock.LockCurrentState s'
  /\ (Lock.LockCurrentState s' = HAP.LockCurrentState_SECURED
      \/ Lock.LockCurrentState s' = HAP.LockCurrentState_UNSECURED)
  /\ Lock.context s' !! "LockTargetState" = Some (Lock.LockTargetState s')
  /\ Lock.targetChanged s' = false
  /\ forall a, commands (snd (Lock.doLockUpdate_subscriber d a s')) = []
               /\ Lock.chainStarted (snd (Lock.doLockUpdate_subscriber d a s')) = false.
Proof.
  intros Hp requested s'. subst s'.
  split.
  { subst requested.
    rewrite (proj1 (DebounceFacts.LockTargetStateSet_run v s0)). reflexivity. }
  destruct (lock_parsed_run d p requested Hp) as (s1 & -> & Hagree & Hsec).
  destruct (lock_update_syncs d s1) as (H1 & H2 & H3 & _ & H5 & _).
  rewrite H1, H2, H3.
  repeat (split; [assumption || reflexivity |]).
  intros a.
  destruct (subscriber_idle d a _ H5) as (Hc & Hn & _). now split.
Qed.

Lemma lock_status_report_cancels_pending_push_witness :
  let heard := {| Lock.model := SwitchBotBLEModel.Lock;
                  Lock.modelName := SwitchBotBLEModelName.Lock;
                  Lock.status := "unlocked"; Lock.door_open := false;
                  Lock.battery := Some (inject_Z 80) |} in
  let s' := fst (Lock.bleEventHandler Samples.cloudLock heard
                   (fst (Lock.LockTargetStateSet HAP.LockTargetState_SECURED
                           Samples.unlocked))) in
  commands (snd (Lock.doLockUpdate_subscriber Samples.cloudLock Samples.agreeing s')) = [].
Proof.
  intros heard s'.
  exact (proj1 (proj2 (proj2 (proj2 (proj2 (proj2
           (lock_status_report_cancels_pending_push Samples.cloudLock _
              HAP.LockTargetState_SECURED Samples.unlocked
              (Inbound.parsed_ble Samples.cloudLock heard))))))
           Samples.agreeing)).
Defined.

End PushMoreFacts.
Module BatteryFacts.
Import Frame FrameFacts ProcFacts Base Inbound LockFacts PushMoreFacts.

Ltac battery_pair :=
  idtac;
  match goal with
  | |- maintains _ (seq (modify (Lock.set_BatteryLevel _)) _) =>
      apply maintains_pair; [intros []; eexists; split; reflexivity |]
  end.

Lemma battery_observed (s s' : Lock.State) :
  (Lock.BatteryLevel s', Lock.StatusLowBattery s')
  = (Lock.BatteryLevel s, Lock.StatusLowBattery s) ->
  battery_ok s -> battery_ok s'.
Proof. intros [= H1 H2] (b & Hb & Hl). exists b. now rewrite H1, H2. Qed.

Section Pieces.
Variables (d : Lock.Device) (a : Lock.PushAnswers).

Lemma connected_battery :
  keeps (fun s => (Lock.BatteryLevel s, Lock.StatusLowBattery s)) (fun _ => true)
    (Lock.BLEpushConnected d a).
Proof. lock_push_handlers never. Qed.

Lemma retried_battery :
  keeps (fun s => (Lock.BatteryLevel s, Lock.StatusLowBattery s)) (fun _ => true)
    (Lock.BLEpushRetried d a).
Proof. lock_push_handlers never. Qed.

Lemma settled_battery :
  keeps (fun s => (Lock.BatteryLevel s, Lock.StatusLowBattery s)) (fun _ => true)
    (Lock.BLEpushSettled d a).
Proof. lock_push_handlers never. Qed.

Lemma cloud_battery (r : Outcome (ApiBody unit)) (latch : bool) :
  keeps (fun s => (Lock.BatteryLevel s, Lock.StatusLowBattery s)) (fun _ => true)
    (Lock.openAPIpushChanges d r latch).
Proof. lock_push_handlers never. Qed.

Lemma offline_battery :
  keeps (fun s => (Lock.BatteryLevel s, Lock.StatusLowBattery s)) (fun _ => true)
    (Lock.offlineOff d).
Proof. lock_push_handlers never. Qed.

Lemma apiError_battery (e : string) :
  keeps (fun s => (Lock.BatteryLevel s, Lock.StatusLowBattery s)) (fun _ => true)
    (Lock.apiError d e).
Proof. lock_push_handlers never. Qed.

End Pieces.

Lemma poll_battery (d : Lock.Device) (r : Outcome (ApiBody Lock.lockStatus)) :
  maintains battery_ok (Lock.openAPIRefreshStatus d r).
Proof.
  unfold Lock.openAPIRefreshStatus, Lock.openAPIparseStatus,
    Lock.openAPIparseFirmware, Lock.updateHomeKitCharacteristics, Lock.apiError.
  proc_maintains battery_pair.
Qed.

Ltac battery_step :=
  idtac; first [apply poll_battery | battery_pair].

Lemma subscriber_battery (d : Lock.Device) (a : Lock.PushAnswers) (s : Lock.State) :
  battery_ok s -> battery_ok (fst (Lock.doLockUpdate_subscriber d a s)).
Proof.
  intros H. unfold Lock.doLockUpdate_subscriber.
  destruct (lock_pushChanges_run d a s) as [(p & -> & K & _) | (e & -> & _)].
  - cbn [fst]. apply (battery_observed s); [| exact H].
    refine (proj1 (K _ (fun s => (Lock.BatteryLevel s, Lock.StatusLowBattery s))
                     (fun _ => true) _ _ _ _ _ _ _ s)); try reflexivity.
    + apply connected_battery.
    + apply cloud_battery.
    + apply offline_battery.
  - rewrite seq_run. cbn [fst emit].
    apply (battery_observed s); [| exact H].
    exact (proj1 (apiError_battery d e s)).
Qed.

(** X17.  The low-battery flag of the Lock never disagrees with its battery
    level.  Whenever a status with a battery level is applied (a successful
    poll, a BLE event that carries one), the flag is set from that level,
    low below 10; and no other handler touches one without the other: the
    refresh whatever is answered, BLE events without a battery level,
    webhooks, [LockTargetStateSet], the latch button, the subscriber of
    [doLockUpdate] and the promise chain of a push over BLE all keep the
    agreement. *)
Theorem lock_low_battery_follows_level (d : Lock.Device) :
  (forall p, Inbound.lock d p -> maintains battery_ok p)
  /\ (forall a s, battery_ok s -> battery_ok (fst (Lock.doLockUpdate_subscriber d a s)))
  /\ (forall a, maintains battery_ok (Lock.BLEpushRetried d a)
                /\ maintains battery_ok (Lock.BLEpushSettled d a))
  /\ (forall v, maintains battery_ok (Lock.LockTargetStateSet v))
  /\ (forall v, maintains battery_ok (Lock.OnSet d v))
  /\ (forall r, maintains battery_ok (Lock.OnSet_answered d r))
  /\ (forall ds s,
        successfulStatusCodes (statusCode_of ds) = true ->
        let s' := fst (Lock.openAPIRefreshStatus d (Returns ds) s) in
        Lock.BatteryLevel s' = VNum (Lock.st_battery (body_of ds))
        /\ Lock.StatusLowBattery s' = Lock.lowBattery (Lock.st_battery (body_of ds)))
  /\ (forall sd b s,
        Lock.battery sd = Some b ->
        let s' := fst (Lock.bleEventHandler d sd s) in
        Lock.BatteryLevel s' = VNum b /\ Lock.StatusLowBattery s' = Lock.lowBattery b)
  /\ (forall b, Lock.lowBattery b = HAP.StatusLowBattery_BATTERY_LEVEL_LOW
                <-> (b < 10)%Q).
Proof.
  split; [| split; [| split; [| split; [| split; [| split; [| split; [| split]]]]]]].
  - intros p Hp.
    destruct Hp;
      unfold Lock.refreshStatus, Lock.bleEventHandler, Lock.webhookEventHandler,
        Lock.BLERefreshStatus, Lock.BLERefreshConnection,
        Lock.BLEparseStatus, Lock.parseStatusWebhook,
        Lock.updateHomeKitCharacteristics, Lock.offlineOff;
      proc_maintains battery_step.
  - intros a s. apply subscriber_battery.
  - intros a. split; intros s H; apply (battery_observed s); try exact H.
    + exact (proj1 (retried_battery d a s)).
    + exact (proj1 (settled_battery d a s)).
  - intros v. unfold Lock.LockTargetStateSet, Lock.doLockUpdate_next.
    proc_maintains battery_pair.
  - intros v.
    unfold Lock.OnSet, Lock.openAPIpushSent, Lock.doLockUpdate_next.
    proc_maintains battery_pair.
  - intros r.
    unfold Lock.OnSet_answered, Lock.openAPIpushAnswered,
      Lock.updateHomeKitCharacteristics, Lock.apiError.
    proc_maintains battery_pair.
  - intros ds s Hok s'. subst s'. unfold Lock.openAPIRefreshStatus. rewrite Hok.
    destruct s as [LT LC CS BL SLB SW ctx F].
    unfold Lock.openAPIparseStatus, Lock.updateHomeKitCharacteristics,
      Lock.openAPIparseFirmware.
    destruct (Lock.firmwareVersion (Lock.version (body_of ds))); lock_unfold;
      destruct (truthy_bool (Lock.hide_contactsensor d)); destruct CS;
      split; reflexivity.
  - intros sd b s Hb s'. subst s'. unfold Lock.bleEventHandler.
    destruct s as [LT LC CS BL SLB SW ctx F].
    unfold Lock.BLEparseStatus, Lock.updateHomeKitCharacteristics. rewrite Hb.
    lock_unfold.
    destruct (truthy_bool (Lock.hide_contactsensor d)); destruct CS;
      split; reflexivity.
  - intros b. unfold Lock.lowBattery.
    destruct (Qle_bool 10 b) eqn:E.
    + split; [discriminate |]. intros Hlt. apply Qle_bool_iff in E.
      exfalso. apply (Qlt_not_le _ _ Hlt E).
    + split; [| reflexivity]. intros _. apply Qnot_le_lt. intros Hle.
      apply Qle_bool_iff in Hle. congruence.
Qed.

Lemma lock_low_battery_follows_level_witness :
  battery_ok Samples.unlocked
  /\ battery_ok (fst (Lock.refreshStatus Samples.cloudLock NoBLE (Throws "timeout")
                        Samples.unlocked))
  /\ Lock.StatusLowBattery
       (fst (Lock.openAPIRefreshStatus Samples.cloudLock
               (Returns (mkApiBody 100
                           {| Lock.lockState := "locked"; Lock.doorState := "closed";
                              Lock.st_battery := inject_Z 7; Lock.version := None |}))
               Samples.unlocked))
     = HAP.StatusLowBattery_BATTERY_LEVEL_LOW.
Proof.
  assert (H0 : battery_ok Samples.unlocked).
  { exists (inject_Z 80). split; reflexivity. }
  pose proof (lock_low_battery_follows_level Samples.cloudLock)
    as (Hin & _ & _ & _ & _ & _ & Hpoll & _).
  split; [exact H0 |]. split.
  - exact (Hin _ (Inbound.lock_refresh Samples.cloudLock NoBLE (Throws "timeout"))
             Samples.unlocked H0).
  - exact (proj2 (Hpoll (mkApiBody 100
                           {| Lock.lockState := "locked"; Lock.doorState := "closed";
                              Lock.st_battery := inject_Z 7; Lock.version := None |})
                    Samples.unlocked eq_refl)).
Defined.

End BatteryFacts.

Module SetupFacts.
Import Frame FrameFacts ProcFacts Base.

Lemma still_note {S} (x : Setup) : still (@note S x).
Proof. intros s. reflexivity. Qed.

Lemma still_did_emit {S} (e : Effect) : still (@did S (emit e)).
Proof. intros s. reflexivity. Qed.

Lemma andThen_fst {S} (p q : Build S) (s : S) :
  fst (andThen p q s) = fst (q (fst (p s))).
Proof. unfold andThen. destruct (p s) as [s1 e1]. cbn. now destruct (q s1). Qed.

Lemma andThen_snd {S} (p q : Build S) (s : S) :
  snd (andThen p q s) = snd (p s) ++ snd (q (fst (p s))).
Proof. unfold andThen. destruct (p s) as [s1 e1]. cbn. now destruct (q s1). Qed.

Lemma still_andThen {S} (p q : Build S) : still p -> still q -> still (andThen p q).
Proof. intros Hp Hq s. now rewrite andThen_fst, Hp, Hq. Qed.

Lemma still_inOrder {S} (ps : list (Build S)) : Forall still ps -> still (inOrder ps).
Proof.
  induction 1 as [|p ps Hp _ IH]; [intros s; reflexivity |].
  cbn [inOrder]. now apply still_andThen.
Qed.

Lemma inOrder_app {S} (ps qs : list (Build S)) (s : S) :
  inOrder (ps ++ qs) s = andThen (inOrder ps) (inOrder qs) s.
Proof.
  revert s. induction ps as [|p ps IH]; intros s.
  - cbn [inOrder app]. unfold andThen. destruct (inOrder qs s). reflexivity.
  - change (inOrder ((p :: ps) ++ qs)) with (andThen p (inOrder (ps ++ qs))).
    change (inOrder (p :: ps)) with (andThen p (inOrder ps)).
    unfold andThen. destruct (p s) as [s1 e1].
    specialize (IH s1). unfold andThen in IH. rewrite IH.
    destruct (inOrder ps s1) as [s2 e2]. destruct (inOrder qs s2) as [s3 e3].
    now rewrite app_assoc.
Qed.

Lemma still_registerWebhook {S} (deviceId : string) (w : Wiring.t) :
  still (@registerWebhook S deviceId w).
Proof.
  unfold registerWebhook. destruct (truthy_bool (Wiring.webhook w)).
  - apply still_inOrder. repeat constructor.
  - apply still_did_emit.
Qed.

Lemma still_registerPlatformBLE {S} (w : Wiring.t) : still (@registerPlatformBLE S w).
Proof.
  unfold registerPlatformBLE. apply still_andThen; [apply still_did_emit |].
  destruct (truthy_bool (Wiring.optionsBLE w)); [| apply still_did_emit].
  apply still_andThen; [apply still_did_emit |].
  destruct (Wiring.formattedDeviceId w).
  - apply still_did_emit.
  - apply still_inOrder. repeat constructor.
Qed.

Lemma still_startUp {S} (deviceId : string) (w : Wiring.t) :
  still (inOrder (@startUp S deviceId w)).
Proof.
  apply still_inOrder. unfold startUp.
  repeat (constructor;
          [first [ apply still_note | apply still_did_emit
                 | apply still_registerWebhook
                 | apply still_registerPlatformBLE ] |]).
  constructor.
Qed.

(** The services that the start-up touches: none. *)
Lemma startUp_services {S} (deviceId : string) (w : Wiring.t) (s : S) :
  removed (snd (inOrder (startUp deviceId w) s)) = []
  /\ added (snd (inOrder (startUp deviceId w) s)) = [].
Proof.
  unfold startUp, registerWebhook, registerPlatformBLE.
  destruct (truthy_bool (Wiring.webhook w)), (truthy_bool (Wiring.optionsBLE w)),
    (Wiring.formattedDeviceId w); split; reflexivity.
Qed.

(** *** The Hub 2 *)

Lemma hub_constructor_state (d : Hub.Device) (w : Wiring.t) (s0 : Hub.State) :
  HubSetup.unset s0 ->
  let s := fst (HubSetup.constructor d w s0) in
  Hub.context s = Hub.context s0 /\ HubSetup.restored d s.
Proof.
  intros (Ht & Hh & Hl). destruct s0 as [t h l c]. cbn in Ht, Hh, Hl. subst t h l.
  cbv zeta. unfold HubSetup.constructor. rewrite inOrder_app, andThen_fst.
  rewrite still_startUp. unfold HubSetup.restored, HubSetup.sensor.
  destruct (truthy_bool (Hub.hide_temperature d)),
    (truthy_bool (Hub.hide_humidity d)), (truthy_bool (Hub.hide_lightsensor d));
    cbn; repeat split; reflexivity.
Qed.


(** A status that is parsed and applied leaves the sensors as a restart
    would find them. *)
Ltac hub_parsed_tac :=
  intros [t h l c] (Ht & Hh & Hl); cbn [Hub.TemperatureSensor Hub.HumiditySensor
    Hub.LightSensor Hub.context] in Ht, Hh, Hl; subst t h l;
  unfold HubSetup.restored, Hub.BLEparseStatus, Hub.openAPIparseStatus,
    Hub.parseStatusWebhook, Hub.openAPIparseFirmware,
    Hub.updateHomeKitCharacteristics, Hub.shown;
  destruct (truthy_bool (Hub.hide_temperature _)),
    (truthy_bool (Hub.hide_humidity _)), (truthy_bool (Hub.hide_lightsensor _));
  repeat match goal with
         | |- context [match ?x with _ => _ end] =>
             lazymatch type of x with
             | bool => destruct x
             | option string => destruct x
             end
         end;
  hub_unfold;
  repeat match goal with
         | |- context [String.eqb ?a ?b] => destruct (String.eqb a b)
         | |- context [match ?x with _ => _ end] =>
             lazymatch type of x with
             | option string => destruct x
             end
         end;
  cbv beta iota; repeat split; ctx_lookup.

Lemma hub_ble_restored (u : Utils) (d : Hub.Device) (sd : Hub.hub2ServiceData) :
  maintains (HubSetup.restored d)
    (seq (Hub.BLEparseStatus u d sd) (Hub.updateHomeKitCharacteristics d)).
Proof. hub_parsed_tac. Qed.

Lemma hub_poll_restored (u : Utils) (d : Hub.Device) (st : Hub.hub2Status) :
  maintains (HubSetup.restored d)
    (seq (Hub.openAPIparseStatus u d st) (Hub.updateHomeKitCharacteristics d)).
Proof. hub_parsed_tac. Qed.

Lemma hub_webhook_restored (u : Utils) (d : Hub.Device) (w : Hub.hub2WebhookContext) :
  maintains (HubSetup.restored d)
    (seq (Hub.parseStatusWebhook u d w) (Hub.updateHomeKitCharacteristics d)).
Proof. hub_parsed_tac. Qed.

Ltac hub_restored_step :=
  idtac;
  match goal with
  | |- maintains _ (seq (Hub.BLEparseStatus _ _ _) _) => apply hub_ble_restored
  | |- maintains _ (seq (Hub.openAPIparseStatus _ _ _) _) => apply hub_poll_restored
  | |- maintains _ (seq (Hub.parseStatusWebhook _ _ _) _) => apply hub_webhook_restored
  end.

Lemma hub_inbound_restored (u : Utils) (d : Hub.Device) (p : Proc Hub.State) :
  Inbound.hub u d p -> maintains (HubSetup.restored d) p.
Proof.
  intros Hp.
  destruct Hp;
    unfold Hub.refreshStatus, Hub.bleEventHandler, Hub.webhookEventHandler,
      Hub.BLERefreshStatus, Hub.BLERefreshConnection, Hub.openAPIRefreshStatus,
      Hub.offlineOff, Hub.apiError;
    proc_maintains hub_restored_step.
Qed.

Lemma hub_reached_restored (u : Utils) (d : Hub.Device) (w : Wiring.t)
    (s : Hub.State) :
  Reached.hub u d w s -> HubSetup.restored d s.
Proof.
  induction 1 as [s0 H0 | s p _ IH Hp].
  - now apply hub_constructor_state.
  - now apply (hub_inbound_restored u d p Hp).
Qed.

(** *** The Lock *)

Lemma lock_constructor_state (d : Lock.Device) (w : Wiring.t) (s0 : Lock.State) :
  LockSetup.unset s0 ->
  let s := fst (LockSetup.constructor d w s0) in
  Lock.context s = Lock.context s0 /\ LockSetup.restored d w s.
Proof.
  intros (Hc & Hs). destruct s0 as [lt lc cs bl sl sw c ip].
  cbn in Hc, Hs. subst cs sw.
  cbv zeta. unfold LockSetup.constructor. rewrite inOrder_app, andThen_fst.
  rewrite inOrder_app, andThen_fst, still_startUp.
  unfold LockSetup.restored, LockSetup.removing.
  destruct (truthy_bool (Lock.hide_contactsensor d)), (LockSetup.latchOff w);
    cbn; repeat split; reflexivity.
Qed.

Ltac lock_parsed_tac :=
  intros [lt lc cs bl sl sw c ip] (H1 & H2 & H3 & H4 & H5 & H6 & H7);
  cbn [Lock.LockTargetState Lock.LockCurrentState Lock.ContactSensor
       Lock.BatteryLevel Lock.StatusLowBattery Lock.Switch Lock.context
       Lock.lockUpdateInProgress] in H1, H2, H3, H4, H5, H6, H7;
  subst lt lc cs bl sl sw ip;
  unfold LockSetup.restored, Lock.BLEparseStatus, Lock.openAPIparseStatus,
    Lock.parseStatusWebhook, Lock.openAPIparseFirmware,
    Lock.updateHomeKitCharacteristics, Lock.contactShown;
  destruct (truthy_bool (Lock.hide_contactsensor _)), (LockSetup.latchOff _);
  repeat match goal with
         | |- context [Lock.firmwareVersion ?v] => destruct (Lock.firmwareVersion v)
         | |- context [Lock.battery ?sd] => destruct (Lock.battery sd)
         end;
  lock_unfold; repeat split; ctx_lookup.

Lemma lock_ble_restored (d : Lock.Device) (w : Wiring.t) (sd : Lock.lockServiceData) :
  maintains (LockSetup.restored d w)
    (seq (Lock.BLEparseStatus d sd) (Lock.updateHomeKitCharacteristics d)).
Proof. lock_parsed_tac. Qed.

Lemma lock_poll_restored (d : Lock.Device) (w : Wiring.t) (st : Lock.lockStatus) :
  maintains (LockSetup.restored d w)
    (seq (Lock.openAPIparseStatus d st) (Lock.updateHomeKitCharacteristics d)).
Proof. lock_parsed_tac. Qed.

Lemma lock_webhook_restored (d : Lock.Device) (w : Wiring.t)
    (wc : Lock.lockWebhookContext) :
  maintains (LockSetup.restored d w)
    (seq (Lock.parseStatusWebhook wc) (Lock.updateHomeKitCharacteristics d)).
Proof. lock_parsed_tac. Qed.

Ltac lock_restored_step :=
  idtac;
  match goal with
  | |- maintains _ (seq (Lock.BLEparseStatus _ _) _) => apply lock_ble_restored
  | |- maintains _ (seq (Lock.openAPIparseStatus _ _) _) => apply lock_poll_restored
  | |- maintains _ (seq (Lock.parseStatusWebhook _) _) => apply lock_webhook_restored
  end.

Lemma lock_inbound_restored (d : Lock.Device) (w : Wiring.t) (p : Proc Lock.State) :
  Inbound.lock d p -> maintains (LockSetup.restored d w) p.
Proof.
  intros Hp.
  destruct Hp;
    unfold Lock.refreshStatus, Lock.bleEventHandler, Lock.webhookEventHandler,
      Lock.BLERefreshStatus, Lock.BLERefreshConnection, Lock.openAPIRefreshStatus,
      Lock.offlineOff, Lock.apiError;
    proc_maintains lock_restored_step.
Qed.

Lemma lock_reached_restored (d : Lock.Device) (w : Wiring.t) (s : Lock.State) :
  Reached.lock d w s -> LockSetup.restored d w s.
Proof.
  induction 1 as [s0 H0 | s p _ IH Hp].
  - now apply lock_constructor_state.
  - now apply (lock_inbound_restored d w p Hp).
Qed.

(** *** What a restart shows *)

(** X18.  Whatever status reports have reached a Hub 2 since it was
    constructed (refreshes, whatever the BLE client and the cloud answered,
    BLE events, webhooks), constructing the accessory again from the
    context that it has saved gives the sensors that it has: the values of
    the sensors that are shown, and no sensor that is hidden. *)
Theorem hub_restart_shows_last_report
    (u : Utils) (d : Hub.Device) (w : Wiring.t) (s s0 : Hub.State) :
  Reached.hub u d w s ->
  HubSetup.unset s0 ->
  Hub.context s0 = Hub.context s ->
  HubSetup.sensors (fst (HubSetup.constructor d w s0)) = HubSetup.sensors s.
Proof.
  intros Hs H0 Hc.
  destruct (hub_reached_restored u d w s Hs) as (Ht & Hh & Hl).
  destruct (hub_constructor_state d w s0 H0) as (Hc0 & Ht0 & Hh0 & Hl0).
  unfold HubSetup.sensors. rewrite Ht0, Hh0, Hl0, Ht, Hh, Hl, Hc0, Hc.
  reflexivity.
Qed.

(** X19.  The same for the Lock: after any status reports, constructing it
    again from the saved context gives the target and current state, the
    contact sensor, the battery level and its low-battery flag and the
    latch switch that it has, with no update in progress. *)
Theorem lock_restart_shows_last_report
    (d : Lock.Device) (w : Wiring.t) (s s0 : Lock.State) :
  Reached.lock d w s ->
  LockSetup.unset s0 ->
  Lock.context s0 = Lock.context s ->
  LockSetup.shown (fst (LockSetup.constructor d w s0)) = LockSetup.shown s.
Proof.
  intros Hs H0 Hc.
  destruct (lock_reached_restored d w s Hs) as (H1 & H2 & H3 & H4 & H5 & H6 & H7).
  destruct (lock_constructor_state d w s0 H0)
    as (Hc0 & G1 & G2 & G3 & G4 & G5 & G6 & G7).
  unfold LockSetup.shown.
  rewrite G1, G2, G3, G4, G5, G6, G7, H1, H2, H3, H4, H5, H6, H7, Hc0, Hc.
  reflexivity.
Qed.

Lemma newHub_context (ctx : gmap string Value) :
  Hub.context (SetupSamples.newHub ctx) = ctx.
Proof. reflexivity. Qed.

Lemma newLock_context (ctx : gmap string Value) :
  Lock.context (SetupSamples.newLock ctx) = ctx.
Proof. reflexivity. Qed.

Lemma hub_restart_shows_last_report_witness :
  HubSetup.sensors
    (fst (HubSetup.constructor SetupSamples.dryHub SetupSamples.wiring
            (SetupSamples.newHub
               (Hub.context
                  (fst (Hub.bleEventHandler Samples.utils SetupSamples.dryHub
                          SetupSamples.heardHub
                          (fst (HubSetup.constructor SetupSamples.dryHub
                                  SetupSamples.wiring (SetupSamples.newHub ∅)))))))))
  = HubSetup.sensors
      (fst (Hub.bleEventHandler Samples.utils SetupSamples.dryHub
              SetupSamples.heardHub
              (fst (HubSetup.constructor SetupSamples.dryHub SetupSamples.wiring
                      (SetupSamples.newHub ∅))))).
Proof.
  exact (hub_restart_shows_last_report Samples.utils SetupSamples.dryHub
           SetupSamples.wiring _ (SetupSamples.newHub _)
           (Reached.hub_reported _ _ _ _ _
              (Reached.hub_built _ _ _ (SetupSamples.newHub ∅)
                 (conj eq_refl (conj eq_refl eq_refl)))
              (Inbound.hub_ble _ _ SetupSamples.heardHub))
           (conj eq_refl (conj eq_refl eq_refl)) (newHub_context _)).
Defined.

Lemma lock_restart_shows_last_report_witness :
  LockSetup.shown
    (fst (LockSetup.constructor Samples.bleLock SetupSamples.wiring
            (SetupSamples.newLock
               (Lock.context
                  (fst (Lock.bleEventHandler Samples.bleLock SetupSamples.heardLock
                          (fst (LockSetup.constructor Samples.bleLock
                                  SetupSamples.wiring (SetupSamples.newLock ∅)))))))))
  = LockSetup.shown
      (fst (Lock.bleEventHandler Samples.bleLock SetupSamples.heardLock
              (fst (LockSetup.constructor Samples.bleLock SetupSamples.wiring
                      (SetupSamples.newLock ∅))))).
Proof.
  exact (lock_restart_shows_last_report Samples.bleLock SetupSamples.wiring _
           (SetupSamples.newLock _)
           (Reached.lock_reported _ _ _ _
              (Reached.lock_built _ _ (SetupSamples.newLock ∅) (conj eq_refl eq_refl))
              (Inbound.lock_ble _ SetupSamples.heardLock))
           (conj eq_refl eq_refl) (newLock_context _)).
Defined.

(** *** The services of an accessory *)

Lemma removed_app (a b : list Setup) : removed (a ++ b) = removed a ++ removed b.
Proof. apply flat_map_app. Qed.

Lemma added_app (a b : list Setup) : added (a ++ b) = added a ++ added b.
Proof. apply flat_map_app. Qed.

Lemma hub_constructor_services (d : Hub.Device) (w : Wiring.t) (s0 : Hub.State) :
  HubSetup.unset s0 ->
  let es := snd (HubSetup.constructor d w s0) in
  removed es = []
  /\ added es
     = (if truthy_bool (Hub.hide_temperature d) then [] else ["TemperatureSensor"])
       ++ (if truthy_bool (Hub.hide_humidity d) then [] else ["HumiditySensor"])
       ++ (if truthy_bool (Hub.hide_lightsensor d) then [] else ["LightSensor"]).
Proof.
  intros (Ht & Hh & Hl). destruct s0 as [t h l c]. cbn in Ht, Hh, Hl. subst t h l.
  cbv zeta. unfold HubSetup.constructor. rewrite inOrder_app, andThen_snd.
  rewrite removed_app, added_app.
  rewrite (proj1 (startUp_services _ w _)), (proj2 (startUp_services _ w _)).
  rewrite !app_nil_r. unfold HubSetup.sensor.
  destruct (truthy_bool (Hub.hide_temperature d)),
    (truthy_bool (Hub.hide_humidity d)), (truthy_bool (Hub.hide_lightsensor d));
    cbn; split; reflexivity.
Qed.

Lemma lock_constructor_services (d : Lock.Device) (w : Wiring.t) (s0 : Lock.State) :
  LockSetup.unset s0 ->
  let es := snd (LockSetup.constructor d w s0) in
  removed es = []
  /\ added es
     = ["LockMechanism"; "Battery"]
       ++ (if truthy_bool (Lock.hide_contactsensor d) then [] else ["ContactSensor"])
       ++ (if LockSetup.latchOff w then [] else ["Switch"]).
Proof.
  intros (Hc & Hs). destruct s0 as [lt lc cs bl sl sw c ip].
  cbn in Hc, Hs. subst cs sw.
  cbv zeta. unfold LockSetup.constructor.
  rewrite inOrder_app, andThen_snd, removed_app, added_app.
  rewrite inOrder_app, andThen_snd, removed_app, added_app.
  rewrite (proj1 (startUp_services _ w _)), (proj2 (startUp_services _ w _)).
  unfold LockSetup.removing.
  destruct (truthy_bool (Lock.hide_contactsensor d)), (LockSetup.latchOff w);
    cbn; split; reflexivity.
Qed.

(** X20.  A constructor removes no service.  The Hub 2 and the Lock test the
    field of a sensor that the configuration hides before they remove its
    service, and on the object that is being constructed no such field is
    set: the service of a hidden sensor, if an earlier run has left one on
    the accessory, stays there.  The services that the constructor gets or
    adds are those of what is shown. *)
Theorem constructors_remove_no_service :
  (forall d w s0,
     HubSetup.unset s0 ->
     let es := snd (HubSetup.constructor d w s0) in
     removed es = []
     /\ added es
        = (if truthy_bool (Hub.hide_temperature d) then [] else ["TemperatureSensor"])
          ++ (if truthy_bool (Hub.hide_humidity d) then [] else ["HumiditySensor"])
          ++ (if truthy_bool (Hub.hide_lightsensor d) then [] else ["LightSensor"]))
  /\ (forall d w s0,
        LockSetup.unset s0 ->
        let es := snd (LockSetup.constructor d w s0) in
        removed es = []
        /\ added es
           = ["LockMechanism"; "Battery"]
             ++ (if truthy_bool (Lock.hide_contactsensor d) then []
                 else ["ContactSensor"])
             ++ (if LockSetup.latchOff w then [] else ["Switch"])).
Proof.
  split.
  - exact hub_constructor_services.
  - exact lock_constructor_services.
Qed.

Lemma constructors_remove_no_service_witness :
  removed (snd (HubSetup.constructor SetupSamples.dryHub SetupSamples.wiring
                  (SetupSamples.newHub ∅))) = []
  /\ added (snd (HubSetup.constructor SetupSamples.dryHub SetupSamples.wiring
                   (SetupSamples.newHub ∅)))
     = ["TemperatureSensor"; "LightSensor"].
Proof.
  exact (proj1 constructors_remove_no_service SetupSamples.dryHub
           SetupSamples.wiring (SetupSamples.newHub ∅)
           (conj eq_refl (conj eq_refl eq_refl))).
Defined.

End SetupFacts.

Module WindowFacts.
Import ProcFacts Lock Debounce Windows.

Lemma pushes_snoc (h : list (Ran * bool)) (r : Ran * bool) :
  pushes (h ++ [r]) = pushes h ++ (if is_push r then [r] else []).
Proof.
  unfold pushes. rewrite List.filter_app. cbn [List.filter].
  now destruct (is_push r).
Qed.

Section Loop.
Variables (d : Device) (answers : Z -> PushAnswers) (rate : Z).

Lemma fire_spec (t : Z) (w : Loop) :
  due w = Some t ->
  let w' := fire d answers w in
  due w' = None /\ lockUpdateInProgress (lock w') = false
  /\ List.map stamp (pushes (history w'))
     = List.map stamp (pushes (history w)) ++ [(t, LockTargetState (lock w))].
Proof.
  intros Hdue. unfold fire. rewrite Hdue.
  pose proof (DebounceFacts.subscriber_resets d (answers t) (lock w)) as Hr.
  destruct (doLockUpdate_subscriber d (answers t) (lock w)) as [s' es].
  cbn [fst] in Hr. cbn [lock due history]. rewrite Hr.
  split; [reflexivity |]. split; [reflexivity |].
  rewrite pushes_snoc. cbn [is_push fst]. now rewrite List.map_app.
Qed.

Lemma call_spec (now : Z) (v : Value) (w : Loop) :
  let w' := call d answers rate now v w in
  due w' = Some (now + rate) /\ LockTargetState (lock w') = v
  /\ pushes (history w') = pushes (history (elapse d answers now w)).
Proof.
  unfold call.
  destruct (DebounceFacts.LockTargetStateSet_run v (lock (elapse d answers now w)))
    as [Hs _].
  destruct (LockTargetStateSet v (lock (elapse d answers now w))) as [s' es].
  cbn [fst] in Hs. cbn [lock due history]. subst s'.
  split; [reflexivity |]. split; [reflexivity |].
  rewrite pushes_snoc. cbn [is_push fst]. apply app_nil_r.
Qed.

(** The loop with the window of the call [(t, v)] open. *)
Lemma run_pending (calls : list (Z * Value)) :
  forall (t : Z) (v : Value) (w : Loop) (now : Z),
    due w = Some (t + rate) -> LockTargetState (lock w) = v ->
    Forall (fun c => fst c + rate <= now) ((t, v) :: calls) ->
    let w' := elapse d answers now (run d answers rate calls w) in
    List.map stamp (pushes (history w'))
    = List.map stamp (pushes (history w))
      ++ List.map (pushed rate) (closing rate ((t, v) :: calls))
    /\ due w' = None /\ lockUpdateInProgress (lock w') = false.
Proof.
  induction calls as [|[t' v'] rest IH]; intros t v w now Hdue Hv Hnow.
  - cbn [run closing List.map]. unfold elapse. rewrite Hdue.
    inversion Hnow as [|? ? Ht _]; subst. cbn [fst] in Ht.
    destruct (Z.leb_spec (t + rate) now) as [_ | Hlt]; [| lia].
    destruct (fire_spec (t + rate) w Hdue) as (Hd & Hp & Hh).
    split; [| split; assumption]. rewrite Hh. reflexivity.
  - cbn [run].
    destruct (call_spec t' v' w) as (Hd2 & Hv2 & Hh2).
    inversion Hnow as [|? ? Ht Hrest]; subst.
    destruct (IH t' v' _ now Hd2 Hv2 Hrest) as (Hh & Hd & Hp).
    split; [| split; assumption].
    rewrite Hh, Hh2. clear IH Hh Hd Hp Hh2.
    change (closing rate ((t, LockTargetState (lock w)) :: (t', v') :: rest))
      with (if t + rate <=? t'
            then (t, LockTargetState (lock w)) :: closing rate ((t', v') :: rest)
            else closing rate ((t', v') :: rest)).
    unfold elapse. rewrite Hdue.
    destruct (t + rate <=? t').
    + destruct (fire_spec (t + rate) w Hdue) as (_ & _ & Hf).
      rewrite Hf. cbn [List.map]. rewrite <- app_assoc. reflexivity.
    + reflexivity.
Qed.

Lemma run_idle (calls : list (Z * Value)) (w0 : Loop) (now : Z) :
  due w0 = None ->
  Forall (fun c => fst c + rate <= now) calls ->
  let w := elapse d answers now (run d answers rate calls w0) in
  List.map stamp (pushes (history w))
  = List.map stamp (pushes (history w0))
    ++ List.map (pushed rate) (closing rate calls)
  /\ due w = None
  /\ (calls <> [] -> lockUpdateInProgress (lock w) = false).
Proof.
  intros Hidle Hnow. destruct calls as [|[t v] rest].
  - cbn [run closing List.map]. unfold elapse. rewrite Hidle, app_nil_r.
    split; [reflexivity |]. split; [assumption |]. intros H. now destruct H.
  - cbn [run].
    destruct (call_spec t v w0) as (Hd & Hv & Hh).
    destruct (run_pending rest t v _ now Hd Hv Hnow) as (Hr & Hd' & Hp).
    split; [| split; [assumption | intros _; assumption]].
    rewrite Hr, Hh. unfold elapse. now rewrite Hidle.
Qed.

End Loop.

(** X21.  Calls of [LockTargetStateSet] at any distance from each other,
    starting with no timer pending, once [devicePushRate] has passed after
    each of them: the subscriber of [doLockUpdate] has run once for every
    call that no other call followed within [devicePushRate], then, and with
    the value of that call as the target; the calls that another one
    followed sooner led to no push.  No timer is left pending, and
    [lockUpdateInProgress] is reset. *)
Theorem debounce_pushes_once_per_window
    (d : Device) (answers : Z -> PushAnswers) (rate : Z)
    (calls : list (Z * Value)) (w0 : Loop) (now : Z) :
  due w0 = None ->
  Forall (fun c => fst c + rate <= now) calls ->
  let w := elapse d answers now (run d answers rate calls w0) in
  List.map stamp (pushes (history w))
  = List.map stamp (pushes (history w0))
    ++ List.map (pushed rate) (closing rate calls)
  /\ due w = None
  /\ (calls <> [] -> lockUpdateInProgress (lock w) = false).
Proof. exact (run_idle d answers rate calls w0 now). Qed.

Lemma debounce_pushes_once_per_window_witness :
  List.map stamp
    (pushes (history
       (elapse Samples.cloudLock (fun _ => Samples.agreeing) 5000
          (run Samples.cloudLock (fun _ => Samples.agreeing) 100
             [(0, HAP.LockTargetState_SECURED);
              (50, HAP.LockTargetState_UNSECURED);
              (400, HAP.LockTargetState_SECURED)]
             Samples.idle))))
  = [(150, HAP.LockTargetState_UNSECURED); (500, HAP.LockTargetState_SECURED)].
Proof.
  refine (proj1 (debounce_pushes_once_per_window Samples.cloudLock
                   (fun _ => Samples.agreeing) 100
                   [(0, HAP.LockTargetState_SECURED);
                    (50, HAP.LockTargetState_UNSECURED);
                    (400, HAP.LockTargetState_SECURED)]
                   Samples.idle 5000 eq_refl _)).
  repeat constructor; cbn; lia.
Defined.

End WindowFacts.
